(** * SolYield: the subscription gate, the user registry and the investment workflow

    A shallow embedding of the parts of the dashboard that decide what is
    persisted and who is answered:

    - the relational store behind Prisma ([Db]), with the unique and
      foreign-key constraints of [prisma/schema.prisma];
    - [DatabaseStorage] ([Storage]), [SolanaService] and the Express route
      handlers of [server/routes.ts] ([Routes]);
    - the client helpers [checkUsdcBalanceForLiquidity], [stakeRayToFarm]
      ([RayStaking]) and [swapSolToRay] ([SolanaSwap]);
    - the [investMutation.mutationFn] workflow of the investment modal
      ([InvestmentModal]) and the client-side gate of [AIRecommendations];
    - the rest of [DatabaseStorage] (preferences, risk profile, yield
      statistics, portfolio, transaction log and their mock data), the
      sessions of [SolanaService], the chat histories of [OpenAIService] and
      the handlers that read them.

    Conventions.  A JavaScript [number] is a rational ([Q]): NaN, the
    infinities and binary rounding are outside the model.  An [async]
    function is a function into [res]: [Ok v] is a promise resolved with
    [v], [Throw e] a rejected one.  Calls that leave the program (chain
    RPC, the Raydium SDK and HTTP API, the wallet, the OpenAI client, the
    clock, [Math.random]) are fields of environment records, so that a run
    is a function of the environment it met.  The database answers every
    call: a read returns what the tables hold, a write fails only on a
    constraint of the schema.  A [Decimal] column stores a number rounded
    to its scale ([Db.decimal]).  A number too large for its column and an
    id outside the range of the [Int] columns, both of which the database
    client refuses, are outside the model: [Db.decimal_fits] and
    [Db.is_Int] say which numbers are inside.  [console.log] and
    [console.error] are not recorded. *)

From Stdlib Require Import ZArith QArith String Ascii List Bool Lia Lqa.
From Stdlib Require Import Qround Qabs Decimal DecimalString DecimalPos Sorted.
From stdpp Require Import base option list gmap strings.
Import ListNotations.

Open Scope string_scope.
Open Scope Z_scope.

(** ** Exceptions and the [async] result monad *)

(** What a [throw] carries: an [Error] with its message, a Prisma
    known-request error with its [code] and [meta.target], or any other
    thrown value. *)
Inductive Exn : Type :=
| JsError (message : string)
| PrismaError (code : string) (target : list string) (message : string)
| Thrown (v : string).

(** [error.message]; [undefined] on a thrown value that is not an error. *)
Definition exn_message (e : Exn) : option string :=
  match e with
  | JsError m => Some m
  | PrismaError _ _ m => Some m
  | Thrown _ => None
  end.

(** [error instanceof Error] *)
Definition instanceofError (e : Exn) : bool :=
  match e with
  | Thrown _ => false
  | _ => true
  end.

Inductive res (A : Type) : Type :=
| Ok (a : A)
| Throw (e : Exn).
Arguments Ok {A} a.
Arguments Throw {A} e.

Definition res_bind {A B : Type} (m : res A) (k : A -> res B) : res B :=
  match m with
  | Ok a => k a
  | Throw e => Throw e
  end.

(** [try { body } catch (error) { handler }] *)
Definition try_catch {A : Type} (body : res A) (handler : Exn -> res A) : res A :=
  match body with
  | Ok a => Ok a
  | Throw e => handler e
  end.

Declare Scope res_scope.
Delimit Scope res_scope with res.
Notation "'let*' x ':=' m 'in' k" := (res_bind m (fun x => k))
  (at level 10, x pattern, m at level 100, k at level 200) : res_scope.

(** ** Small pieces of JavaScript *)

(** [haystack.includes(needle)] *)
Fixpoint includes (needle haystack : string) : bool :=
  String.prefix needle haystack ||
  match haystack with
  | EmptyString => false
  | String _ rest => includes needle rest
  end.

(** [list.includes(x)] on an array of strings *)
Definition list_includes (x : string) (l : list string) : bool :=
  existsb (String.eqb x) l.

(** Truthiness of an optional numeric id: [undefined] and [0] are falsy. *)
Definition truthy_id (o : option Z) : bool :=
  match o with
  | Some n => negb (n =? 0)
  | None => false
  end.

(** The white space [parseInt] skips (the ASCII part of StrWhiteSpaceChar). *)
Definition is_js_space (c : ascii) : bool :=
  let n := nat_of_ascii c in
  ((9 <=? n) && (n <=? 13))%nat || (n =? 32)%nat.

Definition digit_value (c : ascii) : option Z :=
  let n := nat_of_ascii c in
  if ((48 <=? n) && (n <=? 57))%nat then Some (Z.of_nat n - 48) else None.

Fixpoint skip_spaces (s : string) : string :=
  match s with
  | String c rest => if is_js_space c then skip_spaces rest else s
  | EmptyString => s
  end.

(** The longest prefix of decimal digits, read from the left with
    accumulator [acc]; [seen] tells whether a digit was read. *)
Fixpoint read_digits (s : string) (seen : bool) (acc : Z) : option Z :=
  match s with
  | String c rest =>
      match digit_value c with
      | Some d => read_digits rest true (10 * acc + d)
      | None => if seen then Some acc else None
      end
  | EmptyString => if seen then Some acc else None
  end.

(** [parseInt(s, 10)]; [None] is NaN. *)
Definition parseInt (s : string) : option Z :=
  match skip_spaces s with
  | String "-"%char rest => Z.opp <$> read_digits rest false 0
  | String "+"%char rest => read_digits rest false 0
  | t => read_digits t false 0
  end.

(** [Math.min(a, b)] *)
Definition Math_min (a b : Q) : Q := if Qle_bool a b then a else b.

(** [n.toString()] of an integral number *)
Definition toString (n : Z) : string :=
  NilZero.string_of_int (Z.to_int n).

(** [x.toFixed(2)]: two decimals, the exact value rounded half away from
    zero. *)
Definition toFixed2 (x : Q) : string :=
  let cents := Qfloor (Qabs x * (100 # 1) + (1 # 2))%Q in
  let frac := cents mod 100 in
  let sign := if Qle_bool 0 x then "" else "-" in
  let pad := if (frac <? 10)%Z then "0" else "" in
  sign ++ toString (cents / 100) ++ "." ++ pad ++ toString frac.

(** A value of a parsed request body. *)
Inductive JsValue : Type :=
| JUndefined
| JNull
| JBool (b : bool)
| JNum (q : Q)
| JStr (s : string)
| JDate (t : Z)
| JObject.

(** [Math.max(a, b)] *)
Definition Math_max (a b : Q) : Q := if Qle_bool a b then b else a.

(** [parseFloat(x.toFixed(2))]: the number the two decimals of [toFixed2]
    denote. *)
Definition round2 (x : Q) : Q :=
  let cents := Qfloor (Qabs x * (100 # 1) + (1 # 2))%Q in
  if Qle_bool 0 x then (inject_Z cents / (100 # 1))%Q
  else (- (inject_Z cents / (100 # 1)))%Q.

(** [s.charAt(i)]: the empty string when [i] is out of range. *)
Definition charAt (s : string) (i : Z) : string :=
  if i <? 0 then ""
  else match String.get (Z.to_nat i) s with
       | Some c => String c EmptyString
       | None => ""
       end.

(** The members an object literal inherits from [Object.prototype]. *)
Definition Object_prototype_members : list string :=
  ["constructor"; "__defineGetter__"; "__defineSetter__"; "hasOwnProperty";
   "__lookupGetter__"; "__lookupSetter__"; "isPrototypeOf"; "propertyIsEnumerable";
   "toString"; "valueOf"; "__proto__"; "toLocaleString"].

(** What [table[key]] finds in an object literal: an own property, a member
    inherited from [Object.prototype] (a function, or the prototype itself
    for [__proto__]: truthy, not a number and not iterable), or
    [undefined]. *)
Inductive Lookup (A : Type) : Type :=
| Own (a : A)
| Inherited
| Missing.
Arguments Own {A} a.
Arguments Inherited {A}.
Arguments Missing {A}.

Definition lookup_literal {A : Type} (table : list (string * A)) (key : string) : Lookup A :=
  match find (fun kv => String.eqb (fst kv) key) table with
  | Some kv => Own (snd kv)
  | None => if list_includes key Object_prototype_members then Inherited else Missing
  end.

(** [new Set(l)]: the elements of [l] in the order of their first
    occurrence. *)
Definition Set_add (s : list string) (x : string) : list string :=
  if list_includes x s then s else (s ++ [x])%list.

Definition Set_of (l : list string) : list string := fold_left Set_add l [].

(** ** The relational store *)

Module Db.

Record User : Type := mkUser {
  u_id : Z;
  u_walletAddress : string;
  u_username : option string;
  u_email : option string;
  u_createdAt : Z;
  u_lastLogin : option Z
}.

Record UserPreference : Type := mkUserPreference {
  pr_id : Z;
  pr_userId : Z;
  pr_telegramChatId : option string;
  pr_telegramUsername : option string;
  pr_riskTolerance : string;
  pr_preferredChains : list string;
  pr_preferredTokens : list string;
  pr_notificationsEnabled : bool
}.

Record YieldOpportunity : Type := mkYieldOpportunity {
  o_id : Z;
  o_name : string;
  o_protocol : string;
  o_apy : Q;
  o_riskLevel : string;
  o_tokenPair : option (list string);
  o_depositFee : Q
}.

Record UserPortfolio : Type := mkUserPortfolio {
  p_id : Z;
  p_userId : Z;
  p_opportunityId : Z;
  p_amount : Q;
  p_depositDate : Z;
  p_token : string;
  p_active : bool
}.

Record Transaction : Type := mkTransaction {
  t_id : Z;
  t_userId : Z;
  t_opportunityId : Z;
  t_transactionType : string;
  t_amount : Q;
  t_token : string;
  t_transactionDate : Z;
  t_status : string;
  t_transactionHash : option string
}.

Record SolanaSubscription : Type := mkSolanaSubscription {
  s_id : Z;
  s_userId : Z;
  s_subscriptionDate : Z;
  s_transactionHash : option string;
  s_amount : Q;
  s_currency : string;
  s_isActive : bool
}.

(** The tables, rows in insertion order, and the next value of each
    [autoincrement] sequence.  The gaps a failed insert leaves in a
    sequence are not modelled. *)
Record t : Type := mk {
  users : list User;
  preferences : list UserPreference;
  opportunities : list YieldOpportunity;
  portfolios : list UserPortfolio;
  transactions : list Transaction;
  subscriptions : list SolanaSubscription;
  next_user : Z;
  next_preference : Z;
  next_portfolio : Z;
  next_transaction : Z;
  next_subscription : Z
}.

Definition empty : t := mk [] [] [] [] [] [] 1 1 1 1 1.

Definition has_user (db : t) (id : Z) : bool :=
  existsb (fun u => u_id u =? id) (users db).

Definition has_opportunity (db : t) (id : Z) : bool :=
  existsb (fun o => o_id o =? id) (opportunities db).

(** What a [Decimal(precision, scale)] column stores of a number:
    PostgreSQL rounds it to [scale] decimals, a tie away from zero
    ([0.005] is stored as [0.01] at scale 2).  The result is in lowest
    terms. *)
Definition decimal (scale : nat) (x : Q) : Q :=
  let unit := inject_Z (10 ^ Z.of_nat scale) in
  let n := inject_Z (Qfloor (Qabs x * unit + (1 # 2))%Q) in
  Qred (if Qle_bool 0 x then n / unit else - (n / unit))%Q.

(** The numbers a [Decimal(precision, scale)] column takes: those that
    round to less than [10 ^ (precision - scale)] in absolute value.  The
    database refuses any other (numeric field overflow); the inserts below
    are those of the numbers the column takes. *)
Definition decimal_fits (precision scale : nat) (x : Q) : bool :=
  negb (Qle_bool (inject_Z (10 ^ Z.of_nat (precision - scale))) (Qabs (decimal scale x))).

(** The values of an [Int] column, and of an [Int] argument of a query:
    the 32-bit signed integers.  The client refuses a query by any other
    number; the queries below are those by the numbers in range. *)
Definition is_Int (n : Z) : bool := (-2147483648 <=? n) && (n <=? 2147483647).

(** Unique constraint failed (P2002) and foreign key constraint failed
    (P2003), as Prisma reports them. *)
Definition P2002 (target : list string) : Exn :=
  PrismaError "P2002" target "Unique constraint failed".
Definition P2003 (field : string) : Exn :=
  PrismaError "P2003" [field] "Foreign key constraint failed".

(** [prisma.user.findUnique({ where: { walletAddress } })] *)
Definition user_findUnique_wallet (db : t) (w : string) : option User :=
  find (fun u => String.eqb (u_walletAddress u) w) (users db).

(** [prisma.user.findUnique({ where: { id } })] *)
Definition user_findUnique_id (db : t) (id : Z) : option User :=
  find (fun u => u_id u =? id) (users db).

(** [prisma.user.create]: [walletAddress] is [@unique] and mapped to the
    column [wallet_address]. *)
Definition user_create (db : t) (now : Z) (walletAddress : string)
    (username email : option string) (lastLogin : option Z) : res (t * User) :=
  match user_findUnique_wallet db walletAddress with
  | Some _ => Throw (P2002 ["wallet_address"])
  | None =>
      let u := mkUser (next_user db) walletAddress username email now lastLogin in
      Ok (mk (users db ++ [u]) (preferences db) (opportunities db) (portfolios db)
             (transactions db) (subscriptions db)
             (next_user db + 1) (next_preference db) (next_portfolio db)
             (next_transaction db) (next_subscription db), u)
  end.

Definition set_lastLogin (id : Z) (now : Z) (u : User) : User :=
  if u_id u =? id
  then mkUser (u_id u) (u_walletAddress u) (u_username u) (u_email u) (u_createdAt u) (Some now)
  else u.

(** [prisma.user.update({ where: { id }, data: { lastLogin } })]; P2025
    when no such record exists. *)
Definition user_update_lastLogin (db : t) (id : Z) (now : Z) : res t :=
  if has_user db id
  then Ok (mk (map (set_lastLogin id now) (users db)) (preferences db) (opportunities db)
              (portfolios db) (transactions db) (subscriptions db)
              (next_user db) (next_preference db) (next_portfolio db)
              (next_transaction db) (next_subscription db))
  else Throw (PrismaError "P2025" [] "Record to update not found").

(** [prisma.userPreference.create]: [userId] is [@unique] and references
    [users]. *)
Definition userPreference_create (db : t) (userId : Z)
    (telegramChatId telegramUsername : option string) (riskTolerance : string)
    (preferredChains preferredTokens : list string) (notificationsEnabled : bool)
    : res (t * UserPreference) :=
  if existsb (fun p => pr_userId p =? userId) (preferences db)
  then Throw (P2002 ["user_id"])
  else if negb (has_user db userId)
  then Throw (P2003 "user_preferences_user_id_fkey")
  else
    let p := mkUserPreference (next_preference db) userId telegramChatId telegramUsername
               riskTolerance preferredChains preferredTokens notificationsEnabled in
    Ok (mk (users db) (preferences db ++ [p]) (opportunities db) (portfolios db)
           (transactions db) (subscriptions db)
           (next_user db) (next_preference db + 1) (next_portfolio db)
           (next_transaction db) (next_subscription db), p).

(** [prisma.userPortfolio.create]; [amount] is a [Decimal(20, 2)] column. *)
Definition userPortfolio_create (db : t) (userId opportunityId : Z) (amount : Q)
    (depositDate : Z) (token : string) (active : bool) : res (t * UserPortfolio) :=
  if negb (has_user db userId)
  then Throw (P2003 "user_portfolios_user_id_fkey")
  else if negb (has_opportunity db opportunityId)
  then Throw (P2003 "user_portfolios_opportunity_id_fkey")
  else
    let p := mkUserPortfolio (next_portfolio db) userId opportunityId (decimal 2 amount)
               depositDate token active in
    Ok (mk (users db) (preferences db) (opportunities db) (portfolios db ++ [p])
           (transactions db) (subscriptions db)
           (next_user db) (next_preference db) (next_portfolio db + 1)
           (next_transaction db) (next_subscription db), p).

(** [prisma.transaction.create]; [amount] is a [Decimal(20, 2)] column. *)
Definition transaction_create (db : t) (userId opportunityId : Z)
    (transactionType : string) (amount : Q) (token : string) (transactionDate : Z)
    (status : string) (transactionHash : option string) : res (t * Transaction) :=
  if negb (has_user db userId)
  then Throw (P2003 "transactions_user_id_fkey")
  else if negb (has_opportunity db opportunityId)
  then Throw (P2003 "transactions_opportunity_id_fkey")
  else
    let x := mkTransaction (next_transaction db) userId opportunityId transactionType
               (decimal 2 amount) token transactionDate status transactionHash in
    Ok (mk (users db) (preferences db) (opportunities db) (portfolios db)
           (transactions db ++ [x]) (subscriptions db)
           (next_user db) (next_preference db) (next_portfolio db)
           (next_transaction db + 1) (next_subscription db), x).

(** [prisma.yieldOpportunity.findUnique({ where: { id } })] *)
Definition yieldOpportunity_findUnique (db : t) (id : Z) : option YieldOpportunity :=
  find (fun o => o_id o =? id) (opportunities db).

(** The first row of [l] with the greatest key, as [orderBy: desc] with
    [findFirst] returns it (ties go to the earlier row). *)
Fixpoint first_latest {A : Type} (key : A -> Z) (l : list A) : option A :=
  match l with
  | [] => None
  | x :: rest =>
      match first_latest key rest with
      | Some y => if key x <? key y then Some y else Some x
      | None => Some x
      end
  end.

(** [prisma.solanaSubscription.findFirst({ where: { userId, isActive: true },
    orderBy: { subscriptionDate: 'desc' } })] *)
Definition solanaSubscription_findFirst_active (db : t) (userId : Z)
    : option SolanaSubscription :=
  first_latest s_subscriptionDate
    (List.filter (fun s => (s_userId s =? userId) && s_isActive s) (subscriptions db)).

(** [prisma.solanaSubscription.create]; [subscriptionDate] defaults to
    [now()], and [amount] is a [Decimal(20, 9)] column. *)
Definition solanaSubscription_create (db : t) (now : Z) (userId : Z)
    (transactionHash : option string) (amount : Q) (currency : string) (isActive : bool)
    : res (t * SolanaSubscription) :=
  if negb (has_user db userId)
  then Throw (P2003 "solana_subscriptions_user_id_fkey")
  else
    let s := mkSolanaSubscription (next_subscription db) userId now transactionHash
               (decimal 9 amount) currency isActive in
    Ok (mk (users db) (preferences db) (opportunities db) (portfolios db)
           (transactions db) (subscriptions db ++ [s])
           (next_user db) (next_preference db) (next_portfolio db)
           (next_transaction db) (next_subscription db + 1), s).

(** [prisma.userPreference.findUnique({ where: { userId } })] *)
Definition userPreference_findUnique (db : t) (userId : Z) : option UserPreference :=
  find (fun p => pr_userId p =? userId) (preferences db).

Definition set_preference (userId : Z) (telegramChatId telegramUsername : option string)
    (riskTolerance : string) (preferredChains preferredTokens : list string)
    (notificationsEnabled : bool) (p : UserPreference) : UserPreference :=
  if pr_userId p =? userId
  then mkUserPreference (pr_id p) (pr_userId p) telegramChatId telegramUsername
         riskTolerance preferredChains preferredTokens notificationsEnabled
  else p.

(** [prisma.userPreference.update({ where: { userId }, data })], [data]
    giving the six columns; P2025 when no such record exists. *)
Definition userPreference_update (db : t) (userId : Z)
    (telegramChatId telegramUsername : option string) (riskTolerance : string)
    (preferredChains preferredTokens : list string) (notificationsEnabled : bool)
    : res (t * UserPreference) :=
  match userPreference_findUnique db userId with
  | Some p =>
      Ok (mk (users db)
             (map (set_preference userId telegramChatId telegramUsername riskTolerance
                     preferredChains preferredTokens notificationsEnabled) (preferences db))
             (opportunities db) (portfolios db) (transactions db) (subscriptions db)
             (next_user db) (next_preference db) (next_portfolio db)
             (next_transaction db) (next_subscription db),
          set_preference userId telegramChatId telegramUsername riskTolerance
            preferredChains preferredTokens notificationsEnabled p)
  | None => Throw (PrismaError "P2025" [] "Record to update not found")
  end.

(** [include: { opportunity: true }]: the row with the opportunity its
    foreign key names.  The foreign key excludes a row without one; the
    client rejects such a result. *)
Definition include_opportunity {A : Type} (db : t) (opportunityId : A -> Z) (row : A)
    : res (A * YieldOpportunity) :=
  match yieldOpportunity_findUnique db (opportunityId row) with
  | Some o => Ok (row, o)
  | None => Throw (JsError "Inconsistent query result: Field opportunity is required to return data")
  end.

Fixpoint include_all {A : Type} (db : t) (opportunityId : A -> Z) (rows : list A)
    : res (list (A * YieldOpportunity)) :=
  match rows with
  | [] => Ok []
  | row :: rest =>
      res_bind (include_opportunity db opportunityId row) (fun x =>
      res_bind (include_all db opportunityId rest) (fun xs => Ok (x :: xs)))
  end.

(** [prisma.userPortfolio.findMany({ where: { userId, active: true },
    include: { opportunity: true } })], rows in insertion order. *)
Definition userPortfolio_findMany_active (db : t) (userId : Z)
    : res (list (UserPortfolio * YieldOpportunity)) :=
  include_all db p_opportunityId
    (List.filter (fun p => (p_userId p =? userId) && p_active p) (portfolios db)).

(** [ORDER BY transaction_date DESC], rows of equal date in insertion
    order. *)
Fixpoint insert_by_date (x : Transaction) (sorted : list Transaction) : list Transaction :=
  match sorted with
  | [] => [x]
  | y :: rest =>
      if t_transactionDate y <=? t_transactionDate x then x :: sorted
      else y :: insert_by_date x rest
  end.

(** [prisma.transaction.findMany({ where, orderBy: { transactionDate:
    'desc' }, include: { opportunity: true } })]: [transactionType] is the
    optional condition on the type. *)
Definition transaction_findMany (db : t) (userId : Z) (transactionType : option string)
    : res (list (Transaction * YieldOpportunity)) :=
  include_all db t_opportunityId
    (fold_right insert_by_date []
       (List.filter (fun x => (t_userId x =? userId)
                              && match transactionType with
                                 | Some ty => String.eqb (t_transactionType x) ty
                                 | None => true
                                 end) (transactions db))).

(** What a request served concurrently can do to the [users] table: the
    program creates users and stamps their last login, and deletes none. *)
Inductive Write : Type :=
| CreateUser (walletAddress : string) (now : Z)
| TouchUser (id : Z) (now : Z).

Definition apply_write (db : t) (w : Write) : t :=
  match w with
  | CreateUser walletAddress now =>
      match user_create db now walletAddress None None (Some now) with
      | Ok (db', _) => db'
      | Throw _ => db
      end
  | TouchUser id now =>
      match user_update_lastLogin db id now with
      | Ok db' => db'
      | Throw _ => db
      end
  end.

Definition apply_writes (ws : list Write) (db : t) : t := fold_left apply_write ws db.

End Db.

(** ** State and exceptions: what a handler does to the server *)

(** A computation over a state [S] that may throw; the state reached so far
    survives the exception (no statement of the program is wrapped in a
    database transaction). *)
Definition sx (S A : Type) : Type := S -> S * res A.

Definition sx_ret {S A : Type} (a : A) : sx S A := fun s => (s, Ok a).
Definition sx_throw {S A : Type} (e : Exn) : sx S A := fun s => (s, Throw e).
Definition sx_bind {S A B : Type} (m : sx S A) (k : A -> sx S B) : sx S B :=
  fun s => match m s with
           | (s', Ok a) => k a s'
           | (s', Throw e) => (s', Throw e)
           end.
Definition sx_catch {S A : Type} (body : sx S A) (handler : Exn -> sx S A) : sx S A :=
  fun s => match body s with
           | (s', Ok a) => (s', Ok a)
           | (s', Throw e) => handler e s'
           end.
Definition sx_of_res {S A : Type} (r : res A) : sx S A := fun s => (s, r).

Declare Scope sx_scope.
Delimit Scope sx_scope with sx.
Notation "x <- m ;; k" := (sx_bind m (fun x => k))
  (at level 62, m at next level, right associativity) : sx_scope.
Notation "m ;;; k" := (sx_bind m (fun _ => k))
  (at level 62, right associativity) : sx_scope.
Open Scope sx_scope.

(** ** [DatabaseStorage] *)

Module Storage.
Import Db.

Record InsertUser : Type := mkInsertUser {
  iu_walletAddress : string;
  iu_username : option string;
  iu_email : option string;
  iu_lastLogin : option Z
}.

Record InsertUserPreference : Type := mkInsertUserPreference {
  ip_userId : Z;
  ip_telegramChatId : option string;
  ip_telegramUsername : option string;
  ip_riskTolerance : string;
  ip_preferredChains : option (list string);
  ip_preferredTokens : option (list string);
  ip_notificationsEnabled : bool
}.

(** [InsertUserPortfolio]: [userId] is any number ([z.number()]); no
    function reads it.  [amount] is a number: the string the type allows
    as well, which the database client reads as a decimal, is outside the
    model. *)
Record InsertUserPortfolio : Type := mkInsertUserPortfolio {
  ipf_userId : Q;
  ipf_opportunityId : Z;
  ipf_amount : Q;
  ipf_depositDate : Z;
  ipf_token : string;
  ipf_active : bool
}.

Record InsertSolanaSubscription : Type := mkInsertSolanaSubscription {
  is_userId : Z;
  is_transactionHash : option string;
  is_amount : Q;
  is_currency : string;
  is_isActive : bool
}.

(** The portfolio item [createInvestment] returns: the new row with the
    opportunity's name, protocol and APY. *)
Record PortfolioItem : Type := mkPortfolioItem {
  pi_id : Z;
  pi_userId : Z;
  pi_opportunityId : Z;
  pi_amount : Q;
  pi_depositDate : Z;
  pi_token : string;
  pi_active : bool;
  pi_name : string;
  pi_protocol : string;
  pi_apy : Q
}.

(** A Prisma call: the store changes only when the call succeeds. *)
Definition prisma {A : Type} (op : Db.t -> res (Db.t * A)) : sx Db.t A :=
  fun db => match op db with
            | Ok (db', a) => (db', Ok a)
            | Throw e => (db, Throw e)
            end.

Definition getUserByWalletAddress (walletAddress : string) : sx Db.t (option User) :=
  fun db => (db, Ok (user_findUnique_wallet db walletAddress)).

Definition createUser (now : Z) (insertUser : InsertUser) : sx Db.t User :=
  prisma (fun db => user_create db now (iu_walletAddress insertUser)
                      (iu_username insertUser) (iu_email insertUser)
                      (iu_lastLogin insertUser)).

Definition getUserSubscription (userId : Z) : sx Db.t (option SolanaSubscription) :=
  fun db => (db, Ok (solanaSubscription_findFirst_active db userId)).

Definition createSubscription (now : Z) (i : InsertSolanaSubscription)
    : sx Db.t SolanaSubscription :=
  prisma (fun db => solanaSubscription_create db now (is_userId i) (is_transactionHash i)
                      (is_amount i) (is_currency i) (is_isActive i)).

(** [return !!subscription && subscription.isActive] *)
Definition checkUserIsSubscribed (userId : Z) : sx Db.t bool :=
  subscription <- getUserSubscription userId ;;
  sx_ret (match subscription with
          | Some s => s_isActive s
          | None => false
          end).

Definition createUserPreferences (userId : string) (data : InsertUserPreference)
    : sx Db.t UserPreference :=
  match parseInt userId with
  | None => sx_throw (JsError "Invalid user ID")
  | Some numericUserId =>
      prisma (fun db => userPreference_create db numericUserId
                          (ip_telegramChatId data) (ip_telegramUsername data)
                          (ip_riskTolerance data)
                          (default [] (ip_preferredChains data))
                          (default [] (ip_preferredTokens data))
                          (ip_notificationsEnabled data))
  end.

(** [ORDER BY apy DESC], rows of equal APY in insertion order. *)
Fixpoint insert_by_apy (o : YieldOpportunity) (sorted : list YieldOpportunity)
    : list YieldOpportunity :=
  match sorted with
  | [] => [o]
  | x :: rest =>
      if Qle_bool (o_apy x) (o_apy o) then o :: sorted else x :: insert_by_apy o rest
  end.

(** [getYieldOpportunities()], without a protocol and sorted by APY. *)
Definition getYieldOpportunities (db : Db.t) : list YieldOpportunity :=
  fold_right insert_by_apy [] (opportunities db).

(** [createInvestment]: [hash] is what [generateFakeTransactionHash] drew,
    [now] the clock at [new Date()]. *)
Definition createInvestment (hash : string) (now : Z) (userId : string)
    (data : InsertUserPortfolio) : sx Db.t PortfolioItem :=
  match parseInt userId with
  | None => sx_throw (JsError "Invalid user ID")
  | Some numericUserId =>
      investment <- prisma (fun db =>
        userPortfolio_create db numericUserId (ipf_opportunityId data) (ipf_amount data)
          (ipf_depositDate data) (ipf_token data) (ipf_active data)) ;;
      prisma (fun db =>
        transaction_create db numericUserId (ipf_opportunityId data) "invest"
          (ipf_amount data) (ipf_token data) now "completed" (Some hash)) ;;;
      opportunity <- (fun db => (db, Ok (yieldOpportunity_findUnique db (ipf_opportunityId data)))) ;;
      match opportunity with
      | None => sx_throw (JsError "Opportunity not found")
      | Some opp =>
          sx_ret (mkPortfolioItem (p_id investment) (p_userId investment)
                    (p_opportunityId investment) (p_amount investment)
                    (p_depositDate investment) (p_token investment) (p_active investment)
                    (o_name opp) (o_protocol opp) (o_apy opp))
      end
  end.

(** [getUser] *)
Definition getUser (id : Z) : sx Db.t (option User) :=
  fun db => (db, Ok (user_findUnique_id db id)).

(** [getUserPreferences]: [undefined] for a user id that is not a number. *)
Definition getUserPreferences (userId : string) : sx Db.t (option UserPreference) :=
  match parseInt userId with
  | None => sx_ret None
  | Some numericUserId => fun db => (db, Ok (userPreference_findUnique db numericUserId))
  end.

(** A [Partial<InsertUserPreference>]: [None] is a field that is
    [undefined]; a Telegram field that is given is [null] or a string. *)
Record PartialUserPreference : Type := mkPartialUserPreference {
  pp_telegramChatId : option (option string);
  pp_telegramUsername : option (option string);
  pp_riskTolerance : option string;
  pp_preferredChains : option (list string);
  pp_preferredTokens : option (list string);
  pp_notificationsEnabled : option bool
}.

(** [x || null] of an optional, nullable string *)
Definition or_null (x : option (option string)) : option string :=
  match x with
  | Some (Some s) => if String.eqb s "" then None else Some s
  | _ => None
  end.

(** [x || fallback] of an optional string *)
Definition or_string (x : option string) (fallback : string) : string :=
  match x with
  | Some s => if String.eqb s "" then fallback else s
  | None => fallback
  end.

Definition updateUserPreferences (userId : string) (data : PartialUserPreference)
    : sx Db.t UserPreference :=
  match parseInt userId with
  | None => sx_throw (JsError "Invalid user ID")
  | Some numericUserId =>
      existingPreferences <-
        (fun db => (db, Ok (userPreference_findUnique db numericUserId))) ;;
      match existingPreferences with
      | None =>
          createUserPreferences userId
            (mkInsertUserPreference numericUserId
               (or_null (pp_telegramChatId data)) (or_null (pp_telegramUsername data))
               (or_string (pp_riskTolerance data) "medium")
               (Some (default [] (pp_preferredChains data)))
               (Some (default [] (pp_preferredTokens data)))
               (default true (pp_notificationsEnabled data)))
      | Some existing =>
          prisma (fun db =>
            userPreference_update db numericUserId
              (default (pr_telegramChatId existing) (pp_telegramChatId data))
              (default (pr_telegramUsername existing) (pp_telegramUsername data))
              (or_string (pp_riskTolerance data) (pr_riskTolerance existing))
              (default (pr_preferredChains existing) (pp_preferredChains data))
              (default (pr_preferredTokens existing) (pp_preferredTokens data))
              (default (pr_notificationsEnabled existing) (pp_notificationsEnabled data)))
      end
  end.

(** The [percentage] of a risk profile: a number, or the member of
    [Object.prototype] the level names. *)
Inductive Percentage : Type :=
| Percent (n : Z)
| Member (name : string).

Record RiskProfile : Type := mkRiskProfile {
  level : string;
  percentage : Percentage
}.

Definition riskPercentages : list (string * Z) :=
  [("conservative", 20); ("moderate-conservative", 35); ("moderate", 50);
   ("moderate-aggressive", 70); ("aggressive", 90)].

Definition default_risk_profile : RiskProfile :=
  mkRiskProfile "moderate-conservative" (Percent 35).

Definition getUserRiskProfile (userId : string) : sx Db.t RiskProfile :=
  preferences <- getUserPreferences userId ;;
  match preferences with
  | None => sx_ret default_risk_profile
  | Some p =>
      sx_ret (mkRiskProfile (pr_riskTolerance p)
                match lookup_literal riskPercentages (pr_riskTolerance p) with
                | Own n => if n =? 0 then Percent 35 else Percent n
                | Inherited => Member (pr_riskTolerance p)
                | Missing => Percent 35
                end)
  end.

(** [getYieldOpportunity] *)
Definition getYieldOpportunity (id : Z) : sx Db.t (option YieldOpportunity) :=
  fun db => (db, Ok (yieldOpportunity_findUnique db id)).

(** [getBestYieldOpportunity]: [opportunities[0]] of the list sorted by
    APY. *)
Definition getBestYieldOpportunity (db : Db.t) : option YieldOpportunity :=
  match getYieldOpportunities db with
  | best :: _ => Some best
  | [] => None
  end.

Record YieldStats : Type := mkYieldStats {
  avgApy : Q;
  protocolCount : nat;
  opportunityCount : nat
}.

(** [opportunities.reduce((sum, opp) => sum + Number(opp.apy), 0)] *)
Definition totalApy (opportunities : list YieldOpportunity) : Q :=
  fold_left (fun sum opp => (sum + o_apy opp)%Q) opportunities 0%Q.

Definition getYieldStats (db : Db.t) : YieldStats :=
  match getYieldOpportunities db with
  | [] => mkYieldStats 0%Q 0%nat 0%nat
  | opportunities =>
      let avgApy := (totalApy opportunities / inject_Z (Z.of_nat (length opportunities)))%Q in
      mkYieldStats (round2 avgApy)
        (length (Set_of (map o_protocol opportunities)))
        (length opportunities)
  end.

(** The bounds of the mock chart and of the mock change, by time range. *)
Definition dataPoints : list (string * nat) :=
  [("1D", 24%nat); ("1W", 7%nat); ("1M", 30%nat); ("1Y", 12%nat); ("All", 10%nat)].

Definition ranges : list (string * (Q * Q)) :=
  [("1D", ((-2) # 1, 3 # 1)); ("1W", ((-5) # 1, 8 # 1)); ("1M", ((-10) # 1, 15 # 1));
   ("1Y", ((-20) # 1, 40 # 1)); ("All", ((-30) # 1, 100 # 1))]%Q.

(** How often the loop of [generateChartData] runs: [i < points] is false
    from the start when [points] is not a number. *)
Definition chart_points (timeRange : string) : nat :=
  match lookup_literal dataPoints timeRange with
  | Own n => if (n =? 0)%nat then 10%nat else n
  | Inherited => 0%nat
  | Missing => 10%nat
  end.

(** The body of the loop, [points] times from the call [i] of
    [Math.random]. *)
Fixpoint random_walk (random : nat -> Q) (i points : nat) (lastValue : Q) : list Q :=
  match points with
  | O => []
  | S points' =>
      let change := (random i * (20 # 1) - (8 # 1))%Q in
      let lastValue := Math_max (10 # 1) (Math_min (100 # 1) (lastValue + change)%Q) in
      lastValue :: random_walk random (S i) points' lastValue
  end.

(** [generateChartData]: [random k] is what the call [k] of [Math.random]
    returns. *)
Definition generateChartData (random : nat -> Q) (timeRange : string) : list Q :=
  random_walk random 0 (chart_points timeRange) (50 # 1).

(** The [TypeError] of destructuring a value that is not iterable; the
    wording of its message is the engine's. *)
Definition TypeError_not_iterable : Exn := JsError "ranges[timeRange] is not iterable".

(** [calculateChangePercentage]: [r] is what [Math.random] returns. *)
Definition calculateChangePercentage (r : Q) (timeRange : string) : res Q :=
  match lookup_literal ranges timeRange with
  | Own (min, max) => Ok (round2 (min + r * (max - min))%Q)
  | Missing => Ok (round2 (((-5) # 1) + r * ((10 # 1) - ((-5) # 1)))%Q)
  | Inherited => Throw TypeError_not_iterable
  end.

Definition hex_chars : string := "0123456789abcdef".

(** The loop of [generateFakeTransactionHash], [n] characters from the call
    [i] of [Math.random]. *)
Fixpoint random_hex (random : nat -> Q) (i n : nat) (hash : string) : string :=
  match n with
  | O => hash
  | S n' =>
      random_hex random (S i) n'
        (hash ++ charAt hex_chars (Qfloor (random i * inject_Z (Z.of_nat (String.length hex_chars)))%Q))
  end.

Definition generateFakeTransactionHash (random : nat -> Q) : string :=
  random_hex random 0 64 "".

Record PortfolioData : Type := mkPortfolioData {
  totalValue : Q;
  positions : list PortfolioItem;
  chartData : list Q;
  changePercentage : Q
}.

Definition format_position (x : UserPortfolio * YieldOpportunity) : PortfolioItem :=
  let (position, opportunity) := x in
  mkPortfolioItem (p_id position) (p_userId position) (p_opportunityId position)
    (p_amount position) (p_depositDate position) (p_token position) (p_active position)
    (o_name opportunity) (o_protocol opportunity) (o_apy opportunity).

(** [getUserPortfolio] *)
Definition getUserPortfolio (random : nat -> Q) (userId timeRange : string)
    : sx Db.t PortfolioData :=
  match parseInt userId with
  | None => sx_throw (JsError "Invalid user ID")
  | Some numericUserId =>
      positions <- (fun db => (db, userPortfolio_findMany_active db numericUserId)) ;;
      let formattedPositions := map format_position positions in
      let totalValue :=
        fold_left (fun sum position => (sum + pi_amount position)%Q) formattedPositions 0%Q in
      let chartData := generateChartData random timeRange in
      changePercentage <-
        sx_of_res (calculateChangePercentage (random (length chartData)) timeRange) ;;
      sx_ret (mkPortfolioData totalValue formattedPositions chartData changePercentage)
  end.

Record PortfolioSummary : Type := mkPortfolioSummary {
  activePositions : nat;
  summary_protocolCount : nat;
  protocols : list string
}.

(** [getPortfolioSummary] *)
Definition getPortfolioSummary (userId : string) : sx Db.t PortfolioSummary :=
  match parseInt userId with
  | None => sx_throw (JsError "Invalid user ID")
  | Some numericUserId =>
      positions <- (fun db => (db, userPortfolio_findMany_active db numericUserId)) ;;
      let protocols := Set_of (map (fun x => o_protocol (snd x)) positions) in
      sx_ret (mkPortfolioSummary (length positions) (length protocols) protocols)
  end.

(** A transaction with the protocol and the name of its opportunity, as
    [getUserTransactions] and [createTransaction] return it. *)
Record TransactionItem : Type := mkTransactionItem {
  tx_row : Transaction;
  tx_protocol : string;
  tx_opportunityName : string
}.

Definition format_transaction (x : Transaction * YieldOpportunity) : TransactionItem :=
  mkTransactionItem (fst x) (o_protocol (snd x)) (o_name (snd x)).

(** [getUserTransactions] *)
Definition getUserTransactions (userId filter : string) : sx Db.t (list TransactionItem) :=
  match parseInt userId with
  | None => sx_throw (JsError "Invalid user ID")
  | Some numericUserId =>
      userTransactions <-
        (fun db => (db, transaction_findMany db numericUserId
                          (if String.eqb filter "all" then None else Some filter))) ;;
      sx_ret (map format_transaction userTransactions)
  end.



End Storage.

(** ** [SolanaService]: the wallets connected per session *)

Module SolanaService.

Record WalletData : Type := mkWalletData {
  wd_address : string;
  wd_userId : option Z
}.

Record WalletStatus : Type := mkWalletStatus {
  connected : bool;
  ws_address : option string;
  ws_balance : option Q;
  ws_userId : option Z
}.

Definition LAMPORTS_PER_SOL : Q := 1000000000 # 1.

Definition not_connected : WalletStatus := mkWalletStatus false None None None.

(** [getWalletStatus]: [getBalance] is the RPC call, in lamports. *)
Definition getWalletStatus (getBalance : string -> res Z)
    (connectedWallets : gmap string WalletData) (sessionId : string) : WalletStatus :=
  match connectedWallets !! sessionId with
  | None => not_connected
  | Some walletData =>
      match getBalance (wd_address walletData) with
      | Ok balance =>
          mkWalletStatus true (Some (wd_address walletData))
            (Some (inject_Z balance / LAMPORTS_PER_SOL)%Q) (wd_userId walletData)
      | Throw _ => not_connected
      end
  end.

Definition setUserIdForSession (sessionId : string) (userId : Z)
    : sx (gmap string WalletData) unit :=
  fun connectedWallets =>
    match connectedWallets !! sessionId with
    | None => (connectedWallets, Throw (JsError "No wallet connected for this session"))
    | Some walletData =>
        (<[sessionId := mkWalletData (wd_address walletData) (Some userId)]> connectedWallets,
         Ok tt)
    end.

(** [disconnectWallet] *)
Definition disconnectWallet (sessionId : string) : sx (gmap string WalletData) unit :=
  fun connectedWallets => (delete sessionId connectedWallets, Ok tt).

Record SolanaWalletInfo : Type := mkSolanaWalletInfo {
  wi_address : string;
  wi_balance : Q;
  wi_balanceInUsd : Q;
  wi_totalValue : Q;
  wi_valueChange : Q
}.

(** [getWalletInfo]: the balances are the simulated ones of the source. *)
Definition getWalletInfo (connectedWallets : gmap string WalletData) (sessionId : string)
    : res SolanaWalletInfo :=
  match connectedWallets !! sessionId with
  | None => Throw (JsError "Wallet not connected")
  | Some walletData =>
      let solBalance := (4255 # 100)%Q in
      let usdcBalance := (1245 # 1)%Q in
      let solPrice := (12075 # 100)%Q in
      Ok (mkSolanaWalletInfo (wd_address walletData) solBalance (solBalance * solPrice)%Q
            (solBalance * solPrice + usdcBalance)%Q (53 # 10)%Q)
  end.

(** [getUserId]: [!walletData || !walletData.userId] throws. *)
Definition getUserId (connectedWallets : gmap string WalletData) (sessionId : string)
    : res Z :=
  match connectedWallets !! sessionId with
  | Some walletData =>
      match wd_userId walletData with
      | Some userId =>
          if userId =? 0 then Throw (JsError "No user ID associated with this session")
          else Ok userId
      | None => Throw (JsError "No user ID associated with this session")
      end
  | None => Throw (JsError "No user ID associated with this session")
  end.

(** [generateTransactionHash]: the loop of
    [DatabaseStorage.generateFakeTransactionHash], written a second time. *)
Definition generateTransactionHash (random : nat -> Q) : string :=
  Storage.random_hex random 0 64 "".

(** [createInvestmentTransaction] and [createWithdrawalTransaction], which
    differ in their name only: the opportunity, the amount and the token are
    not used. *)
Definition createInvestmentTransaction (random : nat -> Q)
    (connectedWallets : gmap string WalletData) (sessionId : string) : res (bool * string) :=
  match connectedWallets !! sessionId with
  | None => Throw (JsError "Wallet not connected")
  | Some _ => Ok (true, generateTransactionHash random)
  end.

End SolanaService.

(** ** [OpenAIService.processMessage] *)

Module OpenAIService.

Inductive Role : Type := user | assistant | system.

Record ChatMessage : Type := mkChatMessage {
  role : Role;
  content : string
}.

Record TransactionIntent : Type := mkTransactionIntent {
  action : string;
  ti_protocol : option string;
  ti_amount : option Q;
  ti_opportunityId : option Z
}.

Definition no_intent : TransactionIntent := mkTransactionIntent "none" None None None.

Record ChatResult : Type := mkChatResult {
  response : string;
  transactionIntent : TransactionIntent
}.

(** The OpenAI client: [completion] is
    [chat.completions.create(...).choices[0].message.content], and
    [extractTransactionIntent] the private method of that name, which
    catches its own errors. *)
Record Client : Type := mkClient {
  completion : list ChatMessage -> res (option string);
  extractTransactionIntent : string -> list Db.YieldOpportunity -> TransactionIntent
}.

Record Env : Type := mkEnv {
  openai : option Client;
  getSystemPrompt : string;
  formatYieldOpportunities : list Db.YieldOpportunity -> string
}.

Definition newline : string := String (ascii_of_nat 10) EmptyString.

(** [[chatHistory[0], ...chatHistory.slice(chatHistory.length - 9)]] *)
Definition limit_history (chatHistory : list ChatMessage) : list ChatMessage :=
  if (10 <? length chatHistory)%nat
  then (firstn 1 chatHistory ++ skipn (length chatHistory - 9) chatHistory)%list
  else chatHistory.

(** [processMessage]; [yieldOpportunities] is what
    [storage.getYieldOpportunities()] returned. *)
Definition processMessage (env : Env) (yieldOpportunities : list Db.YieldOpportunity)
    (sessionId message : string) (userChats : gmap string (list ChatMessage))
    : gmap string (list ChatMessage) * ChatResult :=
  let chatHistory := default [] (userChats !! sessionId) in
  let chatHistory :=
    match chatHistory with
    | [] => [mkChatMessage system (getSystemPrompt env)]
    | _ => chatHistory
    end in
  let messages :=
    (chatHistory ++
     [mkChatMessage user
        (message ++ newline ++ newline ++ "Here are the current yield opportunities:"
           ++ newline ++ formatYieldOpportunities env yieldOpportunities)%string])%list in
  let chatHistory := (chatHistory ++ [mkChatMessage user message])%list in
  let answer :=
    match openai env with
    | Some client =>
        match completion client messages with
        | Ok content =>
            (default "I'm sorry, I couldn't process your request."
               (match content with Some "" => None | c => c end),
             extractTransactionIntent client message yieldOpportunities)
        | Throw _ =>
            ("I'm sorry, I encountered an error processing your request. Please try again later.",
             no_intent)
        end
    | None =>
        ("I'm sorry, but the AI chat service is currently unavailable. Please try again later or contact support for assistance.",
         no_intent)
    end in
  let chatHistory :=
    limit_history (chatHistory ++ [mkChatMessage assistant (fst answer)])%list in
  (<[sessionId := chatHistory]> userChats, mkChatResult (fst answer) (snd answer)).

(** [clearChatHistory] *)
Definition clearChatHistory (sessionId : string) (userChats : gmap string (list ChatMessage))
    : gmap string (list ChatMessage) :=
  delete sessionId userChats.

End OpenAIService.

(** ** The Express route handlers of [server/routes.ts] *)

Module Routes.
Import Db Storage SolanaService.

Record Server : Type := mkServer {
  db : Db.t;
  connectedWallets : gmap string WalletData;
  userChats : gmap string (list OpenAIService.ChatMessage)
}.

(** What one request meets outside the process. *)
Record Env : Type := mkEnv {
  getBalance : string -> res Z;
  now : Z;
  fakeTransactionHash : string;
  chat : OpenAIService.Env
}.

Inductive Payload : Type :=
| PError (error : option string)
| PRegistered (userId : Z)
| PSubscribed (subscription : SolanaSubscription) (message : option string)
| PIsSubscribed (isSubscribed : bool)
| PInvestment (item : PortfolioItem)
| PChat (result : OpenAIService.ChatResult).

Record HttpResponse : Type := mkResponse {
  status : Z;
  payload : Payload
}.

(** [res.json(x)] and [res.status(n).json({ error })] *)
Definition json (p : Payload) : HttpResponse := mkResponse 200 p.
Definition error_response (n : Z) (msg : option string) : HttpResponse :=
  mkResponse n (PError msg).

Definition on_db {A : Type} (m : sx Db.t A) : sx Server A :=
  fun s => match m (db s) with
           | (d, r) => (mkServer d (connectedWallets s) (userChats s), r)
           end.

Definition on_wallets {A : Type} (m : sx (gmap string WalletData) A) : sx Server A :=
  fun s => match m (connectedWallets s) with
           | (w, r) => (mkServer (db s) w (userChats s), r)
           end.

Definition walletStatus (env : Env) (sessionID : string) : sx Server WalletStatus :=
  fun s => (s, Ok (getWalletStatus (getBalance env) (connectedWallets s) sessionID)).

(** What requests served concurrently did to the [users] table while this
    one was suspended at the [await] numbered [k]: 0 after the first lookup
    by wallet address, 1 after a [createUser] that failed, 2 after one that
    succeeded. *)
Definition interfere (others : nat -> list Write) (k : nat) : sx Server unit :=
  fun s => (mkServer (apply_writes (others k) (db s)) (connectedWallets s) (userChats s),
            Ok tt).

(** The outer [try { ... } catch (error) { res.status(n).json({ error:
    error.message }) }] of a handler. *)
Definition handle (n : Z) (body : sx Server HttpResponse) (s : Server)
    : Server * HttpResponse :=
  match body s with
  | (s', Ok r) => (s', r)
  | (s', Throw e) => (s', error_response n (exn_message e))
  end.

Definition js_truthy (v : JsValue) : bool :=
  match v with
  | JUndefined | JNull => false
  | JBool b => b
  | JNum q => negb (Qeq_bool q 0)
  | JStr s => negb (String.eqb s "")
  | JDate _ | JObject => true
  end.

(** [error.code === 'P2002' && error.meta?.target?.includes('wallet_address')] *)
Definition is_wallet_conflict (error : Exn) : bool :=
  match error with
  | PrismaError code target _ =>
      String.eqb code "P2002" && list_includes "wallet_address" target
  | _ => false
  end.

(** The find-or-create of a user by wallet address that [register] and
    [subscribe] share; the boolean is [isNewUser]. *)
Definition find_or_create (env : Env) (others : nat -> list Write)
    (walletAddress : string) : sx Server (User * bool) :=
  sx_catch
    (u <- on_db (createUser (now env)
                   (mkInsertUser walletAddress None None (Some (now env)))) ;;
     sx_ret (u, true))
    (fun error =>
       if is_wallet_conflict error
       then
         interfere others 1 ;;;
         found <- on_db (getUserByWalletAddress walletAddress) ;;
         match found with
         | Some u => sx_ret (u, false)
         | None => sx_throw error
         end
       else sx_throw error).

(** [POST /api/wallet/register] *)
Definition register (env : Env) (others : nat -> list Write)
    (walletAddress : JsValue) : Server -> Server * HttpResponse :=
  handle 500
    (if negb (js_truthy walletAddress)
     then sx_ret (error_response 400 (Some "Wallet address is required"))
     else
       match walletAddress with
       | JStr w =>
           found <- on_db (getUserByWalletAddress w) ;;
           interfere others 0 ;;;
           u <- match found with
                | None =>
                    r <- find_or_create env others w ;;
                    (if snd r
                     then
                       sx_catch
                         (interfere others 2 ;;;
                          on_db (createUserPreferences (toString (u_id (fst r)))
                                   (mkInsertUserPreference (u_id (fst r)) None None
                                      "moderate-conservative" (Some ["solana"])
                                      (Some ["SOL"; "USDC"]) true)) ;;;
                          sx_ret tt)
                         (fun _ => sx_ret tt)
                     else sx_ret tt) ;;;
                    sx_ret (fst r)
                | Some u =>
                    on_db (fun d => match user_update_lastLogin d (u_id u) (now env) with
                                    | Ok d' => (d', Ok tt)
                                    | Throw e => (d, Throw e)
                                    end) ;;;
                    sx_ret u
                end ;;
           sx_ret (json (PRegistered (u_id u)))
       | _ => sx_throw (JsError "Invalid value provided. Expected String")
       end).

(** [GET /api/wallet/subscription?address=...] *)
Definition subscription (address : option string) : Server -> Server * HttpResponse :=
  handle 500
    (match address with
     | None | Some "" => sx_ret (error_response 400 (Some "Wallet address required"))
     | Some a =>
         found <- on_db (getUserByWalletAddress a) ;;
         match found with
         | None => sx_ret (json (PIsSubscribed false))
         | Some u =>
             isSubscribed <- on_db (checkUserIsSubscribed (u_id u)) ;;
             sx_ret (json (PIsSubscribed isSubscribed))
         end
     end).

Record SubscribeBody : Type := mkSubscribeBody {
  sb_walletAddress : JsValue;
  sb_transactionHash : JsValue;
  sb_amount : JsValue;
  sb_currency : JsValue
}.

Record SubscribeRequest : Type := mkSubscribeRequest {
  sr_walletAddress : string;
  sr_transactionHash : string;
  sr_amount : Q;
  sr_currency : string
}.

Definition ZodError (path : string) : Exn := JsError ("Invalid input: " ++ path).

(** [subscriptionSchema.parse(req.body)] *)
Definition subscriptionSchema_parse (body : SubscribeBody) : res SubscribeRequest :=
  match sb_walletAddress body, sb_transactionHash body, sb_amount body with
  | JStr w, JStr h, JNum a =>
      match sb_currency body with
      | JUndefined => Ok (mkSubscribeRequest w h a "USDC")
      | JStr c => Ok (mkSubscribeRequest w h a c)
      | _ => Throw (ZodError "currency")
      end
  | JStr _, JStr _, _ => Throw (ZodError "amount")
  | JStr _, _, _ => Throw (ZodError "transactionHash")
  | _, _, _ => Throw (ZodError "walletAddress")
  end.

(** The user a subscribe request is for: the session's when a wallet is
    connected with a user id, else the one found or created for the wallet
    address of the body. *)
Definition subscribe_user (env : Env) (others : nat -> list Write)
    (sessionID : string) (walletAddress : string) : sx Server Z :=
  ws <- walletStatus env sessionID ;;
  if connected ws && truthy_id (ws_userId ws)
  then sx_ret (default 0 (ws_userId ws))
  else
    found <- on_db (getUserByWalletAddress walletAddress) ;;
    interfere others 0 ;;;
    u <- match found with
         | Some u => sx_ret u
         | None => r <- find_or_create env others walletAddress ;; sx_ret (fst r)
         end ;;
    (if connected ws
     then on_wallets (setUserIdForSession sessionID (u_id u))
     else sx_ret tt) ;;;
    sx_ret (u_id u).

(** [POST /api/wallet/subscribe]; [amount.toString()] is stored as the
    number it denotes. *)
Definition subscribe (env : Env) (others : nat -> list Write)
    (sessionID : string) (body : SubscribeBody) : Server -> Server * HttpResponse :=
  handle 400
    (request <- sx_of_res (subscriptionSchema_parse body) ;;
     userId <- subscribe_user env others sessionID (sr_walletAddress request) ;;
     existingSubscription <- on_db (getUserSubscription userId) ;;
     match existingSubscription with
     | Some existing =>
         if s_isActive existing
         then sx_ret (json (PSubscribed existing (Some "Subscription already active")))
         else
           created <- on_db (createSubscription (now env)
                        (mkInsertSolanaSubscription userId (Some (sr_transactionHash request))
                           (sr_amount request) (sr_currency request) true)) ;;
           sx_ret (json (PSubscribed created None))
     | None =>
         created <- on_db (createSubscription (now env)
                      (mkInsertSolanaSubscription userId (Some (sr_transactionHash request))
                         (sr_amount request) (sr_currency request) true)) ;;
         sx_ret (json (PSubscribed created None))
     end).

Record InvestBody : Type := mkInvestBody {
  ib_userId : JsValue;
  ib_opportunityId : JsValue;
  ib_amount : JsValue;
  ib_depositDate : JsValue;
  ib_token : JsValue;
  ib_active : JsValue
}.

Definition is_integral (q : Q) : bool := Qeq_bool (inject_Z (Qfloor q)) q.

(** [insertUserPortfolioSchema.parse(req.body)]: every field but [active]
    is required.  An [opportunityId] that is not integral passes
    [z.number()] and is refused as the [Int] argument of the first
    [create], before any row is written; the model refuses it here.
    [amount] is [z.number().or(z.string())]: a string passes the schema as
    well and is read as a decimal by the database client; that reading is
    not modelled, and the requests of the model are those whose amount is a
    number. *)
Definition insertUserPortfolioSchema_parse (body : InvestBody) : res InsertUserPortfolio :=
  match ib_userId body, ib_opportunityId body, ib_amount body,
        ib_depositDate body, ib_token body with
  | JNum u, JNum o, JNum a, JDate d, JStr t =>
      if is_integral o
      then
        match ib_active body with
        | JUndefined => Ok (mkInsertUserPortfolio u (Qfloor o) a d t true)
        | JBool b => Ok (mkInsertUserPortfolio u (Qfloor o) a d t b)
        | _ => Throw (ZodError "active")
        end
      else Throw (JsError "Invalid value provided. Expected Int")
  | JNum _, JNum _, JNum _, JDate _, _ => Throw (ZodError "token")
  | JNum _, JNum _, JNum _, _, _ => Throw (ZodError "depositDate")
  | JNum _, JNum _, _, _, _ => Throw (ZodError "amount")
  | JNum _, _, _, _, _ => Throw (ZodError "opportunityId")
  | _, _, _, _, _ => Throw (ZodError "userId")
  end.

(** [POST /api/portfolio/invest] *)
Definition invest (env : Env) (sessionID : string) (body : InvestBody)
    : Server -> Server * HttpResponse :=
  handle 400
    (ws <- walletStatus env sessionID ;;
     if negb (connected ws) || negb (truthy_id (ws_userId ws))
     then sx_ret (error_response 401 (Some "Not connected or user not found"))
     else
       investData <- sx_of_res (insertUserPortfolioSchema_parse body) ;;
       result <- on_db (createInvestment (fakeTransactionHash env) (now env)
                          (toString (default 0 (ws_userId ws))) investData) ;;
       sx_ret (json (PInvestment result))).

(** [!message || typeof message !== 'string'] *)
Definition message_of (v : JsValue) : option string :=
  match v with
  | JStr "" => None
  | JStr m => Some m
  | _ => None
  end.

(** [POST /api/chat] *)
Definition chat_handler (env : Env) (sessionID : string) (message : JsValue)
    : Server -> Server * HttpResponse :=
  handle 500
    (match message_of message with
     | None => sx_ret (error_response 400 (Some "Message is required"))
     | Some m =>
         ws <- walletStatus env sessionID ;;
         if negb (connected ws)
         then sx_ret (error_response 401 (Some "Wallet not connected"))
         else
           fun s =>
             match OpenAIService.processMessage (chat env) (getYieldOpportunities (db s))
                     sessionID m (userChats s) with
             | (chats, result) =>
                 (mkServer (db s) (connectedWallets s) chats, Ok (json (PChat result)))
             end
     end).

Record ConnectResult : Type := mkConnectResult {
  cr_success : bool;
  cr_address : string;
  cr_balance : Q;
  cr_userId : Z
}.

(** [SolanaService.connectWallet], which reaches the store as well as the
    session map; [address] is the public key [Keypair.generate()] drew. *)
Definition connectWallet (env : Env) (others : nat -> list Write)
    (address sessionId : string) : sx Server ConnectResult :=
  sx_catch
    (user <- on_db (getUserByWalletAddress address) ;;
     interfere others 0 ;;;
     userId <-
       match user with
       | Some u =>
           sx_catch
             (on_db (fun d => match user_update_lastLogin d (u_id u) (now env) with
                              | Ok d' => (d', Ok tt)
                              | Throw e => (d, Throw e)
                              end))
             (fun _ => sx_ret tt) ;;;
           sx_ret (u_id u)
       | None =>
           sx_catch
             (newUser <- on_db (createUser (now env)
                                  (mkInsertUser address None None (Some (now env)))) ;;
              sx_catch
                (interfere others 2 ;;;
                 on_db (createUserPreferences (toString (u_id newUser))
                          (mkInsertUserPreference (u_id newUser) None None
                             "moderate-conservative" (Some ["solana"])
                             (Some ["SOL"; "USDC"]) true)) ;;;
                 sx_ret tt)
                (fun _ => sx_ret tt) ;;;
              sx_ret (u_id newUser))
             (fun error =>
                if is_wallet_conflict error
                then
                  interfere others 1 ;;;
                  found <- on_db (getUserByWalletAddress address) ;;
                  match found with
                  | Some u => sx_ret (u_id u)
                  | None => sx_throw error
                  end
                else sx_throw error)
       end ;;
     on_wallets (fun wallets =>
                   (<[sessionId := mkWalletData address (Some userId)]> wallets, Ok tt)) ;;;
     sx_ret (mkConnectResult true address (4255 # 100)%Q userId))
    (fun _ => sx_throw (JsError "Failed to connect wallet")).

(** What a handler answers: [res.json(body)], or
    [res.status(n).json({ error })]. *)
Inductive Reply (A : Type) : Type :=
| Replied (body : A)
| Refused (status : Z) (error : option string).
Arguments Replied {A} body.
Arguments Refused {A} status error.

Definition reply_status {A : Type} (r : Reply A) : Z :=
  match r with
  | Replied _ => 200
  | Refused n _ => n
  end.

(** [try { ... } catch (error) { res.status(n).json({ error: error.message }) }] *)
Definition answer {A : Type} (n : Z) (body : sx Server (Reply A)) (s : Server)
    : Server * Reply A :=
  match body s with
  | (s', Ok r) => (s', r)
  | (s', Throw e) => (s', Refused n (exn_message e))
  end.

(** [GET /api/wallet/status] *)
Definition wallet_status (env : Env) (sessionID : string) : Server -> Server * Reply WalletStatus :=
  answer 500 (ws <- walletStatus env sessionID ;; sx_ret (Replied ws)).

(** [POST /api/wallet/connect] *)
Definition wallet_connect (env : Env) (others : nat -> list Write)
    (address sessionID : string) : Server -> Server * Reply ConnectResult :=
  answer 500 (walletData <- connectWallet env others address sessionID ;;
              sx_ret (Replied walletData)).

(** [POST /api/wallet/disconnect] *)
Definition wallet_disconnect (sessionID : string) : Server -> Server * Reply unit :=
  answer 500 (on_wallets (disconnectWallet sessionID) ;;; sx_ret (Replied tt)).

(** Truthiness of an optional string: [undefined] and [""] are falsy. *)
Definition truthy_string (o : option string) : bool :=
  match o with
  | Some s => negb (String.eqb s "")
  | None => false
  end.

(** [GET /api/wallet/info]: the wallet information and [isSubscribed]; the
    [catch] answers 401 whatever was thrown. *)
Definition wallet_info (env : Env) (sessionID : string)
    : Server -> Server * Reply (SolanaWalletInfo * bool) :=
  fun s =>
    match
      (ws <- walletStatus env sessionID ;;
       if negb (connected ws) || negb (truthy_string (ws_address ws))
       then sx_ret (Refused 401 (Some "Not connected"))
       else
         walletInfo <- (fun s => (s, getWalletInfo (connectedWallets s) sessionID)) ;;
         isSubscribed <-
           (if truthy_id (ws_userId ws)
            then on_db (checkUserIsSubscribed (default 0 (ws_userId ws)))
            else
              user <- on_db (getUserByWalletAddress (wi_address walletInfo)) ;;
              match user with
              | Some u =>
                  isSubscribed <- on_db (checkUserIsSubscribed (u_id u)) ;;
                  on_wallets (setUserIdForSession sessionID (u_id u)) ;;;
                  sx_ret isSubscribed
              | None => sx_ret false
              end) ;;
         sx_ret (Replied (walletInfo, isSubscribed))) s
    with
    | (s', Ok r) => (s', r)
    | (s', Throw _) => (s', Refused 401 (Some "Not connected"))
    end.

(** The block four handlers open with: the user id of the session, or,
    when the session has none and a wallet address, the id of the user
    registered for that address, which is then kept in the session. *)
Definition resolve_userId (sessionID : string) (ws : WalletStatus) : sx Server (option Z) :=
  if negb (truthy_id (ws_userId ws)) && truthy_string (ws_address ws)
  then
    user <- on_db (getUserByWalletAddress (default "" (ws_address ws))) ;;
    match user with
    | Some u =>
        on_wallets (setUserIdForSession sessionID (u_id u)) ;;;
        sx_ret (Some (u_id u))
    | None => sx_ret (ws_userId ws)
    end
  else sx_ret (ws_userId ws).

(** The guard of [GET /api/portfolio], [/api/portfolio/summary] and
    [/api/user/preferences], and then [serve] with the user id. *)
Definition for_user {A : Type} (env : Env) (sessionID : string)
    (serve : string -> sx Db.t A) : Server -> Server * Reply A :=
  answer 500
    (ws <- walletStatus env sessionID ;;
     if negb (connected ws)
     then sx_ret (Refused 401 (Some "Not connected"))
     else
       userId <- resolve_userId sessionID ws ;;
       if negb (truthy_id userId)
       then sx_ret (Refused 401 (Some "User not found"))
       else
         result <- on_db (serve (toString (default 0 userId))) ;;
         sx_ret (Replied result)).

(** [GET /api/portfolio?timeRange=...]: [timeRange || "1M"] *)
Definition portfolio (env : Env) (random : nat -> Q) (sessionID : string)
    (timeRange : option string) : Server -> Server * Reply PortfolioData :=
  for_user env sessionID
    (fun userId => getUserPortfolio random userId
                     (if truthy_string timeRange then default "" timeRange else "1M")).

(** [GET /api/portfolio/summary] *)
Definition portfolio_summary (env : Env) (sessionID : string)
    : Server -> Server * Reply PortfolioSummary :=
  for_user env sessionID getPortfolioSummary.

(** [GET /api/user/preferences] *)
Definition preferences_get (env : Env) (sessionID : string)
    : Server -> Server * Reply (option UserPreference) :=
  for_user env sessionID getUserPreferences.

(** [GET /api/transactions?filter=...]: [filter || "all"] *)
Definition transactions_get (env : Env) (sessionID : string) (filter : option string)
    : Server -> Server * Reply (list TransactionItem) :=
  answer 500
    (ws <- walletStatus env sessionID ;;
     if negb (connected ws) || negb (truthy_id (ws_userId ws))
     then sx_ret (Refused 401 (Some "Not connected or user not found"))
     else
       transactions <-
         on_db (getUserTransactions (toString (default 0 (ws_userId ws)))
                  (if truthy_string filter then default "" filter else "all")) ;;
       sx_ret (Replied transactions)).

(** [GET /api/user/risk-profile]: the default profile when there is no
    user, and in the [catch]. *)
Definition risk_profile (env : Env) (sessionID : string)
    : Server -> Server * Reply RiskProfile :=
  fun s =>
    match
      (ws <- walletStatus env sessionID ;;
       userId <- resolve_userId sessionID ws ;;
       if truthy_id userId
       then
         riskProfile <- on_db (getUserRiskProfile (toString (default 0 userId))) ;;
         sx_ret (Replied riskProfile)
       else sx_ret (Replied default_risk_profile)) s
    with
    | (s', Ok r) => (s', r)
    | (s', Throw _) => (s', Replied default_risk_profile)
    end.

End Routes.

(** ** The chain as the browser reaches it: RPC connection, wallet, Raydium SDK *)

Module Chain.

Inductive Transaction : Type :=
| Versioned (payload : string)
| Legacy (payload : string).

Definition is_versioned (tx : Transaction) : bool :=
  match tx with
  | Versioned _ => true
  | Legacy _ => false
  end.

Record Mint : Type := mkMint {
  address : string;
  decimals : nat
}.

Record PoolInfo : Type := mkPoolInfo {
  programId : string;
  mintA : Mint;
  mintB : Mint
}.

Record FarmInfo : Type := mkFarmInfo {
  lpMint : Mint
}.

(** An entry of [raydium.account.tokenAccountRawInfos]:
    [accountInfo.mint.toBase58()] and [accountInfo.amount]. *)
Record TokenAccount : Type := mkTokenAccount {
  ta_mint : string;
  ta_amount : Z
}.

Record PairAmount : Type := mkPairAmount {
  maxAnotherAmount : Q;
  minAnotherAmount : Q
}.

(** [parsed.value.data]: raw bytes, or parsed with
    [info.tokenAmount.uiAmount] ([None] when [info] or [tokenAmount] is
    missing, [Some None] when [uiAmount] is [null]). *)
Inductive AccountData : Type :=
| RawData
| ParsedData (uiAmount : option (option Q)).

Record Raydium : Type := mkRaydium {
  tokenAccountRawInfos : list TokenAccount;
  fetchPoolById : string -> res (list PoolInfo);
  (** [liquidity.computePairAmount({ poolInfo, amount, baseIn, slippage })] *)
  computePairAmount : PoolInfo -> Q -> bool -> Q -> res PairAmount;
  (** [liquidity.addLiquidity]: pool, raw amounts of A and B, [otherAmountMin] *)
  addLiquidity : PoolInfo -> Z -> Z -> Q -> res Transaction;
  fetchFarmInfoById : string -> res (list FarmInfo);
  (** [farm.deposit]: the transaction and the number of extra signers *)
  farm_deposit : FarmInfo -> Z -> res (Transaction * nat)
}.

(** The connection and the wallet of the user ([publicKey] is fixed).
    [initSdk] is what [initSdk({ loadToken: true })] answers when a
    function starts, [reloadSdk] what it answers when
    [addRayUsdcLiquidity] calls it a second time: the accounts the SDK
    lists may have changed in between. *)
Record Connection : Type := mkConnection {
  initSdk : res Raydium;
  reloadSdk : res Raydium;
  isValidAmm : string -> bool;
  (** [getTokenAccountsByOwner(publicKey, { mint })]: the account keys *)
  getTokenAccountsByOwner : string -> res (list string);
  (** [getParsedAccountInfo(pubkey).value] *)
  getParsedAccountInfo : string -> res (option AccountData);
  signTransaction : Transaction -> res Transaction;
  sendTransaction : Transaction -> res string;
  sendRawTransaction : Transaction -> res string;
  getLatestBlockhash : res string;
  (** [confirmTransaction(...).value.err]: [None] when it is [null], else
      its JSON text ([JSON.stringify]) *)
  confirmTransaction : string -> res (option string)
}.

(** [Math.pow(10, decimals)] *)
Definition pow10 (d : nat) : Q := inject_Z (10 ^ Z.of_nat d).

End Chain.

(** ** [lib/rayStaking] *)

Module RayStaking.
Import Chain.
Open Scope res_scope.

Definition poolId : string := "6UmmUiYoBjSrhakAobJw8BvkmJtDVxaeBtbt7rxWo1mg".
Definition targetFarm : string := "CHYrUBX2RKX8iBg7gYTkccoGNBzP44LdaazMHCLcdEgS".
Definition rayMint : string := "4k3Dyjzvzp8eMZWUXbBCjEvwSkkk59S5iCNLY3QrkX6R".
Definition usdcMint : string := "EPjFWdd5AufqSSqeM2qN1xzybapC8G4wEGGkZwyTDt1v".

Definition TypeError : Exn := JsError "Cannot read properties of undefined".

(** [data[0]], which the code dereferences without a check *)
Definition first_or_TypeError {A : Type} (l : list A) : res A :=
  match l with
  | x :: _ => Ok x
  | [] => Throw TypeError
  end.

Definition find_account (mint : string) (r : Raydium) : option TokenAccount :=
  find (fun a => String.eqb (ta_mint a) mint) (tokenAccountRawInfos r).

(** [Number(account.accountInfo.amount.toString()) / Math.pow(10, decimals)] *)
Definition ui_amount (a : TokenAccount) (d : nat) : Q :=
  (inject_Z (ta_amount a) / pow10 d)%Q.

(** [uiAmount || 0] *)
Definition or_zero (uiAmount : option Q) : Q := default 0%Q uiAmount.

(** The [for (const account of accounts.value)] loop that adds up the
    parsed balances. *)
Fixpoint sum_parsed (c : Connection) (accounts : list string) (total : Q) : res Q :=
  match accounts with
  | [] => Ok total
  | account :: rest =>
      let* parsed := getParsedAccountInfo c account in
      match parsed with
      | Some (ParsedData (Some uiAmount)) => sum_parsed c rest (total + or_zero uiAmount)%Q
      | _ => sum_parsed c rest total
      end
  end.

Record UsdcCheck : Type := mkUsdcCheck {
  hasEnoughUsdc : bool;
  requiredUsdc : Q;
  usdcBalance : Q
}.

Definition usdc_check_failed : UsdcCheck := mkUsdcCheck false 0 0.

(** The [try] block of [checkUsdcBalanceForLiquidity]. *)
Definition checkUsdcBalanceForLiquidity_try (c : Connection) (rayAmount : Q)
    : res UsdcCheck :=
  let* raydium := initSdk c in
  let* data := fetchPoolById raydium poolId in
  let* poolInfo := first_or_TypeError data in
  let* pairAmountResult := computePairAmount raydium poolInfo rayAmount true (1 # 100) in
  let usdcMint := address (mintB poolInfo) in
  let* usdcBalance :=
    match find_account usdcMint raydium with
    | Some usdcTokenAccount => Ok (ui_amount usdcTokenAccount (decimals (mintB poolInfo)))
    | None =>
        let* usdcAccounts := getTokenAccountsByOwner c usdcMint in
        sum_parsed c usdcAccounts 0
    end in
  let requiredUsdc := maxAnotherAmount pairAmountResult in
  Ok (mkUsdcCheck (Qle_bool requiredUsdc usdcBalance) requiredUsdc usdcBalance).

Definition checkUsdcBalanceForLiquidity (c : Connection) (rayAmount : Q) : res UsdcCheck :=
  try_catch (checkUsdcBalanceForLiquidity_try c rayAmount)
    (fun _ => Ok usdc_check_failed).

(** Sign, send and wait for confirmation, as [addRayUsdcLiquidity] and
    [stakeRayToFarm] both end. *)
Definition sign_send_confirm (c : Connection) (transaction : Transaction) : res string :=
  let* signedTx := signTransaction c transaction in
  let* txId := (if is_versioned transaction
                then sendTransaction c signedTx
                else sendRawTransaction c signedTx) in
  let* err := confirmTransaction c txId in
  match err with
  | Some e => Throw (JsError ("Transaction failed: " ++ e))
  | None => Ok txId
  end.

(** [new Decimal(x).mul(new Decimal(10).pow(d)).toFixed(0)], rounding
    half up. *)
Definition raw_amount (x : Q) (d : nat) : Z := Qfloor (x * pow10 d + (1 # 2))%Q.

Definition addRayUsdcLiquidity_try (c : Connection) (rayAmount : Q) : res string :=
  if Qle_bool rayAmount 0 then Throw (JsError "RAY amount must be greater than zero")
  else
    let* raydium := initSdk c in
    let* data := fetchPoolById raydium poolId in
    let* poolInfo := first_or_TypeError data in
    if negb (isValidAmm c (programId poolInfo))
    then Throw (JsError "Target pool is not a valid AMM pool")
    else
      let rayMint := address (mintA poolInfo) in
      let* raydium :=
        match find_account rayMint raydium with
        | Some _ => Ok raydium
        | None =>
            let* rayTokenAccounts := getTokenAccountsByOwner c rayMint in
            match rayTokenAccounts with
            | [] => Ok raydium
            | _ => reloadSdk c
            end
        end in
      match find_account rayMint raydium with
      | None =>
          let* _ := getTokenAccountsByOwner c rayMint in
          Throw (JsError "RAY token account not found. Make sure you have RAY tokens in your wallet.")
      | Some rayTokenAccount =>
          let rayDecimals := decimals (mintA poolInfo) in
          let actualRayBalance := ui_amount rayTokenAccount rayDecimals in
          let finalRayAmount := Math_min rayAmount actualRayBalance in
          if Qle_bool finalRayAmount 0 then Throw (JsError "Insufficient RAY balance")
          else
            let* pairAmountResult :=
              computePairAmount raydium poolInfo finalRayAmount true (1 # 100) in
            let usdcMint := address (mintB poolInfo) in
            match find_account usdcMint raydium with
            | None => Throw (JsError "USDC token account not found")
            | Some usdcTokenAccount =>
                let usdcDecimals := decimals (mintB poolInfo) in
                let usdcBalance := ui_amount usdcTokenAccount usdcDecimals in
                let requiredUsdc := maxAnotherAmount pairAmountResult in
                if negb (Qle_bool requiredUsdc usdcBalance)
                then Throw (JsError ("Insufficient USDC balance. Required: "
                                     ++ toFixed2 requiredUsdc ++ ", Available: "
                                     ++ toFixed2 usdcBalance))
                else
                  let rayRawAmount := raw_amount finalRayAmount rayDecimals in
                  let usdcRawAmount := raw_amount requiredUsdc usdcDecimals in
                  if (rayRawAmount =? 0) || (usdcRawAmount =? 0)
                  then Throw (JsError "Cannot add liquidity with zero amounts")
                  else
                    let* transaction :=
                      addLiquidity raydium poolInfo rayRawAmount usdcRawAmount
                        (minAnotherAmount pairAmountResult) in
                    sign_send_confirm c transaction
            end
      end.

(** [catch (error) { console.error(...); throw error; }] *)
Definition addRayUsdcLiquidity (c : Connection) (rayAmount : Q) : res string :=
  try_catch (addRayUsdcLiquidity_try c rayAmount) (fun error => Throw error).

Definition stakeRayToFarm_try (c : Connection) : res string :=
  let* raydium := initSdk c in
  let* farms := fetchFarmInfoById raydium targetFarm in
  match farms with
  | [] => Throw (JsError "Failed to fetch farm information")
  | farmInfo :: _ =>
      match find_account (address (lpMint farmInfo)) raydium with
      | None => Throw (JsError "No LP tokens found for this farm")
      | Some lpTokenAccount =>
          if ta_amount lpTokenAccount =? 0
          then Throw (JsError "No LP tokens found for this farm")
          else
            let* deposit := farm_deposit raydium farmInfo (ta_amount lpTokenAccount) in
            sign_send_confirm c (fst deposit)
      end
  end.

Definition stakeRayToFarm (c : Connection) : res string :=
  try_catch (stakeRayToFarm_try c) (fun error => Throw error).

Record Balance : Type := mkBalance {
  balance : Q;
  found : bool
}.

(** [getRayBalance] and [getUsdcBalance] differ in the mint only. *)
Definition getTokenBalance (mint : string) (c : Connection) : res Balance :=
  try_catch
    (let* tokenAccounts := getTokenAccountsByOwner c mint in
     match tokenAccounts with
     | [] => Ok (mkBalance 0 false)
     | _ =>
         let* totalBalance := sum_parsed c tokenAccounts 0 in
         Ok (mkBalance totalBalance true)
     end)
    (fun _ => Ok (mkBalance 0 false)).

Definition getRayBalance : Connection -> res Balance := getTokenBalance rayMint.
Definition getUsdcBalance : Connection -> res Balance := getTokenBalance usdcMint.

(** [getRayLpBalance]: the share token is taken to have nine decimals. *)
Definition getRayLpBalance (c : Connection) : res Q :=
  try_catch
    (let* raydium := initSdk c in
     let* farms := fetchFarmInfoById raydium targetFarm in
     match farms with
     | [] => Throw (JsError "Failed to fetch farm information")
     | farmInfo :: _ =>
         match find_account (address (lpMint farmInfo)) raydium with
         | None => Ok 0%Q
         | Some lpTokenAccount => Ok (ui_amount lpTokenAccount 9)
         end
     end)
    (fun _ => Ok 0%Q).

End RayStaking.

(** ** [lib/solanaSwap] *)

Module SolanaSwap.
Import Chain.
Open Scope res_scope.

(** The [data] of a swap computation: amounts in the smallest unit. *)
Record SwapCompute : Type := mkSwapCompute {
  inputAmount : Z;
  outputAmount : Z;
  otherAmountThreshold : Z;
  slippageBps : Z
}.

(** The Raydium HTTP API. *)
Record Api : Type := mkApi {
  (** [GET PRIORITY_FEE]: [data.default.h] *)
  priorityFee : res Z;
  (** [GET /compute/swap-base-in] with the amount in lamports and the
      slippage in basis points *)
  computeSwap : Z -> Z -> res SwapCompute;
  (** [POST /transaction/swap-base-in] with the fee and the computation *)
  swapTransactions : Z -> SwapCompute -> res (list Transaction)
}.

(** [Math.floor(amountSol * 1000000000)] *)
Definition lamports (amountSol : Q) : Z := Qfloor (amountSol * (1000000000 # 1))%Q.

(** The loop over [allTransactions]; [lastTxId] is the accumulator. *)
Fixpoint send_all (c : Connection) (txs : list Transaction) (lastTxId : option string)
    : res (option string) :=
  match txs with
  | [] => Ok lastTxId
  | tx :: rest =>
      let* signedTx := signTransaction c tx in
      let* txId := sendRawTransaction c signedTx in
      let* _ := getLatestBlockhash c in
      let* _ := confirmTransaction c txId in
      send_all c rest (Some txId)
  end.

Definition swapSolToRay_try (api : Api) (c : Connection) (amountSol : Q)
    : res (option string) :=
  let amountInLamports := lamports amountSol in
  let* fee := priorityFee api in
  let* swapResponse := computeSwap api amountInLamports 50 in
  let* allTransactions := swapTransactions api fee swapResponse in
  send_all c allTransactions None.

(** [catch (error) { console.error(...); throw error; }] *)
Definition swapSolToRay (api : Api) (c : Connection) (amountSol : Q)
    : res (option string) :=
  try_catch (swapSolToRay_try api c amountSol) (fun error => Throw error).

Definition getEstimatedRayOutput (api : Api) (amountSol : Q) : res Q :=
  try_catch
    (let* swapResponse := computeSwap api (lamports amountSol) 50 in
     Ok (inject_Z (outputAmount swapResponse) / (1000000000 # 1))%Q)
    (fun _ => Ok 0%Q).

End SolanaSwap.

(** ** The investment modal: [investMutation.mutationFn] *)

Module InvestmentModal.
Import Chain RayStaking SolanaSwap Routes.

(** What the user sees or sends: a toast (with the "Keep RAY" button or
    not) and a request to [POST /api/portfolio/invest]. *)
Inductive Event : Type :=
| Toast (title description : string) (destructive keepRayButton : bool)
| Post (body : InvestBody).

(** A run that shows and sends things and may throw. *)
Definition ui (A : Type) : Type := list Event * res A.

Definition ui_ret {A : Type} (a : A) : ui A := ([], Ok a).
Definition ui_bind {A B : Type} (m : ui A) (k : A -> ui B) : ui B :=
  match m with
  | (t, Ok a) => match k a with (t', r) => ((t ++ t')%list, r) end
  | (t, Throw e) => (t, Throw e)
  end.
Definition ui_catch {A : Type} (body : ui A) (handler : Exn -> ui A) : ui A :=
  match body with
  | (t, Ok a) => (t, Ok a)
  | (t, Throw e) => match handler e with (t', r) => ((t ++ t')%list, r) end
  end.
Definition await {A : Type} (r : res A) : ui A := ([], r).
Definition toast (title description : string) (destructive : bool) : ui unit :=
  ([Toast title description destructive false], Ok tt).

Declare Scope ui_scope.
Delimit Scope ui_scope with ui.
Notation "x <~ m ;; k" := (ui_bind m (fun x => k))
  (at level 62, m at next level, right associativity) : ui_scope.
Notation "m ~~ k" := (ui_bind m (fun _ => k))
  (at level 62, right associativity) : ui_scope.
Open Scope ui_scope.

(** The component's props and state when [mutate] is called, and the
    wallet context ([walletReady] is [publicKey && signTransaction &&
    connection]); [amountValue] is [parseFloat(amount)]. *)
Record Modal : Type := mkModal {
  opportunity : Db.YieldOpportunity;
  amountValue : Q;
  autoStake : bool;
  estimatedRayAmount : option Q;
  walletReady : bool
}.

(** What the browser reaches in one run. *)
Record Client : Type := mkClient {
  api : Api;
  connection : Connection;
  (** how [apiRequest] (lib/queryClient) turns the server's response into
      its own result *)
  settle : HttpResponse -> res HttpResponse
}.

Definition isSolRayPair (o : Db.YieldOpportunity) : bool :=
  match Db.o_tokenPair o with
  | Some tokenPair =>
      (length tokenPair =? 2)%nat && list_includes "SOL" tokenPair
      && list_includes "RAY" tokenPair
  | None => false
  end.

Definition currency : string := "SOL".

(** The body of both [apiRequest('POST', '/api/portfolio/invest', ...)]
    calls. *)
Definition invest_body (opportunityId : Z) (amount : Q) (token : string) : InvestBody :=
  mkInvestBody JUndefined (JNum (inject_Z opportunityId)) (JNum amount) JUndefined
    (JStr token) JUndefined.

(** [estimatedRayAmount || amountValue] *)
Definition estimate_or (estimated : option Q) (amountValue : Q) : Q :=
  match estimated with
  | Some e => if Qeq_bool e 0 then amountValue else e
  | None => amountValue
  end.

(** [Math.min(rayBalance, estimatedRayAmount || amountValue)] *)
Definition actualRayAmount (ray : Balance) (m : Modal) : Q :=
  Math_min (balance ray) (estimate_or (estimatedRayAmount m) (amountValue m)).

(** The inner [try] block: verify the RAY balance, check USDC, add
    liquidity, stake. *)
Definition liquidity_and_stake (cl : Client) (m : Modal) : ui unit :=
  ray <~ await (getRayBalance (connection cl)) ;;
  actualRayAmount <~
    (if negb (found ray) || Qle_bool (balance ray) 0
     then
       toast "RAY tokens not found"
         "The SOL to RAY conversion may have failed or the tokens aren't available yet."
         true ~~
       await (Throw (JsError "RAY tokens not found in wallet"))
     else ui_ret (Math_min (balance ray) (estimate_or (estimatedRayAmount m) (amountValue m)))) ;;
  usdc <~ await (checkUsdcBalanceForLiquidity (connection cl) actualRayAmount) ;;
  (if negb (hasEnoughUsdc usdc)
   then
     toast "Insufficient USDC balance"
       ("You need " ++ toFixed2 (requiredUsdc usdc) ++ " USDC but only have "
          ++ toFixed2 (usdcBalance usdc) ++ " USDC") true ~~
     await (Throw (JsError ("Insufficient USDC balance. Required: "
                              ++ toFixed2 (requiredUsdc usdc) ++ " USDC")))
   else ui_ret tt) ~~
  toast "Adding liquidity" "Creating LP tokens for RAY-USDC pair..." false ~~
  await (addRayUsdcLiquidity (connection cl) actualRayAmount) ~~
  toast "Liquidity added" "Successfully created LP tokens for RAY-USDC pair" false ~~
  toast "Staking LP tokens" "Automatically staking your LP tokens..." false ~~
  await (stakeRayToFarm (connection cl)) ~~
  toast "Staking successful" "Your LP tokens have been staked successfully" false.

(** [stakeError instanceof Error ? stakeError.message : "Unknown error"] *)
Definition errorMessage_of (stakeError : Exn) : string :=
  if instanceofError stakeError
  then default "Unknown error" (exn_message stakeError)
  else "Unknown error".

Definition isLiquidityError (errorMessage : string) : bool :=
  includes "liquidity" errorMessage || includes "USDC" errorMessage
  || includes "amounts" errorMessage || includes "RAY token" errorMessage.

(** [catch (stakeError)]: a toast, and nothing is thrown again. *)
Definition on_stakeError (stakeError : Exn) : ui unit :=
  let errorMessage := errorMessage_of stakeError in
  if isLiquidityError errorMessage
  then ([Toast "Adding liquidity failed"
           "Would you like to continue holding RAY tokens instead?" true true], Ok tt)
  else toast "Staking failed" errorMessage true.

(** The outer [try] block of the SOL/RAY branch. *)
Definition swap_and_stake (cl : Client) (m : Modal) : ui unit :=
  (if negb (walletReady m)
   then await (Throw (JsError "Wallet not connected"))
   else ui_ret tt) ~~
  toast "Processing investment" "Converting SOL to RAY..." false ~~
  await (swapSolToRay (api cl) (connection cl) (amountValue m)) ~~
  toast "Conversion successful" "SOL has been converted to RAY" false ~~
  if autoStake m
  then ui_catch (liquidity_and_stake cl m) on_stakeError
  else ui_ret tt.

(** Everything before the record step. *)
Definition stages (cl : Client) (m : Modal) : ui unit :=
  if isSolRayPair (opportunity m)
  then
    ui_catch (swap_and_stake cl m)
      (fun _ => await (Throw (JsError "Failed to convert SOL to RAY. Please try again.")))
  else ui_ret tt.

Definition record_body (m : Modal) : InvestBody :=
  invest_body (Db.o_id (opportunity m)) (amountValue m)
    (if isSolRayPair (opportunity m) then "RAY" else currency).

(** [mutationFn]: the stages, then the request that records the
    investment, served by [Routes.invest] for the session of the browser. *)
Definition mutationFn (env : Routes.Env) (sessionID : string) (cl : Client) (m : Modal)
    (s : Server) : Server * ui HttpResponse :=
  match stages cl m with
  | (t, Throw e) => (s, (t, Throw e))
  | (t, Ok _) =>
      match invest env sessionID (record_body m) s with
      | (s', response) => (s', ((t ++ [Post (record_body m)])%list, settle cl response))
      end
  end.

(** The [onClick] of the "Keep RAY" button. *)
Definition keepRay_onClick (env : Routes.Env) (sessionID : string) (cl : Client) (m : Modal)
    (s : Server) : Server * ui HttpResponse :=
  let body := invest_body (Db.o_id (opportunity m)) (amountValue m) "RAY" in
  match invest env sessionID body s with
  | (s', response) =>
      (s', ([Toast "RAY tokens kept"
               "Your RAY tokens have been kept in your wallet. You can add liquidity manually later."
               false false; Post body], settle cl response))
  end.

(** The [usdcInfo] state of the modal. *)
Record UsdcInfo : Type := mkUsdcInfo {
  required : Q;
  info_balance : Q;
  isLoading : bool;
  hasEnough : bool
}.

Definition no_usdc : UsdcInfo := mkUsdcInfo 0 0 false false.

(** [usdcBalance || directUsdcBalance] *)
Definition balance_or (usdcBalance directUsdcBalance : Q) : Q :=
  if Qeq_bool usdcBalance 0 then directUsdcBalance else usdcBalance.

(** The effect that checks the USDC balance when the amount changes:
    [None] when its condition does not hold and the state is left as it is,
    else the state it sets last.  [hasWallet] is [publicKey && connection]. *)
Definition checkUsdcBalance (cl : Client) (m : Modal) (hasWallet : bool) : option UsdcInfo :=
  match estimatedRayAmount m with
  | Some estimated =>
      if isSolRayPair (opportunity m) && autoStake m && negb (Qeq_bool estimated 0)
         && negb (Qle_bool (amountValue m) 0) && hasWallet
      then
        Some
          match
            res_bind (getUsdcBalance (connection cl)) (fun direct =>
              if negb (found direct) || Qle_bool (balance direct) 0
              then Ok no_usdc
              else
                res_bind (checkUsdcBalanceForLiquidity (connection cl) estimated) (fun r =>
                  Ok (mkUsdcInfo (requiredUsdc r)
                        (balance_or (usdcBalance r) (balance direct)) false
                        (hasEnoughUsdc r))))
          with
          | Ok info => info
          | Throw _ => no_usdc
          end
      else None
  | None => None
  end.

(** The requests of a run, in order. *)
Definition posts (t : list Event) : list InvestBody :=
  flat_map (fun e => match e with Post b => [b] | Toast _ _ _ _ => [] end) t.

End InvestmentModal.

(** ** [AIRecommendations]: the gate in the browser *)

Module AIRecommendations.

(** [enabled: connected && isSubscribed] of the three [/api/ai/*] queries *)
Definition enabled (connected isSubscribed : bool) : bool := connected && isSubscribed.

Inductive Step : Type :=
| ToastWalletNotConnected
| OpenSubscriptionModal
| PostAutoInvest (amount : Q).

(** What [handleAutoInvest] does first. *)
Definition handleAutoInvest (connected isSubscribed : bool) (autoInvestAmount : Q) : Step :=
  if negb connected then ToastWalletNotConnected
  else if negb isSubscribed then OpenSubscriptionModal
  else PostAutoInvest autoInvestAmount.

End AIRecommendations.


(** * What the claims ask, as predicates over the model *)

(** One call of [createInvestment] appends a portfolio row and a
    transaction row for the same user, opportunity, amount (the amount
    given, as the [Decimal(20, 2)] columns store it) and token, the
    transaction being an ['invest'] that is ['completed']. *)
Definition writes_both_rows (hash : string) (now : Z) (userId : string)
    (data : Storage.InsertUserPortfolio) (db : Db.t) : Prop :=
  let db' := fst (Storage.createInvestment hash now userId data db) in
  exists p t,
    Db.portfolios db' = (Db.portfolios db ++ [p])%list /\
    Db.transactions db' = (Db.transactions db ++ [t])%list /\
    Db.p_userId p = Db.t_userId t /\
    Db.p_opportunityId p = Storage.ipf_opportunityId data /\
    Db.t_opportunityId t = Storage.ipf_opportunityId data /\
    Db.p_amount p = Db.decimal 2 (Storage.ipf_amount data) /\
    Db.t_amount t = Db.decimal 2 (Storage.ipf_amount data) /\
    Db.p_token p = Storage.ipf_token data /\
    Db.t_token t = Storage.ipf_token data /\
    Db.t_transactionType t = "invest" /\
    Db.t_status t = "completed".

(** The rows of the two tables an investment is recorded in. *)
Definition recorded_rows (db : Db.t) : list Db.UserPortfolio * list Db.Transaction :=
  (Db.portfolios db, Db.transactions db).

(** A store with one user and one opportunity, for the examples. *)
Definition sample_opportunity : Db.YieldOpportunity :=
  Db.mkYieldOpportunity 1 "SOL-RAY LP" "Raydium" (25 # 2) "medium" (Some ["SOL"; "RAY"]) (1 # 10).

Definition sample_user : Db.User :=
  Db.mkUser 1 "9xQeWvG816bUx9EPjHmaT23yvVM2ZWbrrpZb9PusVFin" None None 0 (Some 0).

Definition sample_db : Db.t :=
  Db.mk [sample_user] [] [sample_opportunity] [] [] [] 2 1 1 1 1.

Definition sample_investment : Storage.InsertUserPortfolio :=
  Storage.mkInsertUserPortfolio (1 # 1) 1 (5 # 2) 1750000000 "RAY" true.

(** An internal step of [checkUsdcBalanceForLiquidity] fails: the SDK does
    not start, the pool is not fetched or the answer is empty, the pair
    amount is not computed, or, when the SDK knows no USDC account, the
    accounts are not listed or one of them is not read. *)
Inductive usdc_step_fails (c : Chain.Connection) (rayAmount : Q) : Prop :=
| sdk_fails e :
    Chain.initSdk c = Throw e -> usdc_step_fails c rayAmount
| pool_fails r e :
    Chain.initSdk c = Ok r ->
    Chain.fetchPoolById r RayStaking.poolId = Throw e -> usdc_step_fails c rayAmount
| pool_missing r :
    Chain.initSdk c = Ok r ->
    Chain.fetchPoolById r RayStaking.poolId = Ok [] -> usdc_step_fails c rayAmount
| pair_fails r p ps e :
    Chain.initSdk c = Ok r ->
    Chain.fetchPoolById r RayStaking.poolId = Ok (p :: ps) ->
    Chain.computePairAmount r p rayAmount true (1 # 100) = Throw e ->
    usdc_step_fails c rayAmount
| accounts_fail r p ps pa e :
    Chain.initSdk c = Ok r ->
    Chain.fetchPoolById r RayStaking.poolId = Ok (p :: ps) ->
    Chain.computePairAmount r p rayAmount true (1 # 100) = Ok pa ->
    RayStaking.find_account (Chain.address (Chain.mintB p)) r = None ->
    Chain.getTokenAccountsByOwner c (Chain.address (Chain.mintB p)) = Throw e ->
    usdc_step_fails c rayAmount
| account_read_fails r p ps pa accounts account e :
    Chain.initSdk c = Ok r ->
    Chain.fetchPoolById r RayStaking.poolId = Ok (p :: ps) ->
    Chain.computePairAmount r p rayAmount true (1 # 100) = Ok pa ->
    RayStaking.find_account (Chain.address (Chain.mintB p)) r = None ->
    Chain.getTokenAccountsByOwner c (Chain.address (Chain.mintB p)) = Ok accounts ->
    In account accounts ->
    Chain.getParsedAccountInfo c account = Throw e ->
    usdc_step_fails c rayAmount.

(** The swap's quoted output less the slippage incurred, within the
    tolerance of [bps] basis points the quote was asked with. *)
Definition quoted_less_slippage (quoted : Q) (bps : Z) (recorded : Q) : Prop :=
  exists slip : Q,
    (0 <= slip)%Q /\ (slip <= quoted * (inject_Z bps / (10000 # 1)))%Q /\
    (recorded == quoted - slip)%Q.

(** The run asked the server, once, to record a position in [token]. *)
Definition records_token (token : string) (t : list InvestmentModal.Event) : Prop :=
  exists body, InvestmentModal.posts t = [body] /\ Routes.ib_token body = JStr token.

(** The run asked the server, once, to record the amount [amount]. *)
Definition records_amount (amount : Q) (t : list InvestmentModal.Event) : Prop :=
  exists body, InvestmentModal.posts t = [body] /\ Routes.ib_amount body = JNum amount.

(** The JSON text of the error of a transaction whose third instruction
    failed with a custom program error. *)
Definition dquote : string := String (ascii_of_nat 34) EmptyString.

Definition instruction_error : string :=
  "{" ++ dquote ++ "InstructionError" ++ dquote ++ ":[2,{" ++ dquote ++ "Custom" ++ dquote
    ++ ":1}]}".

(** A pool, a farm and a chain that answers, for the examples: two USDC a
    RAY, [usdc_raw] and [lp_raw] the raw balances the SDK knows, and
    [stake_err] what the confirmation of the farm deposit reports. *)
Definition sample_pool : Chain.PoolInfo :=
  Chain.mkPoolInfo "675kPX9MHTjS2zt1qfr1NYHuzeLXfQM9H24wFSUt1Mp8"
    (Chain.mkMint RayStaking.rayMint 6) (Chain.mkMint RayStaking.usdcMint 6).

Definition sample_lp_mint : string := "FbC6K13MzHvN42bXrtGaWsvZY9fxrackRSZcBGfjPc7m".

Definition sample_farm : Chain.FarmInfo := Chain.mkFarmInfo (Chain.mkMint sample_lp_mint 6).

Definition sample_raydium (usdc_raw lp_raw : Z) : Chain.Raydium :=
  Chain.mkRaydium
    [Chain.mkTokenAccount RayStaking.rayMint 60000000;
     Chain.mkTokenAccount RayStaking.usdcMint usdc_raw;
     Chain.mkTokenAccount sample_lp_mint lp_raw]
    (fun _ => Ok [sample_pool])
    (fun _ amount _ slippage =>
       Ok (Chain.mkPairAmount (amount * (2 # 1) * (1 + slippage))%Q
             (amount * (2 # 1) * (1 - slippage))%Q))
    (fun _ _ _ _ => Ok (Chain.Versioned "add-liquidity"))
    (fun _ => Ok [sample_farm])
    (fun _ _ => Ok (Chain.Versioned "farm-deposit", 0%nat)).

Definition signature_of (tx : Chain.Transaction) : string :=
  match tx with
  | Chain.Versioned p => "sig-" ++ p
  | Chain.Legacy p => "sig-" ++ p
  end.

Definition sample_connection (usdc_raw lp_raw : Z) (stake_err : option string)
    : Chain.Connection :=
  Chain.mkConnection
    (Ok (sample_raydium usdc_raw lp_raw))
    (Ok (sample_raydium usdc_raw lp_raw))
    (fun _ => true)
    (fun mint => Ok [mint ++ "-account"])
    (fun _ => Ok (Some (Chain.ParsedData (Some (Some (50 # 1))))))
    (fun tx => Ok tx)
    (fun tx => Ok (signature_of tx))
    (fun tx => Ok (signature_of tx))
    (Ok "blockhash")
    (fun sig => if String.eqb sig "sig-farm-deposit" then Ok stake_err else Ok None).

(** A swap API that quotes fifty RAY a SOL, and one that is unreachable. *)
Definition sample_api : SolanaSwap.Api :=
  SolanaSwap.mkApi (Ok 10000)
    (fun amount bps => Ok (SolanaSwap.mkSwapCompute amount (amount * 50)
                             (amount * 50 * (10000 - bps) / 10000) bps))
    (fun _ _ => Ok [Chain.Versioned "swap"]).

Definition unreachable_api : SolanaSwap.Api :=
  SolanaSwap.mkApi (Throw (JsError "Network Error"))
    (fun _ _ => Throw (JsError "Network Error"))
    (fun _ _ => Throw (JsError "Network Error")).

(** [apiRequest] as a client that rejects on a status that is not 2xx. *)
Definition throw_if_not_ok (r : Routes.HttpResponse) : res Routes.HttpResponse :=
  if Routes.status r <? 300 then Ok r else Throw (JsError "Request failed").

Definition sample_client (api : SolanaSwap.Api) (c : Chain.Connection)
    : InvestmentModal.Client :=
  InvestmentModal.mkClient api c throw_if_not_ok.

(** One SOL into the SOL/RAY opportunity, the estimate shown being fifty
    RAY. *)
Definition sample_modal (autoStake : bool) : InvestmentModal.Modal :=
  InvestmentModal.mkModal sample_opportunity (1 # 1) autoStake (Some (50 # 1)) true.

Definition sample_chat : OpenAIService.Env :=
  OpenAIService.mkEnv None "You are SolSeeker"
    (fun _ => "No yield opportunities available at the moment.").

Definition sample_env : Routes.Env :=
  Routes.mkEnv (fun _ => Ok 5000000000) 1750000001 "ab12" sample_chat.

(** A server with the sample user connected in session ["s1"]. *)
Definition sample_server : Routes.Server :=
  Routes.mkServer sample_db
    (<["s1" := SolanaService.mkWalletData "9xQeWvG816bUx9EPjHmaT23yvVM2ZWbrrpZb9PusVFin" (Some 1)]> ∅)
    ∅.

(** The outcome of a run of [mutationFn] from the server [s]: one request
    to record [amount] in [token], and whatever the server added to the two
    tables is in that token and of that amount. *)
Definition recorded_as (token : string) (amount : Q) (s : Routes.Server)
    (run : Routes.Server * InvestmentModal.ui Routes.HttpResponse) : Prop :=
  records_token token (fst (snd run)) /\
  records_amount amount (fst (snd run)) /\
  (forall p, In p (Db.portfolios (Routes.db (fst run))) ->
     In p (Db.portfolios (Routes.db s)) \/ (Db.p_token p = token /\ Db.p_amount p = amount)) /\
  (forall t, In t (Db.transactions (Routes.db (fst run))) ->
     In t (Db.transactions (Routes.db s)) \/ (Db.t_token t = token /\ Db.t_amount t = amount)).

(** The outcome of a run that aborted: the server is as it was, no request
    was sent, and the caller got the error [e]. *)
Definition aborted_with (e : Exn) (s : Routes.Server)
    (run : Routes.Server * InvestmentModal.ui Routes.HttpResponse) : Prop :=
  fst run = s /\ InvestmentModal.posts (fst (snd run)) = [] /\ snd (snd run) = Throw e.

(** The toast with this title was shown. *)
Definition shown (title : string) (t : list InvestmentModal.Event) : bool :=
  existsb (fun e => match e with
                    | InvestmentModal.Toast title' _ _ _ => String.eqb title title'
                    | InvestmentModal.Post _ => false
                    end) t.

(** The sample run: one SOL into the sample opportunity from session
    ["s1"] of the sample server. *)
Definition sample_run (autoStake : bool) (api : SolanaSwap.Api) (usdc_raw : Z)
    (stake_err : option string) : Routes.Server * InvestmentModal.ui Routes.HttpResponse :=
  InvestmentModal.mutationFn sample_env "s1"
    (sample_client api (sample_connection usdc_raw 1000 stake_err))
    (sample_modal autoStake) sample_server.

(** The user has a subscription row that is active. *)
Definition has_active_subscription (db : Db.t) (userId : Z) : Prop :=
  exists row, In row (Db.subscriptions db) /\ Db.s_userId row = userId /\
              Db.s_isActive row = true.

(** A response that refuses the request. *)
Definition rejected (r : Routes.HttpResponse) : Prop := 400 <= Routes.status r.

(** The server [s] with the subscription table replaced by [subs]. *)
Definition with_subscriptions (subs : list Db.SolanaSubscription) (s : Routes.Server)
    : Routes.Server :=
  Routes.mkServer
    (Db.mk (Db.users (Routes.db s)) (Db.preferences (Routes.db s))
       (Db.opportunities (Routes.db s)) (Db.portfolios (Routes.db s))
       (Db.transactions (Routes.db s)) subs
       (Db.next_user (Routes.db s)) (Db.next_preference (Routes.db s))
       (Db.next_portfolio (Routes.db s)) (Db.next_transaction (Routes.db s))
       (Db.next_subscription (Routes.db s)))
    (Routes.connectedWallets s) (Routes.userChats s).

(** An assistant that answers, for the examples. *)
Definition answering_chat : OpenAIService.Env :=
  OpenAIService.mkEnv
    (Some (OpenAIService.mkClient
             (fun _ => Ok (Some "The SOL-RAY LP on Raydium pays 12.5% APY."))
             (fun _ _ => OpenAIService.no_intent)))
    "You are SolSeeker"
    (fun _ => "Available yield opportunities: SOL-RAY LP").

Definition answering_env : Routes.Env :=
  Routes.mkEnv (fun _ => Ok 5000000000) 1750000001 "ab12" answering_chat.

(** For every wallet address at most one row of [users]. *)
Definition wallet_unique (db : Db.t) : Prop :=
  List.NoDup (map Db.u_walletAddress (Db.users db)).

(** The rows of [users] by what identifies them. *)
Definition user_keys (db : Db.t) : list (Z * string) :=
  map (fun u => (Db.u_id u, Db.u_walletAddress u)) (Db.users db).

(** No request is served concurrently. *)
Definition alone : nat -> list Db.Write := fun _ => [].

(** While the request waits for its first lookup, another one registers
    the wallet [w]. *)
Definition racing (w : string) : nat -> list Db.Write :=
  fun k => match k with
           | O => [Db.CreateUser w 1750000000]
           | _ => []
           end.

(** What registering the wallet address [w] does while [others] are served:
    the store keeps at most one user a wallet; when the address is
    registered at the lookup, the answer is that user's id and the request
    adds no row to what the others wrote; and when the address is
    registered by another request between the lookup and the insert, the
    answer is the id of the user that request created and this one writes
    nothing. *)
Definition register_keeps_one_user (env : Routes.Env) (others : nat -> list Db.Write)
    (w : string) (s : Routes.Server) : Prop :=
  let run := Routes.register env others (JStr w) s in
  let d1 := Db.apply_writes (others 0%nat) (Routes.db s) in
  wallet_unique (Routes.db (fst run)) /\
  (forall u, Db.user_findUnique_wallet (Routes.db s) w = Some u ->
     snd run = Routes.json (Routes.PRegistered (Db.u_id u)) /\
     user_keys (Routes.db (fst run)) = user_keys d1) /\
  (forall u, Db.user_findUnique_wallet (Routes.db s) w = None ->
     Db.user_findUnique_wallet d1 w = Some u ->
     snd run = Routes.json (Routes.PRegistered (Db.u_id u)) /\
     Routes.db (fst run) = Db.apply_writes (others 1%nat) d1).

(** What [POST /api/wallet/subscribe] does for a request whose user
    [userId] has an active subscription: the answer is success with an
    active subscription row of that user that was there and the message
    "Subscription already active", and the subscription table is as it
    was. *)
Definition answers_already_active (userId : Z) (s : Routes.Server)
    (run : Routes.Server * Routes.HttpResponse) : Prop :=
  exists sub,
    snd run = Routes.json (Routes.PSubscribed sub (Some "Subscription already active")) /\
    In sub (Db.subscriptions (Routes.db s)) /\
    Db.s_userId sub = userId /\ Db.s_isActive sub = true /\
    Db.subscriptions (Routes.db (fst run)) = Db.subscriptions (Routes.db s).

(** A well-formed subscribe request of the sample user's wallet, and the
    sample server once that user has subscribed. *)
Definition sample_subscribe : Routes.SubscribeBody :=
  Routes.mkSubscribeBody (JStr "9xQeWvG816bUx9EPjHmaT23yvVM2ZWbrrpZb9PusVFin")
    (JStr "5VERv8NMvzbJMEkV8xnrLkEaWRtSz9CosKDYjCJjBRnbJLgp8uirBgmQpjKhoR4tjF3ZpRzrFmBV6UjKdiSZkQUW")
    (JNum (1 # 1000000)) JUndefined.

Definition sample_subscription : Db.SolanaSubscription :=
  Db.mkSolanaSubscription 1 1 1749000000 (Some "3xTz") (1 # 1000000) "USDC" true.

Definition subscribed_server : Routes.Server :=
  with_subscriptions [sample_subscription] sample_server.

(** A step of a handler that writes no subscription. *)
Definition keeps_subscriptions {A : Type} (m : sx Routes.Server A) : Prop :=
  forall s, Db.subscriptions (Routes.db (fst (m s))) = Db.subscriptions (Routes.db s).

(** A step of the loop that signs, sends and confirms the swap's
    transactions throws [e]. *)
Inductive send_throws (c : Chain.Connection) : list Chain.Transaction -> Exn -> Prop :=
| sign_throws tx rest e :
    Chain.signTransaction c tx = Throw e -> send_throws c (tx :: rest) e
| send_raw_throws tx rest signedTx e :
    Chain.signTransaction c tx = Ok signedTx ->
    Chain.sendRawTransaction c signedTx = Throw e -> send_throws c (tx :: rest) e
| blockhash_throws tx rest signedTx txId e :
    Chain.signTransaction c tx = Ok signedTx ->
    Chain.sendRawTransaction c signedTx = Ok txId ->
    Chain.getLatestBlockhash c = Throw e -> send_throws c (tx :: rest) e
| confirm_throws tx rest signedTx txId blockhash e :
    Chain.signTransaction c tx = Ok signedTx ->
    Chain.sendRawTransaction c signedTx = Ok txId ->
    Chain.getLatestBlockhash c = Ok blockhash ->
    Chain.confirmTransaction c txId = Throw e -> send_throws c (tx :: rest) e
| later_throws tx rest signedTx txId blockhash err e :
    Chain.signTransaction c tx = Ok signedTx ->
    Chain.sendRawTransaction c signedTx = Ok txId ->
    Chain.getLatestBlockhash c = Ok blockhash ->
    Chain.confirmTransaction c txId = Ok err ->
    send_throws c rest e -> send_throws c (tx :: rest) e.

(** A step of [swapSolToRay] throws [e]: the priority fee request, the swap
    computation, the request for the transactions, or the loop. *)
Inductive swap_step_throws (api : SolanaSwap.Api) (c : Chain.Connection) (amountSol : Q)
    (e : Exn) : Prop :=
| fee_throws :
    SolanaSwap.priorityFee api = Throw e -> swap_step_throws api c amountSol e
| compute_throws fee :
    SolanaSwap.priorityFee api = Ok fee ->
    SolanaSwap.computeSwap api (SolanaSwap.lamports amountSol) 50 = Throw e ->
    swap_step_throws api c amountSol e
| build_throws fee swapResponse :
    SolanaSwap.priorityFee api = Ok fee ->
    SolanaSwap.computeSwap api (SolanaSwap.lamports amountSol) 50 = Ok swapResponse ->
    SolanaSwap.swapTransactions api fee swapResponse = Throw e ->
    swap_step_throws api c amountSol e
| loop_throws fee swapResponse allTransactions :
    SolanaSwap.priorityFee api = Ok fee ->
    SolanaSwap.computeSwap api (SolanaSwap.lamports amountSol) 50 = Ok swapResponse ->
    SolanaSwap.swapTransactions api fee swapResponse = Ok allTransactions ->
    send_throws c allTransactions e ->
    swap_step_throws api c amountSol e.

(** The amount of USDC the check [r] requires is the pair amount of
    [rayAmount] at the pool's ratio, with one percent of slippage. *)
Definition required_at_pool_ratio (c : Chain.Connection) (rayAmount : Q)
    (r : RayStaking.UsdcCheck) : Prop :=
  exists raydium poolInfo rest pairAmount,
    Chain.initSdk c = Ok raydium /\
    Chain.fetchPoolById raydium RayStaking.poolId = Ok (poolInfo :: rest) /\
    Chain.computePairAmount raydium poolInfo rayAmount true (1 # 100) = Ok pairAmount /\
    RayStaking.requiredUsdc r = Chain.maxAnotherAmount pairAmount.

(** A run that sends no request. *)
Definition silent {A : Type} (u : InvestmentModal.ui A) : Prop :=
  InvestmentModal.posts (fst u) = [].

(** ** The storage: what its reads and writes are measured against *)

(** [x] lies between [lo] and [hi]. *)
Definition within (lo hi : Q) (x : Q) : Prop := (lo <= x)%Q /\ (x <= hi)%Q.

(** [Math.random] returns a number of [0, 1). *)
Definition is_random (random : nat -> Q) : Prop :=
  forall i, (0 <= random i)%Q /\ (random i < 1)%Q.

(** Every character of [s] is one of [0123456789abcdef]. *)
Definition is_hex (s : string) : Prop :=
  List.Forall (fun c => In c (list_ascii_of_string Storage.hex_chars)) (list_ascii_of_string s).

(** [y] does not pay more than [x]. *)
Definition apy_desc (x y : Db.YieldOpportunity) : Prop := (Db.o_apy y <= Db.o_apy x)%Q.

(** The mean of the APYs of a table that is not empty. *)
Definition mean_apy (l : list Db.YieldOpportunity) : Q :=
  (fold_right (fun o sum => Db.o_apy o + sum) 0 l / inject_Z (Z.of_nat (length l)))%Q.

Definition opportunity_refs (db : Db.t) : Prop :=
  (forall p, In p (Db.portfolios db) -> Db.has_opportunity db (Db.p_opportunityId p) = true) /\
  (forall x, In x (Db.transactions db) -> Db.has_opportunity db (Db.t_opportunityId x) = true).

(** The rows of [user_portfolios] of the user [uid] that are active. *)
Definition active_rows (db : Db.t) (uid : Z) : list Db.UserPortfolio :=
  List.filter (fun p => (Db.p_userId p =? uid) && Db.p_active p) (Db.portfolios db).

(** The sum of the amounts of [rows]. *)
Definition sum_amounts (rows : list Db.UserPortfolio) : Q :=
  fold_right (fun p sum => (Db.p_amount p + sum)%Q) 0%Q rows.

(** The item shows the row. *)
Definition shows (item : Storage.PortfolioItem) (p : Db.UserPortfolio) : Prop :=
  Storage.pi_id item = Db.p_id p /\ Storage.pi_userId item = Db.p_userId p /\
  Storage.pi_opportunityId item = Db.p_opportunityId p /\
  Storage.pi_amount item = Db.p_amount p /\ Storage.pi_token item = Db.p_token p /\
  Storage.pi_active item = Db.p_active p.

Definition selected_rows (db : Db.t) (uid : Z) (filter : string) : list Db.Transaction :=
  List.filter (fun x => (Db.t_userId x =? uid)
                        && (String.eqb filter "all" || String.eqb (Db.t_transactionType x) filter))
    (Db.transactions db).

(** [y] is not dated after [x]. *)
Definition date_desc (x y : Db.Transaction) : Prop :=
  Db.t_transactionDate y <= Db.t_transactionDate x.

Definition one_preference_a_user (db : Db.t) : Prop :=
  List.NoDup (map Db.pr_userId (Db.preferences db)).

(** A [Math.random] for the examples: 0, 0.1, ..., 0.9, 0, ... *)
Definition sample_random : nat -> Q := fun i => (Z.of_nat (i mod 10) # 10)%Q.

(** The sample store after two investments of the sample user, the second
    one withdrawn. *)
Definition invested_db : Db.t :=
  Db.mk [sample_user] [] [sample_opportunity]
    [Db.mkUserPortfolio 1 1 1 (5 # 2) 1750000000 "RAY" true;
     Db.mkUserPortfolio 2 1 1 (3 # 1) 1750000100 "RAY" false]
    [Db.mkTransaction 1 1 1 "invest" (5 # 2) "RAY" 1750000000 "completed" (Some "ab12");
     Db.mkTransaction 2 1 1 "invest" (3 # 1) "RAY" 1750000100 "completed" (Some "cd34");
     Db.mkTransaction 3 1 1 "withdraw" (3 # 1) "RAY" 1750000200 "completed" (Some "ef56")]
    [] 2 1 3 4 1.


(** A [PATCH] that sets no field. *)
Definition no_change : Storage.PartialUserPreference :=
  Storage.mkPartialUserPreference None None None None None None.

(** ** The sessions and the other handlers *)

(** What connecting the wallet [address] in the session [sessionId] leaves
    behind: the call succeeds, one user a wallet still, and the session
    holds the address with the id of the user registered for it; no other
    session and no chat history changed. *)
Definition connected_as_registered (address sessionId : string) (s : Routes.Server)
    (run : Routes.Server * res Routes.ConnectResult) : Prop :=
  wallet_unique (Routes.db (fst run)) /\
  Routes.userChats (fst run) = Routes.userChats s /\
  exists userId,
    snd run = Ok (Routes.mkConnectResult true address (4255 # 100) userId) /\
    Routes.connectedWallets (fst run) =
      <[sessionId := SolanaService.mkWalletData address (Some userId)]>
        (Routes.connectedWallets s) /\
    In (userId, address) (user_keys (Routes.db (fst run))).

(** The status of a session that holds [address] and [userId]: connected
    when the balance request answers, and not connected when it fails. *)
Definition status_of (env : Routes.Env) (address : string) (userId : option Z)
    : SolanaService.WalletStatus :=
  match Routes.getBalance env address with
  | Ok lamports =>
      SolanaService.mkWalletStatus true (Some address)
        (Some (inject_Z lamports / SolanaService.LAMPORTS_PER_SOL)%Q) userId
  | Throw _ => SolanaService.not_connected
  end.

(** The user a session stands for: the one whose id it holds, or, when it
    holds none, the one registered for its wallet address. *)
Definition session_user (db : Db.t) (walletData : SolanaService.WalletData) : option Z :=
  if truthy_id (SolanaService.wd_userId walletData) then SolanaService.wd_userId walletData
  else Db.u_id <$> Db.user_findUnique_wallet db (SolanaService.wd_address walletData).

(** The store and the chat histories of [s'] are those of [s]. *)
Definition store_unchanged (s s' : Routes.Server) : Prop :=
  Routes.db s' = Routes.db s /\ Routes.userChats s' = Routes.userChats s.

(** A step of a handler that reads the store and may change the sessions
    only. *)
Definition reads_only {A : Type} (m : sx Routes.Server A) : Prop :=
  forall s, store_unchanged s (fst (m s)).

(** A call of the storage that writes nothing. *)
Definition pure_read {A : Type} (m : sx Db.t A) : Prop := forall db, fst (m db) = db.

(** The session is not reported as connected: it holds no wallet, or the
    balance request for its wallet fails. *)
Definition unconnected (env : Routes.Env) (sessionID : string) (s : Routes.Server) : Prop :=
  SolanaService.getWalletStatus (Routes.getBalance env) (Routes.connectedWallets s) sessionID
    = SolanaService.not_connected.

(** A request that names no user of the store (its [userId] is 7.5) and an
    existing opportunity. *)
Definition sample_invest_body : Routes.InvestBody :=
  Routes.mkInvestBody (JNum (15 # 2)) (JNum (1 # 1)) (JNum (5 # 2)) (JDate 1750000000)
    (JStr "RAY") JUndefined.

(** ** The chat histories and the chain *)

(** The message a conversation opens with: the first one of the history
    kept for the session, or the system prompt for a session without
    history. *)
Definition opening (env : OpenAIService.Env) (sessionId : string)
    (userChats : gmap string (list OpenAIService.ChatMessage)) : OpenAIService.ChatMessage :=
  match userChats !! sessionId with
  | Some (first :: _) => first
  | _ => OpenAIService.mkChatMessage OpenAIService.system (OpenAIService.getSystemPrompt env)
  end.

(** The connection [c], except that every confirmation that arrives
    reports [err]. *)
Definition reporting (err : option string) (c : Chain.Connection) : Chain.Connection :=
  Chain.mkConnection (Chain.initSdk c) (Chain.reloadSdk c) (Chain.isValidAmm c)
    (Chain.getTokenAccountsByOwner c)
    (Chain.getParsedAccountInfo c) (Chain.signTransaction c) (Chain.sendTransaction c)
    (Chain.sendRawTransaction c) (Chain.getLatestBlockhash c)
    (fun txId => match Chain.confirmTransaction c txId with
                 | Ok _ => Ok err
                 | Throw e => Throw e
                 end).

(** The SDK [r] before it has loaded the accounts of the wallet, and a
    chain on which the SDK lists them only once it is started again. *)
Definition without_accounts (r : Chain.Raydium) : Chain.Raydium :=
  Chain.mkRaydium [] (Chain.fetchPoolById r) (Chain.computePairAmount r)
    (Chain.addLiquidity r) (Chain.fetchFarmInfoById r) (Chain.farm_deposit r).

Definition late_connection : Chain.Connection :=
  let c := sample_connection 200000000 1000 None in
  Chain.mkConnection (Ok (without_accounts (sample_raydium 200000000 1000)))
    (Chain.reloadSdk c) (Chain.isValidAmm c) (Chain.getTokenAccountsByOwner c)
    (Chain.getParsedAccountInfo c) (Chain.signTransaction c) (Chain.sendTransaction c)
    (Chain.sendRawTransaction c) (Chain.getLatestBlockhash c) (Chain.confirmTransaction c).

(** A swap API that quotes and then returns no transaction. *)
Definition idle_api : SolanaSwap.Api :=
  SolanaSwap.mkApi (Ok 10000)
    (fun amount bps => Ok (SolanaSwap.mkSwapCompute amount (amount * 50)
                             (amount * 50 * (10000 - bps) / 10000) bps))
    (fun _ _ => Ok []).

(** * Properties *)

(** ** The store *)

Lemma existsb_find_some {A : Type} (f : A -> bool) (l : list A) :
  existsb f l = true -> exists x, find f l = Some x /\ f x = true.
Proof.
  induction l as [|a l IH]; simpl; [discriminate|].
  destruct (f a) eqn:Ha; [eauto|].
  simpl. exact IH.
Qed.

Lemma find_none_existsb {A : Type} (f : A -> bool) (l : list A) :
  find f l = None -> existsb f l = false.
Proof.
  induction l as [|a l IH]; simpl; [reflexivity|].
  destruct (f a); [discriminate|]. exact IH.
Qed.

(** ** Rounding to cents *)

Lemma inject_Z_lt_succ a b : (inject_Z a < inject_Z b + 1)%Q -> a <= b.
Proof. unfold Qlt, Qplus, inject_Z. simpl. lia. Qed.

Lemma cents_bounds x :
  let cents := Qfloor (Qabs x * (100 # 1) + (1 # 2))%Q in
  (inject_Z cents <= Qabs x * (100 # 1) + (1 # 2))%Q /\
  (Qabs x * (100 # 1) + (1 # 2) < inject_Z cents + 1)%Q.
Proof.
  intros cents. split; [apply Qfloor_le|].
  pose proof (Qlt_floor (Qabs x * (100 # 1) + (1 # 2))) as H.
  rewrite inject_Z_plus in H. exact H.
Qed.

Lemma Q_of_cents c m : (inject_Z c / (100 # 1) <= inject_Z m)%Q <-> c <= 100 * m.
Proof. unfold Qle, Qdiv, Qmult, Qinv, inject_Z. simpl. lia. Qed.

Lemma Q_of_cents_ge c m : (inject_Z m <= inject_Z c / (100 # 1))%Q <-> 100 * m <= c.
Proof. unfold Qle, Qdiv, Qmult, Qinv, inject_Z. simpl. lia. Qed.

Lemma round2_between (lo hi : Z) (x : Q) :
  (inject_Z lo <= x)%Q -> (x <= inject_Z hi)%Q ->
  (inject_Z lo <= round2 x)%Q /\ (round2 x <= inject_Z hi)%Q.
Proof.
  intros Hlo Hhi. unfold round2.
  destruct (cents_bounds x) as [H1 H2].
  set (cents := Qfloor (Qabs x * (100 # 1) + (1 # 2))) in *.
  assert (E100 : forall m, (inject_Z (100 * m) == (100 # 1) * inject_Z m)%Q).
  { intros m. rewrite inject_Z_mult. reflexivity. }
  destruct (Qle_bool 0 x) eqn:E.
  - apply Qle_bool_iff in E. rewrite (Qabs_pos x E) in H1, H2.
    split.
    + apply Q_of_cents_ge. apply inject_Z_lt_succ. rewrite E100. lra.
    + apply Q_of_cents.
      assert (cents <= 100 * hi); [|lia].
      apply inject_Z_lt_succ. rewrite E100. lra.
  - assert (Hneg : (x <= 0)%Q).
    { apply Qlt_le_weak, Qnot_le_lt. intros C. apply Qle_bool_iff in C. congruence. }
    rewrite (Qabs_neg x Hneg) in H1, H2.
    split.
    + assert (cents <= 100 * (- lo)).
      { apply inject_Z_lt_succ. rewrite E100, inject_Z_opp. lra. }
      assert (Hc : (inject_Z cents / (100 # 1) <= inject_Z (- lo))%Q) by (apply Q_of_cents; lia).
      rewrite inject_Z_opp in Hc. lra.
    + assert (100 * (- hi) <= cents).
      { apply inject_Z_lt_succ. rewrite E100, inject_Z_opp. lra. }
      assert (Hc : (inject_Z (- hi) <= inject_Z cents / (100 # 1))%Q) by (apply Q_of_cents_ge; lia).
      rewrite inject_Z_opp in Hc. lra.
Qed.

Lemma round2_close x : (Qabs (round2 x - x) <= 1 # 200)%Q.
Proof.
  apply Qabs_Qle_condition. unfold round2.
  destruct (cents_bounds x) as [H1 H2].
  set (cents := Qfloor (Qabs x * (100 # 1) + (1 # 2))) in *.
  assert (Ediv : (inject_Z cents / (100 # 1) == inject_Z cents * (1 # 100))%Q) by reflexivity.
  destruct (Qle_bool 0 x) eqn:E.
  - apply Qle_bool_iff in E. rewrite (Qabs_pos x E) in H1, H2. rewrite Ediv. split; lra.
  - assert (Hneg : (x <= 0)%Q).
    { apply Qlt_le_weak, Qnot_le_lt. intros C. apply Qle_bool_iff in C. congruence. }
    rewrite (Qabs_neg x Hneg) in H1, H2. rewrite Ediv. split; lra.
Qed.

Lemma half_between (a b : Z) :
  (inject_Z a <= inject_Z b + (1 # 2))%Q -> (inject_Z b + (1 # 2) < inject_Z a + 1)%Q -> a = b.
Proof. unfold Qle, Qlt, Qplus, inject_Z. simpl. lia. Qed.

(** A number of at most two decimals is its own rounding. *)
Lemma round2_exact x c : (x == inject_Z c / (100 # 1))%Q -> (round2 x == x)%Q.
Proof.
  intros E. unfold round2.
  destruct (cents_bounds x) as [H1 H2].
  set (cents := Qfloor (Qabs x * (100 # 1) + (1 # 2))) in *.
  assert (Hx : (x * (100 # 1) == inject_Z c)%Q) by (rewrite E; field).
  destruct (Qle_bool 0 x) eqn:E0.
  - apply Qle_bool_iff in E0. rewrite (Qabs_pos x E0), Hx in H1, H2.
    rewrite (half_between cents c H1 H2). rewrite E. reflexivity.
  - assert (Hneg : (x <= 0)%Q).
    { apply Qlt_le_weak, Qnot_le_lt. intros C. apply Qle_bool_iff in C. congruence. }
    assert (Hn : (- x * (100 # 1) == inject_Z (- c))%Q) by (rewrite inject_Z_opp, <- Hx; ring).
    rewrite (Qabs_neg x Hneg), Hn in H1, H2.
    rewrite (half_between cents (- c) H1 H2). rewrite E, inject_Z_opp. field.
Qed.

Lemma decimal_2_round2 x : (Db.decimal 2 x == round2 x)%Q.
Proof. unfold Db.decimal, round2. rewrite Qred_correct. reflexivity. Qed.

(** What a [Decimal(20, 2)] column stores is the number to within half a
    cent. *)
Lemma decimal_2_close x : (Qabs (Db.decimal 2 x - x) <= 1 # 200)%Q.
Proof. rewrite decimal_2_round2. apply round2_close. Qed.

(** A number of at most two decimals is stored as it is. *)
Lemma decimal_2_exact x c : (x == inject_Z c / (100 # 1))%Q -> (Db.decimal 2 x == x)%Q.
Proof. intros E. rewrite decimal_2_round2. exact (round2_exact x c E). Qed.

(** ** [createInvestment] *)

(** A user id that does not parse stops [createInvestment] before any
    write. *)
Lemma createInvestment_invalid_id hash now userId data db :
  parseInt userId = None ->
  Storage.createInvestment hash now userId data db = (db, Throw (JsError "Invalid user ID")).
Proof.
  intros H. unfold Storage.createInvestment. rewrite H. reflexivity.
Qed.

(** With a user and an opportunity that exist, the call returns the new
    item and appends exactly one row to each of the two tables. *)
Lemma createInvestment_ok hash now userId uid data db :
  parseInt userId = Some uid ->
  Db.has_user db uid = true ->
  Db.has_opportunity db (Storage.ipf_opportunityId data) = true ->
  exists opp,
    Db.yieldOpportunity_findUnique db (Storage.ipf_opportunityId data) = Some opp /\
    let p := Db.mkUserPortfolio (Db.next_portfolio db) uid (Storage.ipf_opportunityId data)
               (Db.decimal 2 (Storage.ipf_amount data)) (Storage.ipf_depositDate data)
               (Storage.ipf_token data) (Storage.ipf_active data) in
    let t := Db.mkTransaction (Db.next_transaction db) uid (Storage.ipf_opportunityId data)
               "invest" (Db.decimal 2 (Storage.ipf_amount data)) (Storage.ipf_token data) now
               "completed" (Some hash) in
    Storage.createInvestment hash now userId data db =
      (Db.mk (Db.users db) (Db.preferences db) (Db.opportunities db)
         (Db.portfolios db ++ [p]) (Db.transactions db ++ [t]) (Db.subscriptions db)
         (Db.next_user db) (Db.next_preference db) (Db.next_portfolio db + 1)
         (Db.next_transaction db + 1) (Db.next_subscription db),
       Ok (Storage.mkPortfolioItem (Db.next_portfolio db) uid (Storage.ipf_opportunityId data)
             (Db.decimal 2 (Storage.ipf_amount data)) (Storage.ipf_depositDate data)
             (Storage.ipf_token data) (Storage.ipf_active data)
             (Db.o_name opp) (Db.o_protocol opp) (Db.o_apy opp))).
Proof.
  intros Hid Hu Ho.
  destruct (existsb_find_some _ _ Ho) as [opp [Hfind _]].
  exists opp. split; [exact Hfind|].
  unfold Storage.createInvestment. rewrite Hid.
  unfold sx_bind, Storage.prisma, Db.userPortfolio_create, Db.transaction_create.
  rewrite Hu, Ho. cbn [negb fst snd].
  unfold Db.has_user, Db.has_opportunity in *. cbn [Db.users Db.opportunities].
  rewrite Hu, Ho. cbn [negb].
  unfold Db.yieldOpportunity_findUnique in *. cbn [Db.opportunities]. rewrite Hfind.
  reflexivity.
Qed.

(** A foreign key that names no row stops the first insert: nothing is
    written. *)
Lemma createInvestment_no_opportunity hash now userId uid data db :
  parseInt userId = Some uid ->
  Db.has_user db uid = true ->
  Db.has_opportunity db (Storage.ipf_opportunityId data) = false ->
  Storage.createInvestment hash now userId data db =
    (db, Throw (Db.P2003 "user_portfolios_opportunity_id_fkey")).
Proof.
  intros Hid Hu Ho. unfold Storage.createInvestment. rewrite Hid.
  unfold sx_bind, Storage.prisma, Db.userPortfolio_create.
  rewrite Hu, Ho. reflexivity.
Qed.

(** C7, as amended: every call to [createInvestment] whose user id parses
    as an integer that names an existing user, for an opportunity that
    exists and an amount that is a number the [Decimal(20, 2)] columns
    take, writes a portfolio row and a transaction row for the same user,
    opportunity, amount and token, the transaction row of type ['invest']
    and status ['completed'].  The amount of both rows, and of the item
    returned, is
    the amount given as the columns store it: rounded to two decimals, so
    within half a cent of it, and the amount given itself when that has at
    most two decimals.  The function takes no argument that tells which
    step the workflow reached. *)
Theorem C7_createInvestment_writes_both hash now userId uid data db :
  parseInt userId = Some uid ->
  Db.has_user db uid = true ->
  Db.has_opportunity db (Storage.ipf_opportunityId data) = true ->
  Db.decimal_fits 20 2 (Storage.ipf_amount data) = true ->
  writes_both_rows hash now userId data db /\
  exists item, snd (Storage.createInvestment hash now userId data db) = Ok item /\
               Storage.pi_userId item = uid /\
               Storage.pi_token item = Storage.ipf_token data /\
               Storage.pi_amount item = Db.decimal 2 (Storage.ipf_amount data) /\
               (Qabs (Storage.pi_amount item - Storage.ipf_amount data) <= 1 # 200)%Q /\
               (forall cents : Z,
                  (Storage.ipf_amount data == inject_Z cents / (100 # 1))%Q ->
                  (Storage.pi_amount item == Storage.ipf_amount data)%Q).
Proof.
  intros Hid Hu Ho _.
  destruct (createInvestment_ok hash now userId uid data db Hid Hu Ho) as [opp [_ Heq]].
  cbv zeta in Heq. unfold writes_both_rows. rewrite Heq. cbn [fst snd]. split.
  - eexists _, _. repeat split; reflexivity.
  - eexists. split; [reflexivity|]. cbn [Storage.pi_userId Storage.pi_token Storage.pi_amount].
    repeat split; [apply decimal_2_close|].
    intros cents E. exact (decimal_2_exact _ cents E).
Qed.

Lemma C7_createInvestment_writes_both_witness :
  writes_both_rows "ab12" 1750000001 "1" sample_investment sample_db /\
  exists item,
    snd (Storage.createInvestment "ab12" 1750000001 "1" sample_investment sample_db) = Ok item /\
    Storage.pi_userId item = 1 /\
    Storage.pi_token item = Storage.ipf_token sample_investment /\
    Storage.pi_amount item = Db.decimal 2 (Storage.ipf_amount sample_investment) /\
    (Qabs (Storage.pi_amount item - Storage.ipf_amount sample_investment) <= 1 # 200)%Q /\
    (forall cents : Z,
       (Storage.ipf_amount sample_investment == inject_Z cents / (100 # 1))%Q ->
       (Storage.pi_amount item == Storage.ipf_amount sample_investment)%Q).
Proof.
  apply (C7_createInvestment_writes_both "ab12" 1750000001 "1" 1 sample_investment sample_db);
    reflexivity.
Defined.

(** C7, as stated, fails: a call whose user id is not a number, and a call
    for an opportunity that does not exist, write no row at all; and a call
    with the amount 0.005 writes two rows that carry 0.01. *)
Lemma C7_counterexample :
  ~ writes_both_rows "ab12" 1750000001 "guest" sample_investment sample_db /\
  recorded_rows (fst (Storage.createInvestment "ab12" 1750000001 "guest"
                        sample_investment sample_db)) = recorded_rows sample_db /\
  ~ writes_both_rows "ab12" 1750000001 "1"
      (Storage.mkInsertUserPortfolio (1 # 1) 7 (5 # 2) 1750000000 "RAY" true) sample_db /\
  recorded_rows (fst (Storage.createInvestment "ab12" 1750000001 "1"
                        (Storage.mkInsertUserPortfolio (1 # 1) 1 (5 # 1000) 1750000000 "RAY" true)
                        sample_db))
    = ([Db.mkUserPortfolio 1 1 1 (1 # 100) 1750000000 "RAY" true],
       [Db.mkTransaction 1 1 1 "invest" (1 # 100) "RAY" 1750000001 "completed" (Some "ab12")]).
Proof.
  repeat split.
  - unfold writes_both_rows. simpl. intros [p [t [Hp _]]]. discriminate Hp.
  - unfold writes_both_rows. simpl. intros [p [t [Hp _]]]. discriminate Hp.
Qed.

(** ** [checkUsdcBalanceForLiquidity] *)

(** The summing loop throws exactly when reading one of the accounts
    throws. *)
Lemma sum_parsed_throws c accounts total :
  (exists e, RayStaking.sum_parsed c accounts total = Throw e) <->
  (exists account e, In account accounts /\ Chain.getParsedAccountInfo c account = Throw e).
Proof.
  revert total. induction accounts as [|a rest IH]; intros total; simpl.
  - split; [intros [e H]; discriminate | intros [a [e [[] _]]]].
  - unfold res_bind. destruct (Chain.getParsedAccountInfo c a) as [parsed|e0] eqn:Ha.
    + assert (Hstep : forall t',
                (exists e, RayStaking.sum_parsed c rest t' = Throw e) <->
                (exists account e, (a = account \/ In account rest) /\
                                   Chain.getParsedAccountInfo c account = Throw e)).
      { intros t'. rewrite IH. split.
        - intros [x [e [Hin Hx]]]. exists x, e. auto.
        - intros [x [e [[Heq | Hin] Hx]]]; [subst x; congruence | eauto]. }
      destruct parsed as [[|[ui|]]|]; apply Hstep.
    + split; [intros _; exists a, e0; auto | intros _; eauto].
Qed.

(** The [try] block throws only when one of its steps fails. *)
Lemma checkUsdc_try_throws c rayAmount e :
  RayStaking.checkUsdcBalanceForLiquidity_try c rayAmount = Throw e ->
  usdc_step_fails c rayAmount.
Proof.
  unfold RayStaking.checkUsdcBalanceForLiquidity_try, res_bind.
  destruct (Chain.initSdk c) as [r|e0] eqn:Hsdk; [|intros _; eapply sdk_fails; eauto].
  destruct (Chain.fetchPoolById r RayStaking.poolId) as [[|p ps]|e0] eqn:Hpool; simpl;
    [intros _; eapply pool_missing; eauto | | intros _; eapply pool_fails; eauto].
  destruct (Chain.computePairAmount r p rayAmount true (1 # 100)) as [pa|e0] eqn:Hpair;
    [|intros _; eapply pair_fails; eauto].
  destruct (RayStaking.find_account (Chain.address (Chain.mintB p)) r) as [acc|] eqn:Hacc;
    [discriminate|].
  destruct (Chain.getTokenAccountsByOwner c (Chain.address (Chain.mintB p)))
    as [accounts|e0] eqn:Hlist; [|intros _; eapply accounts_fail; eauto].
  destruct (RayStaking.sum_parsed c accounts 0) as [total|e0] eqn:Hsum; [discriminate|].
  intros _.
  destruct (proj1 (sum_parsed_throws c accounts 0%Q) (ex_intro _ e0 Hsum))
    as [account [e1 [Hin Hread]]].
  eapply account_read_fails; eauto.
Qed.

(** And a failing step makes the [try] block throw. *)
Lemma checkUsdc_step_fails_throws c rayAmount :
  usdc_step_fails c rayAmount ->
  exists e, RayStaking.checkUsdcBalanceForLiquidity_try c rayAmount = Throw e.
Proof.
  unfold RayStaking.checkUsdcBalanceForLiquidity_try, res_bind.
  intros [e H | r e H1 H2 | r H1 H2 | r p ps e H1 H2 H3 | r p ps pa e H1 H2 H3 H4 H5
         | r p ps pa accounts account e H1 H2 H3 H4 H5 H6 H7].
  - rewrite H. eauto.
  - rewrite H1, H2. eauto.
  - rewrite H1, H2. simpl. eauto.
  - rewrite H1, H2. simpl. rewrite H3. eauto.
  - rewrite H1, H2. simpl. rewrite H3, H4, H5. eauto.
  - rewrite H1, H2. simpl. rewrite H3, H4, H5.
    destruct (proj2 (sum_parsed_throws c accounts 0%Q)) as [e' He']; [eauto|].
    rewrite He'. eauto.
Qed.

(** When the check says the balance is enough, every step succeeded and the
    balance found is at least the amount required. *)
Lemma checkUsdc_enough c rayAmount r :
  RayStaking.checkUsdcBalanceForLiquidity c rayAmount = Ok r ->
  RayStaking.hasEnoughUsdc r = true ->
  RayStaking.checkUsdcBalanceForLiquidity_try c rayAmount = Ok r /\
  (RayStaking.requiredUsdc r <= RayStaking.usdcBalance r)%Q.
Proof.
  unfold RayStaking.checkUsdcBalanceForLiquidity, try_catch.
  destruct (RayStaking.checkUsdcBalanceForLiquidity_try c rayAmount) as [r'|e] eqn:Htry.
  - intros [= <-] Henough. split; [reflexivity|].
    unfold RayStaking.checkUsdcBalanceForLiquidity_try, res_bind in Htry.
    repeat match type of Htry with
           | match ?x with _ => _ end = _ => destruct x; simpl in Htry; try discriminate
           end;
      injection Htry as <-; simpl in *; apply Qle_bool_iff; exact Henough.
  - intros [= <-]. discriminate.
Qed.

(** C10: [checkUsdcBalanceForLiquidity] always resolves and never rejects;
    when any internal step fails its result is
    [{ hasEnoughUsdc: false, requiredUsdc: 0, usdcBalance: 0 }], so a caller
    sees a failure to determine the requirement as an insufficient balance:
    the modal's effect sets [hasEnough] to [false] and shows no error. *)
Theorem C10_checkUsdcBalanceForLiquidity_never_throws (c : Chain.Connection) (rayAmount : Q) :
  (exists r, RayStaking.checkUsdcBalanceForLiquidity c rayAmount = Ok r) /\
  (forall e, RayStaking.checkUsdcBalanceForLiquidity c rayAmount <> Throw e) /\
  (usdc_step_fails c rayAmount ->
   RayStaking.checkUsdcBalanceForLiquidity c rayAmount =
     Ok (RayStaking.mkUsdcCheck false 0 0)) /\
  (forall cl m hasWallet info,
     usdc_step_fails c rayAmount ->
     InvestmentModal.connection cl = c ->
     InvestmentModal.estimatedRayAmount m = Some rayAmount ->
     InvestmentModal.checkUsdcBalance cl m hasWallet = Some info ->
     InvestmentModal.hasEnough info = false /\ InvestmentModal.required info = 0%Q).
Proof.
  assert (Hfail : usdc_step_fails c rayAmount ->
                  RayStaking.checkUsdcBalanceForLiquidity c rayAmount =
                    Ok (RayStaking.mkUsdcCheck false 0 0)).
  { intros Hfails. unfold RayStaking.checkUsdcBalanceForLiquidity, try_catch.
    destruct (checkUsdc_step_fails_throws c rayAmount Hfails) as [e He].
    rewrite He. reflexivity. }
  split; [|split; [|split; [exact Hfail|]]].
  - unfold RayStaking.checkUsdcBalanceForLiquidity, try_catch.
    destruct (RayStaking.checkUsdcBalanceForLiquidity_try c rayAmount); eauto.
  - intros e. unfold RayStaking.checkUsdcBalanceForLiquidity, try_catch.
    destruct (RayStaking.checkUsdcBalanceForLiquidity_try c rayAmount); discriminate.
  - intros cl m hasWallet info Hfails Hc Hest. unfold InvestmentModal.checkUsdcBalance.
    rewrite Hest, Hc, (Hfail Hfails).
    destruct (_ && hasWallet); [|discriminate].
    unfold res_bind.
    destruct (RayStaking.getUsdcBalance c) as [direct|e]; [|intros [= <-]; auto].
    destruct (negb _ || Qle_bool _ 0); intros [= <-]; auto.
Qed.


(** ** The investment workflow *)

Section Workflow.
Import InvestmentModal.

Variables (env : Routes.Env) (sessionID : string) (cl : Client) (m : Modal).

Lemma posts_app (t t' : list Event) : posts (t ++ t') = (posts t ++ posts t')%list.
Proof. unfold posts. apply flat_map_app. Qed.

Lemma silent_ret {A : Type} (a : A) : silent (ui_ret a).
Proof. reflexivity. Qed.

Lemma silent_await {A : Type} (r : res A) : silent (await r).
Proof. reflexivity. Qed.

Lemma silent_toast title description destructive : silent (toast title description destructive).
Proof. reflexivity. Qed.

Lemma silent_bind {A B : Type} (u : ui A) (k : A -> ui B) :
  silent u -> (forall a, silent (k a)) -> silent (ui_bind u k).
Proof.
  unfold silent, ui_bind. destruct u as [t [a|e]]; simpl; intros Hu Hk; [|exact Hu].
  specialize (Hk a). destruct (k a) as [t' r]. simpl in *.
  rewrite posts_app, Hu, Hk. reflexivity.
Qed.

Lemma silent_catch {A : Type} (u : ui A) (h : Exn -> ui A) :
  silent u -> (forall e, silent (h e)) -> silent (ui_catch u h).
Proof.
  unfold silent, ui_catch. destruct u as [t [a|e]]; simpl; intros Hu Hh; [exact Hu|].
  specialize (Hh e). destruct (h e) as [t' r]. simpl in *.
  rewrite posts_app, Hu, Hh. reflexivity.
Qed.

Lemma silent_on_stakeError e : silent (on_stakeError e).
Proof. unfold on_stakeError. destruct (isLiquidityError _); reflexivity. Qed.

Create HintDb silent.
#[local] Hint Resolve silent_ret silent_await silent_toast silent_on_stakeError : silent.

Ltac silent_steps :=
  repeat first
    [ apply silent_bind; [|intros ?]
    | apply silent_catch; [|intros ?]
    | match goal with |- silent (if ?b then _ else _) => destruct b end
    | solve [auto with silent] ].

Lemma silent_liquidity_and_stake : silent (liquidity_and_stake cl m).
Proof. unfold liquidity_and_stake. silent_steps. Qed.

(** No request leaves the browser before the record step. *)
Lemma silent_stages : silent (stages cl m).
Proof.
  unfold stages, swap_and_stake.
  pose proof silent_liquidity_and_stake.
  silent_steps.
Qed.

(** When the stages throw, [mutationFn] throws the same error, sends no
    request and leaves the server as it was. *)
Lemma mutationFn_aborted t e s :
  stages cl m = (t, Throw e) ->
  mutationFn env sessionID cl m s = (s, (t, Throw e)) /\ posts t = [].
Proof.
  intros H. unfold mutationFn. rewrite H. split; [reflexivity|].
  pose proof silent_stages as Hs. unfold silent in Hs. rewrite H in Hs. exact Hs.
Qed.

(** When the stages end, whatever they met, [mutationFn] sends one request:
    the opportunity, the amount entered, and RAY or SOL by the pair alone. *)
Lemma mutationFn_recorded t s :
  stages cl m = (t, Ok tt) ->
  posts (fst (snd (mutationFn env sessionID cl m s))) = [record_body m] /\
  fst (mutationFn env sessionID cl m s) = fst (Routes.invest env sessionID (record_body m) s).
Proof.
  intros H. unfold mutationFn. rewrite H.
  destruct (Routes.invest env sessionID (record_body m) s) as [s' response]. simpl.
  rewrite posts_app.
  pose proof silent_stages as Hs. unfold silent in Hs. rewrite H in Hs. simpl in Hs.
  rewrite Hs. split; reflexivity.
Qed.

(** A swap that throws: the only toast is the first, and the error thrown
    on is the fixed one. *)
Lemma stages_swap_throws e :
  isSolRayPair (opportunity m) = true ->
  SolanaSwap.swapSolToRay (api cl) (connection cl) (amountValue m) = Throw e ->
  stages cl m =
    (if walletReady m
     then [Toast "Processing investment" "Converting SOL to RAY..." false false]
     else [],
     Throw (JsError "Failed to convert SOL to RAY. Please try again.")).
Proof.
  intros Hpair Hswap. unfold stages, swap_and_stake. rewrite Hpair.
  destruct (walletReady m); simpl; [|reflexivity].
  unfold ui_catch, ui_bind, await, toast. rewrite Hswap. reflexivity.
Qed.

(** A swap that succeeds without auto-stake. *)
Lemma stages_swap_only txid :
  isSolRayPair (opportunity m) = true ->
  walletReady m = true ->
  autoStake m = false ->
  SolanaSwap.swapSolToRay (api cl) (connection cl) (amountValue m) = Ok txid ->
  stages cl m =
    ([Toast "Processing investment" "Converting SOL to RAY..." false false;
      Toast "Conversion successful" "SOL has been converted to RAY" false false], Ok tt).
Proof.
  intros Hpair Hready Hauto Hswap. unfold stages, swap_and_stake.
  rewrite Hpair, Hready, Hauto. simpl.
  unfold ui_catch, ui_bind, await, toast. rewrite Hswap. reflexivity.
Qed.

(** After a swap that succeeded, the stages never throw: what goes wrong in
    the liquidity and stake steps ends in a toast. *)
Lemma stages_after_swap txid :
  isSolRayPair (opportunity m) = true ->
  walletReady m = true ->
  SolanaSwap.swapSolToRay (api cl) (connection cl) (amountValue m) = Ok txid ->
  exists t, stages cl m = (t, Ok tt).
Proof.
  intros Hpair Hready Hswap. unfold stages, swap_and_stake.
  rewrite Hpair, Hready. simpl.
  unfold ui_catch, ui_bind, await, toast. rewrite Hswap.
  destruct (autoStake m); [|simpl; eauto].
  destruct (liquidity_and_stake cl m) as [t [[]|e]]; simpl; [eauto|].
  unfold on_stakeError, toast. destruct (isLiquidityError _); simpl; eauto.
Qed.

End Workflow.

(** ** The record request on the server *)

(** The request the modal sends names no user and no deposit date, which
    the schema of the route requires: the route answers 401 or 400 and
    leaves the server as it was. *)
Lemma invest_refuses_modal_request env sessionID opportunityId amount token s :
  exists r,
    Routes.invest env sessionID (InvestmentModal.invest_body opportunityId amount token) s
      = (s, r) /\
    (Routes.status r = 401 \/ Routes.status r = 400).
Proof.
  unfold Routes.invest, Routes.handle, sx_bind, Routes.walletStatus, sx_of_res.
  destruct (negb _ || negb _); simpl; eauto.
Qed.

(** A request that names the user and the deposit date is stored: one row
    in each table, in the token and of the amount of the request. *)
Example invest_complete_request :
  let body := Routes.mkInvestBody (JNum (1 # 1)) (JNum (1 # 1)) (JNum (5 # 2))
                (JDate 1750000000) (JStr "RAY") JUndefined in
  let run := Routes.invest sample_env "s1" body sample_server in
  Routes.status (snd run) = 200 /\
  Db.portfolios (Routes.db (fst run))
    = [Db.mkUserPortfolio 1 1 1 (5 # 2) 1750000000 "RAY" true] /\
  Db.transactions (Routes.db (fst run))
    = [Db.mkTransaction 1 1 1 "invest" (5 # 2) "RAY" 1750000001 "completed" (Some "ab12")].
Proof. vm_compute. auto. Qed.

(** ** The steps after the swap *)

Lemma prefix_app_l (n a b : string) :
  String.prefix n a = true -> String.prefix n (a ++ b) = true.
Proof.
  revert a. induction n as [|c n IH]; intros a H; [destruct (a ++ b); reflexivity|].
  destruct a as [|c' a]; simpl in *; [discriminate|].
  destruct (Ascii.ascii_dec c c'); [apply IH; exact H|discriminate].
Qed.

Lemma includes_app_l (n a b : string) :
  includes n a = true -> includes n (a ++ b) = true.
Proof.
  induction a as [|c a IH]; simpl.
  - destruct n; simpl; [destruct b; reflexivity|discriminate].
  - intros H. apply orb_true_iff in H. apply orb_true_iff. destruct H as [H|H].
    + left. exact (prefix_app_l n (String c a) b H).
    + right. apply IH. exact H.
Qed.

Lemma Qle_bool_false_of_lt (a b : Q) : (a < b)%Q -> Qle_bool b a = false.
Proof.
  intros H. destruct (Qle_bool b a) eqn:E; [|reflexivity].
  apply Qle_bool_iff in E. apply Qlt_not_le in H. contradiction.
Qed.

(** A result of the check with less USDC than required says so. *)
Lemma checkUsdc_short c rayAmount r :
  RayStaking.checkUsdcBalanceForLiquidity c rayAmount = Ok r ->
  (RayStaking.usdcBalance r < RayStaking.requiredUsdc r)%Q ->
  RayStaking.hasEnoughUsdc r = false.
Proof.
  intros Hcheck Hlt. destruct (RayStaking.hasEnoughUsdc r) eqn:E; [|reflexivity].
  destruct (checkUsdc_enough c rayAmount r Hcheck E) as [_ Hle].
  apply Qlt_not_le in Hlt. contradiction.
Qed.

Section AfterSwap.
Import InvestmentModal.

Variables (cl : Client) (m : Modal) (txid : option string) (ray : RayStaking.Balance)
          (r : RayStaking.UsdcCheck).

Hypothesis pair : isSolRayPair (opportunity m) = true.
Hypothesis ready : walletReady m = true.
Hypothesis auto_stake : autoStake m = true.
Hypothesis swapped :
  SolanaSwap.swapSolToRay (api cl) (connection cl) (amountValue m) = Ok txid.
Hypothesis ray_balance : RayStaking.getRayBalance (connection cl) = Ok ray.
Hypothesis ray_found : RayStaking.found ray = true.
Hypothesis ray_positive : (0 < RayStaking.balance ray)%Q.

Hypothesis usdc_checked :
  RayStaking.checkUsdcBalanceForLiquidity (connection cl) (actualRayAmount ray m) = Ok r.

(** Too little USDC: two toasts, no liquidity call, and the stages end. *)
Lemma stages_usdc_short :
  RayStaking.hasEnoughUsdc r = false ->
  stages cl m =
    ([Toast "Processing investment" "Converting SOL to RAY..." false false;
      Toast "Conversion successful" "SOL has been converted to RAY" false false;
      Toast "Insufficient USDC balance"
        ("You need " ++ toFixed2 (RayStaking.requiredUsdc r) ++ " USDC but only have "
           ++ toFixed2 (RayStaking.usdcBalance r) ++ " USDC") true false;
      Toast "Adding liquidity failed"
        "Would you like to continue holding RAY tokens instead?" true true], Ok tt).
Proof.
  intros Hshort. unfold stages, swap_and_stake, liquidity_and_stake.
  rewrite pair, ready, auto_stake. simpl.
  unfold ui_catch, ui_bind, await, toast, ui_ret.
  rewrite swapped, ray_balance, ray_found, (Qle_bool_false_of_lt _ _ ray_positive). simpl.
  fold (actualRayAmount ray m). rewrite usdc_checked, Hshort. simpl.
  unfold on_stakeError, errorMessage_of, isLiquidityError. simpl exn_message. simpl instanceofError.
  cbv iota. simpl default.
  assert (Hinc : includes "USDC"
            ("Insufficient USDC balance. Required: " ++ toFixed2 (RayStaking.requiredUsdc r)
               ++ " USDC") = true).
  { apply (includes_app_l "USDC" "Insufficient USDC balance. Required: "). reflexivity. }
  rewrite Hinc. rewrite orb_true_r. reflexivity.
Qed.

(** Liquidity added and a stake that throws: a toast, and the stages end. *)
Lemma stages_stake_throws liquidityTxId e :
  RayStaking.hasEnoughUsdc r = true ->
  RayStaking.addRayUsdcLiquidity (connection cl) (actualRayAmount ray m) = Ok liquidityTxId ->
  RayStaking.stakeRayToFarm (connection cl) = Throw e ->
  stages cl m =
    ([Toast "Processing investment" "Converting SOL to RAY..." false false;
      Toast "Conversion successful" "SOL has been converted to RAY" false false;
      Toast "Adding liquidity" "Creating LP tokens for RAY-USDC pair..." false false;
      Toast "Liquidity added" "Successfully created LP tokens for RAY-USDC pair" false false;
      Toast "Staking LP tokens" "Automatically staking your LP tokens..." false false]
     ++ fst (on_stakeError e), Ok tt)%list.
Proof.
  intros Henough Hliq Hstake. unfold stages, swap_and_stake, liquidity_and_stake.
  rewrite pair, ready, auto_stake. simpl.
  unfold ui_catch, ui_bind, await, toast, ui_ret.
  rewrite swapped, ray_balance, ray_found, (Qle_bool_false_of_lt _ _ ray_positive). simpl.
  fold (actualRayAmount ray m). rewrite usdc_checked, Henough. simpl.
  rewrite Hliq, Hstake.
  unfold on_stakeError, toast. destruct (isLiquidityError _); reflexivity.
Qed.

End AfterSwap.

(** ** What the workflow records *)

(** As the route refuses the request of the record step, no run of the
    workflow changes the server. *)
Lemma mutationFn_leaves_server env sessionID cl m s :
  fst (InvestmentModal.mutationFn env sessionID cl m s) = s.
Proof.
  unfold InvestmentModal.mutationFn, InvestmentModal.record_body.
  destruct (InvestmentModal.stages cl m) as [t [[]|e]]; [|reflexivity].
  destruct (invest_refuses_modal_request env sessionID
              (Db.o_id (InvestmentModal.opportunity m)) (InvestmentModal.amountValue m)
              (if InvestmentModal.isSolRayPair (InvestmentModal.opportunity m)
               then "RAY" else InvestmentModal.currency) s) as [r [-> _]].
  reflexivity.
Qed.

Lemma mutationFn_recorded_as env sessionID cl m s t :
  InvestmentModal.isSolRayPair (InvestmentModal.opportunity m) = true ->
  InvestmentModal.stages cl m = (t, Ok tt) ->
  recorded_as "RAY" (InvestmentModal.amountValue m) s
    (InvestmentModal.mutationFn env sessionID cl m s) /\
  fst (snd (InvestmentModal.mutationFn env sessionID cl m s))
    = (t ++ [InvestmentModal.Post (InvestmentModal.record_body m)])%list.
Proof.
  intros Hpair Hstages.
  destruct (mutationFn_recorded env sessionID cl m t s Hstages) as [Hposts _].
  assert (Htoken : Routes.ib_token (InvestmentModal.record_body m) = JStr "RAY").
  { unfold InvestmentModal.record_body. rewrite Hpair. reflexivity. }
  assert (Hamount : Routes.ib_amount (InvestmentModal.record_body m)
                    = JNum (InvestmentModal.amountValue m)) by reflexivity.
  split; [unfold recorded_as, records_token, records_amount; repeat split|].
  - eauto.
  - eauto.
  - rewrite mutationFn_leaves_server. auto.
  - rewrite mutationFn_leaves_server. auto.
  - unfold InvestmentModal.mutationFn. rewrite Hstages.
    destruct (Routes.invest _ _ _ _). reflexivity.
Qed.

(** The "Keep RAY" button asks for one more record, in RAY and of the
    amount entered. *)
Lemma keepRay_onClick_records_RAY env sessionID cl m s :
  records_token "RAY" (fst (snd (InvestmentModal.keepRay_onClick env sessionID cl m s))) /\
  records_amount (InvestmentModal.amountValue m)
    (fst (snd (InvestmentModal.keepRay_onClick env sessionID cl m s))).
Proof.
  unfold InvestmentModal.keepRay_onClick, records_token, records_amount.
  destruct (Routes.invest _ _ _ _). simpl. split; eexists; split; reflexivity.
Qed.

(** C2, as amended: for every successful swap with no later stage, the
    position the workflow asks [POST /api/portfolio/invest] to record has
    the amount the user entered (the SOL put in), in the token RAY, whatever
    the swap was quoted at; and what the route adds to the portfolio and
    transaction tables has that amount. *)
Theorem C2_recorded_amount_is_the_amount_entered env sessionID cl m s txid :
  InvestmentModal.isSolRayPair (InvestmentModal.opportunity m) = true ->
  InvestmentModal.walletReady m = true ->
  InvestmentModal.autoStake m = false ->
  SolanaSwap.swapSolToRay (InvestmentModal.api cl) (InvestmentModal.connection cl)
    (InvestmentModal.amountValue m) = Ok txid ->
  recorded_as "RAY" (InvestmentModal.amountValue m) s
    (InvestmentModal.mutationFn env sessionID cl m s).
Proof.
  intros Hpair Hready Hauto Hswap.
  pose proof (stages_swap_only cl m txid Hpair Hready Hauto Hswap) as Hstages.
  exact (proj1 (mutationFn_recorded_as env sessionID cl m s _ Hpair Hstages)).
Qed.

Lemma C2_recorded_amount_is_the_amount_entered_witness :
  recorded_as "RAY" (1 # 1) sample_server (sample_run false sample_api 200000000 None).
Proof.
  apply (C2_recorded_amount_is_the_amount_entered sample_env "s1"
           (sample_client sample_api (sample_connection 200000000 1000 None))
           (sample_modal false) sample_server (Some "sig-swap"));
    reflexivity.
Defined.

(** C2, as stated, fails: one SOL swapped at a quote of fifty RAY with half
    a percent of tolerance is recorded as the amount 1, which no slippage
    within the tolerance takes from 50. *)
Lemma C2_counterexample :
  SolanaSwap.swapSolToRay sample_api (sample_connection 200000000 1000 None) (1 # 1)
    = Ok (Some "sig-swap") /\
  exists quoted,
    SolanaSwap.getEstimatedRayOutput sample_api (1 # 1) = Ok quoted /\
    (quoted == 50 # 1)%Q /\
    records_amount (1 # 1) (fst (snd (sample_run false sample_api 200000000 None))) /\
    ~ (exists recorded,
         records_amount recorded (fst (snd (sample_run false sample_api 200000000 None))) /\
         quoted_less_slippage quoted 50 recorded).
Proof.
  split; [reflexivity|].
  exists (50000000000 # 1000000000)%Q.
  split; [reflexivity|]. split; [reflexivity|]. split.
  - unfold records_amount. eexists. split; reflexivity.
  - intros [recorded [[body [Hposts Hamount]] [slip [H0 [Hmax Heq]]]]].
    assert (Hbody : body = InvestmentModal.invest_body 1 (1 # 1) "RAY").
    { vm_compute in Hposts. injection Hposts as <-. reflexivity. }
    subst body. simpl in Hamount. injection Hamount as <-.
    unfold Qeq, Qle in *. simpl in *. lia.
Qed.

(** C3, as amended: if the stake stage throws after liquidity was added,
    the workflow shows a toast ("Staking failed" with the message of the
    error, or "Adding liquidity failed" when that message names liquidity,
    USDC, amounts or the RAY token), still reaches the record step, and the
    position it asks to record is in the token RAY, for the amount entered,
    as for every run on the SOL/RAY pair; the liquidity-pool share token is
    not what is recorded. *)
Theorem C3_stake_failure_records_RAY env sessionID cl m s txid ray r liquidityTxId e :
  InvestmentModal.isSolRayPair (InvestmentModal.opportunity m) = true ->
  InvestmentModal.walletReady m = true ->
  InvestmentModal.autoStake m = true ->
  SolanaSwap.swapSolToRay (InvestmentModal.api cl) (InvestmentModal.connection cl)
    (InvestmentModal.amountValue m) = Ok txid ->
  RayStaking.getRayBalance (InvestmentModal.connection cl) = Ok ray ->
  RayStaking.found ray = true ->
  (0 < RayStaking.balance ray)%Q ->
  RayStaking.checkUsdcBalanceForLiquidity (InvestmentModal.connection cl)
    (InvestmentModal.actualRayAmount ray m) = Ok r ->
  RayStaking.hasEnoughUsdc r = true ->
  RayStaking.addRayUsdcLiquidity (InvestmentModal.connection cl)
    (InvestmentModal.actualRayAmount ray m) = Ok liquidityTxId ->
  RayStaking.stakeRayToFarm (InvestmentModal.connection cl) = Throw e ->
  recorded_as "RAY" (InvestmentModal.amountValue m) s
    (InvestmentModal.mutationFn env sessionID cl m s) /\
  shown "Liquidity added" (fst (snd (InvestmentModal.mutationFn env sessionID cl m s))) = true /\
  shown "Staking successful" (fst (snd (InvestmentModal.mutationFn env sessionID cl m s)))
    = false /\
  if InvestmentModal.isLiquidityError (InvestmentModal.errorMessage_of e)
  then In (InvestmentModal.Toast "Adding liquidity failed"
             "Would you like to continue holding RAY tokens instead?" true true)
          (fst (snd (InvestmentModal.mutationFn env sessionID cl m s)))
  else In (InvestmentModal.Toast "Staking failed" (InvestmentModal.errorMessage_of e)
             true false)
          (fst (snd (InvestmentModal.mutationFn env sessionID cl m s))).
Proof.
  intros Hpair Hready Hauto Hswap Hray Hfound Hpos Hcheck Henough Hliq Hstake.
  pose proof (stages_stake_throws cl m txid ray r Hpair Hready Hauto Hswap Hray Hfound Hpos
                Hcheck liquidityTxId e Henough Hliq Hstake) as Hstages.
  destruct (mutationFn_recorded_as env sessionID cl m s _ Hpair Hstages) as [Hrec Htrace].
  split; [exact Hrec|]. rewrite Htrace.
  unfold InvestmentModal.on_stakeError, InvestmentModal.toast.
  destruct (InvestmentModal.isLiquidityError _); cbn [fst]; repeat split;
    apply in_or_app; left; apply in_or_app; right; left; reflexivity.
Qed.

Lemma C3_stake_failure_records_RAY_witness :
  recorded_as "RAY" (1 # 1) sample_server
    (sample_run true sample_api 200000000 (Some instruction_error)) /\
  shown "Liquidity added"
    (fst (snd (sample_run true sample_api 200000000 (Some instruction_error)))) = true /\
  shown "Staking successful"
    (fst (snd (sample_run true sample_api 200000000 (Some instruction_error)))) = false /\
  In (InvestmentModal.Toast "Staking failed" ("Transaction failed: " ++ instruction_error)
        true false)
     (fst (snd (sample_run true sample_api 200000000 (Some instruction_error)))).
Proof.
  eapply (C3_stake_failure_records_RAY sample_env "s1"
            (sample_client sample_api
               (sample_connection 200000000 1000 (Some instruction_error)))
            (sample_modal true) sample_server (Some "sig-swap") _ _
            "sig-add-liquidity"
            (JsError ("Transaction failed: " ++ instruction_error)));
    reflexivity.
Defined.

(** C3, as stated, fails: liquidity is added, the farm deposit is not
    confirmed, and the token of the record is RAY, not the mint of the
    pool's share token. *)
Lemma C3_counterexample :
  RayStaking.addRayUsdcLiquidity
    (sample_connection 200000000 1000 (Some instruction_error)) (50 # 1)
    = Ok "sig-add-liquidity" /\
  RayStaking.stakeRayToFarm (sample_connection 200000000 1000 (Some instruction_error))
    = Throw (JsError ("Transaction failed: " ++ instruction_error)) /\
  records_token "RAY"
    (fst (snd (sample_run true sample_api 200000000 (Some instruction_error)))) /\
  ~ records_token (Chain.address (Chain.lpMint sample_farm))
      (fst (snd (sample_run true sample_api 200000000 (Some instruction_error)))).
Proof.
  split; [reflexivity|]. split; [reflexivity|]. split.
  - unfold records_token. eexists. split; reflexivity.
  - intros [body [Hposts Htoken]].
    vm_compute in Hposts. injection Hposts as <-. discriminate Htoken.
Qed.

(** A check that found less USDC than it requires computed the requirement
    from the pool. *)
Lemma checkUsdc_required c rayAmount r :
  RayStaking.checkUsdcBalanceForLiquidity c rayAmount = Ok r ->
  (RayStaking.usdcBalance r < RayStaking.requiredUsdc r)%Q ->
  required_at_pool_ratio c rayAmount r.
Proof.
  unfold RayStaking.checkUsdcBalanceForLiquidity, try_catch.
  destruct (RayStaking.checkUsdcBalanceForLiquidity_try c rayAmount) as [r'|e] eqn:Htry.
  - intros [= <-] _. revert Htry.
    unfold RayStaking.checkUsdcBalanceForLiquidity_try, res_bind, required_at_pool_ratio.
    destruct (Chain.initSdk c) as [raydium|] eqn:Hsdk; [|discriminate].
    destruct (Chain.fetchPoolById raydium RayStaking.poolId) as [[|poolInfo rest]|] eqn:Hpool;
      simpl; try discriminate.
    destruct (Chain.computePairAmount raydium poolInfo rayAmount true (1 # 100))
      as [pairAmount|] eqn:Hpair; [|discriminate].
    intros Htry. exists raydium, poolInfo, rest, pairAmount.
    split; [reflexivity|]. split; [exact Hpool|]. split; [exact Hpair|].
    destruct (RayStaking.find_account _ raydium); [injection Htry as <-; reflexivity|].
    destruct (Chain.getTokenAccountsByOwner c _); [|discriminate].
    destruct (RayStaking.sum_parsed c _ _); [injection Htry as <-; reflexivity|discriminate].
  - intros [= <-] Hlt. simpl in Hlt. exfalso. revert Hlt. apply Qlt_irrefl.
Qed.

(** C4, on the code: if the liquidity stage is skipped because the USDC
    balance is below the amount required (computed at the pool's ratio with
    the slippage tolerance), the workflow says so, adds no liquidity, and
    asks the server, once, to record the position in RAY, the token of
    stage 1, for the amount entered.  The route refuses that request, with
    400 for a session with a connected wallet and a user and with 401 for
    any other: the body names no user and no deposit date, which the schema
    of the route requires.  So the server is as it was, and no position is
    recorded. *)
Theorem C4_usdc_short_nothing_recorded env sessionID cl m s txid ray r :
  InvestmentModal.isSolRayPair (InvestmentModal.opportunity m) = true ->
  InvestmentModal.walletReady m = true ->
  InvestmentModal.autoStake m = true ->
  SolanaSwap.swapSolToRay (InvestmentModal.api cl) (InvestmentModal.connection cl)
    (InvestmentModal.amountValue m) = Ok txid ->
  RayStaking.getRayBalance (InvestmentModal.connection cl) = Ok ray ->
  RayStaking.found ray = true ->
  (0 < RayStaking.balance ray)%Q ->
  RayStaking.checkUsdcBalanceForLiquidity (InvestmentModal.connection cl)
    (InvestmentModal.actualRayAmount ray m) = Ok r ->
  (RayStaking.usdcBalance r < RayStaking.requiredUsdc r)%Q ->
  required_at_pool_ratio (InvestmentModal.connection cl)
    (InvestmentModal.actualRayAmount ray m) r /\
  shown "Insufficient USDC balance"
    (fst (snd (InvestmentModal.mutationFn env sessionID cl m s))) = true /\
  shown "Adding liquidity"
    (fst (snd (InvestmentModal.mutationFn env sessionID cl m s))) = false /\
  records_token "RAY" (fst (snd (InvestmentModal.mutationFn env sessionID cl m s))) /\
  records_amount (InvestmentModal.amountValue m)
    (fst (snd (InvestmentModal.mutationFn env sessionID cl m s))) /\
  (exists response,
     Routes.invest env sessionID (InvestmentModal.record_body m) s = (s, response) /\
     Routes.status response =
       (let ws := SolanaService.getWalletStatus (Routes.getBalance env)
                    (Routes.connectedWallets s) sessionID in
        if SolanaService.connected ws && truthy_id (SolanaService.ws_userId ws)
        then 400 else 401) /\
     snd (snd (InvestmentModal.mutationFn env sessionID cl m s))
       = InvestmentModal.settle cl response) /\
  fst (InvestmentModal.mutationFn env sessionID cl m s) = s /\
  recorded_rows (Routes.db (fst (InvestmentModal.mutationFn env sessionID cl m s)))
    = recorded_rows (Routes.db s).
Proof.
  intros Hpair Hready Hauto Hswap Hray Hfound Hpos Hcheck Hshort.
  split; [exact (checkUsdc_required _ _ _ Hcheck Hshort)|].
  pose proof (checkUsdc_short _ _ _ Hcheck Hshort) as Hnot.
  pose proof (stages_usdc_short cl m txid ray r Hpair Hready Hauto Hswap Hray Hfound Hpos
                Hcheck Hnot) as Hstages.
  destruct (mutationFn_recorded_as env sessionID cl m s _ Hpair Hstages)
    as [(Htoken & Hamount & _) Htrace].
  rewrite mutationFn_leaves_server.
  split; [rewrite Htrace; reflexivity|]. split; [rewrite Htrace; reflexivity|].
  split; [exact Htoken|]. split; [exact Hamount|]. split; [|split; reflexivity].
  unfold InvestmentModal.mutationFn. rewrite Hstages.
  unfold InvestmentModal.record_body, InvestmentModal.invest_body.
  unfold Routes.invest, Routes.handle, sx_bind, Routes.walletStatus, sx_of_res, sx_ret.
  cbv zeta.
  destruct (SolanaService.connected _ && truthy_id _) eqn:Hws.
  - apply andb_true_iff in Hws as [-> ->]. cbn. eexists. repeat split.
  - apply andb_false_iff in Hws. eexists.
    assert (Hor : negb (SolanaService.connected
                          (SolanaService.getWalletStatus (Routes.getBalance env)
                             (Routes.connectedWallets s) sessionID))
                  || negb (truthy_id (SolanaService.ws_userId
                          (SolanaService.getWalletStatus (Routes.getBalance env)
                             (Routes.connectedWallets s) sessionID))) = true).
    { destruct Hws as [-> | ->]; [reflexivity|apply orb_true_r]. }
    rewrite Hor. cbn. repeat split.
Qed.

Lemma C4_usdc_short_nothing_recorded_witness :
  exists ray r,
    RayStaking.getRayBalance (sample_connection 5000000 1000 None) = Ok ray /\
    RayStaking.checkUsdcBalanceForLiquidity (sample_connection 5000000 1000 None)
      (InvestmentModal.actualRayAmount ray (sample_modal true)) = Ok r /\
    (RayStaking.usdcBalance r < RayStaking.requiredUsdc r)%Q /\
    required_at_pool_ratio (sample_connection 5000000 1000 None)
      (InvestmentModal.actualRayAmount ray (sample_modal true)) r /\
    shown "Insufficient USDC balance"
      (fst (snd (sample_run true sample_api 5000000 None))) = true /\
    shown "Adding liquidity" (fst (snd (sample_run true sample_api 5000000 None))) = false /\
    records_token "RAY" (fst (snd (sample_run true sample_api 5000000 None))) /\
    records_amount (1 # 1) (fst (snd (sample_run true sample_api 5000000 None))) /\
    (exists response,
       Routes.invest sample_env "s1" (InvestmentModal.record_body (sample_modal true))
         sample_server = (sample_server, response) /\
       Routes.status response = 400 /\
       snd (snd (sample_run true sample_api 5000000 None)) = throw_if_not_ok response) /\
    fst (sample_run true sample_api 5000000 None) = sample_server /\
    recorded_rows (Routes.db (fst (sample_run true sample_api 5000000 None)))
      = recorded_rows sample_db.
Proof.
  eexists _, _. split; [reflexivity|]. split; [reflexivity|]. split; [reflexivity|].
  eapply (C4_usdc_short_nothing_recorded sample_env "s1"
            (sample_client sample_api (sample_connection 5000000 1000 None))
            (sample_modal true) sample_server (Some "sig-swap") _ _);
    reflexivity.
Defined.

(** C5: if the swap of stage 1 throws, the workflow persists nothing (the
    server, and with it the portfolio and transaction tables, is as it was,
    and no request was sent), and invoking it again with the same inputs,
    any number of times, leaves the store unchanged. *)
Theorem C5_swap_failure_persists_nothing env sessionID cl m s e (n : nat) :
  InvestmentModal.isSolRayPair (InvestmentModal.opportunity m) = true ->
  SolanaSwap.swapSolToRay (InvestmentModal.api cl) (InvestmentModal.connection cl)
    (InvestmentModal.amountValue m) = Throw e ->
  fst (InvestmentModal.mutationFn env sessionID cl m s) = s /\
  InvestmentModal.posts (fst (snd (InvestmentModal.mutationFn env sessionID cl m s))) = [] /\
  recorded_rows (Routes.db (fst (InvestmentModal.mutationFn env sessionID cl m s)))
    = recorded_rows (Routes.db s) /\
  Nat.iter n (fun s' => fst (InvestmentModal.mutationFn env sessionID cl m s')) s = s.
Proof.
  intros Hpair Hswap.
  pose proof (stages_swap_throws cl m e Hpair Hswap) as Hstages.
  assert (Hrun : forall s', fst (InvestmentModal.mutationFn env sessionID cl m s') = s').
  { intros s'. destruct (mutationFn_aborted env sessionID cl m _ _ s' Hstages) as [-> _].
    reflexivity. }
  destruct (mutationFn_aborted env sessionID cl m _ _ s Hstages) as [Heq Hposts].
  rewrite Heq. simpl. repeat split; [exact Hposts|].
  induction n as [|n IH]; simpl; [reflexivity|]. rewrite IH. apply Hrun.
Qed.

Lemma C5_swap_failure_persists_nothing_witness :
  fst (sample_run true unreachable_api 200000000 None) = sample_server /\
  InvestmentModal.posts (fst (snd (sample_run true unreachable_api 200000000 None))) = [] /\
  recorded_rows (Routes.db (fst (sample_run true unreachable_api 200000000 None)))
    = recorded_rows (Routes.db sample_server) /\
  Nat.iter 3
    (fun s' => fst (InvestmentModal.mutationFn sample_env "s1"
                      (sample_client unreachable_api (sample_connection 200000000 1000 None))
                      (sample_modal true) s')) sample_server = sample_server.
Proof.
  apply (C5_swap_failure_persists_nothing sample_env "s1"
           (sample_client unreachable_api (sample_connection 200000000 1000 None))
           (sample_modal true) sample_server (JsError "Network Error") 3);
    reflexivity.
Defined.

(** The loop throws [e] exactly when one of its steps throws [e]. *)
Lemma send_all_throws c txs lastTxId e :
  SolanaSwap.send_all c txs lastTxId = Throw e <-> send_throws c txs e.
Proof.
  revert lastTxId. induction txs as [|tx rest IH]; intros lastTxId; simpl.
  - split; [discriminate | intros H; inversion H].
  - unfold res_bind.
    destruct (Chain.signTransaction c tx) as [signedTx|e1] eqn:Hsign.
    2:{ split; [intros [= ->]; apply sign_throws; exact Hsign|].
        intros H; inversion H; subst; congruence. }
    destruct (Chain.sendRawTransaction c signedTx) as [txId|e1] eqn:Hsend.
    2:{ split; [intros [= ->]; eapply send_raw_throws; eauto|].
        intros H; inversion H; subst; congruence. }
    destruct (Chain.getLatestBlockhash c) as [blockhash|e1] eqn:Hhash.
    2:{ split; [intros [= ->]; eapply blockhash_throws; eauto|].
        intros H; inversion H; subst; congruence. }
    destruct (Chain.confirmTransaction c txId) as [err|e1] eqn:Hconfirm.
    2:{ split; [intros [= ->]; eapply confirm_throws; eauto|].
        intros H; inversion H; subst; congruence. }
    rewrite IH. split; [intros H; eapply later_throws; eauto|].
    intros H; inversion H; subst; congruence.
Qed.

(** [swapSolToRay] throws [e] exactly when one of its steps throws [e]: the
    error of the step is the error of the swap. *)
Lemma swapSolToRay_throws api c amountSol e :
  SolanaSwap.swapSolToRay api c amountSol = Throw e <-> swap_step_throws api c amountSol e.
Proof.
  unfold SolanaSwap.swapSolToRay, try_catch.
  assert (Htry : SolanaSwap.swapSolToRay_try api c amountSol = Throw e <->
                 swap_step_throws api c amountSol e).
  { unfold SolanaSwap.swapSolToRay_try, res_bind.
    destruct (SolanaSwap.priorityFee api) as [fee|e1] eqn:Hfee.
    2:{ split; [intros [= ->]; apply fee_throws; exact Hfee|].
        intros H; inversion H; subst; congruence. }
    destruct (SolanaSwap.computeSwap api (SolanaSwap.lamports amountSol) 50)
      as [swapResponse|e1] eqn:Hcompute.
    2:{ split; [intros [= ->]; eapply compute_throws; eauto|].
        intros H; inversion H; subst; congruence. }
    destruct (SolanaSwap.swapTransactions api fee swapResponse) as [txs|e1] eqn:Hbuild.
    2:{ split; [intros [= ->]; eapply build_throws; eauto|].
        intros H; inversion H; subst; congruence. }
    rewrite send_all_throws. split; [intros H; eapply loop_throws; eauto|].
    intros H; inversion H; subst; congruence. }
  destruct (SolanaSwap.swapSolToRay_try api c amountSol) as [txid|e1]; [exact Htry|].
  rewrite <- Htry. reflexivity.
Qed.

(** C6, as amended: when a step of the swap throws, [swapSolToRay] throws
    that error on unmodified; the workflow then aborts with no position
    recorded, and what it surfaces to its caller is a new error with the
    fixed message "Failed to convert SOL to RAY. Please try again.". *)
Theorem C6_swap_failure_surfaces_fixed_message env sessionID cl m s e :
  InvestmentModal.isSolRayPair (InvestmentModal.opportunity m) = true ->
  swap_step_throws (InvestmentModal.api cl) (InvestmentModal.connection cl)
    (InvestmentModal.amountValue m) e ->
  SolanaSwap.swapSolToRay (InvestmentModal.api cl) (InvestmentModal.connection cl)
    (InvestmentModal.amountValue m) = Throw e /\
  aborted_with (JsError "Failed to convert SOL to RAY. Please try again.") s
    (InvestmentModal.mutationFn env sessionID cl m s).
Proof.
  intros Hpair Hstep.
  assert (Hswap : SolanaSwap.swapSolToRay (InvestmentModal.api cl)
                    (InvestmentModal.connection cl) (InvestmentModal.amountValue m) = Throw e)
    by (apply swapSolToRay_throws; exact Hstep).
  split; [exact Hswap|].
  pose proof (stages_swap_throws cl m e Hpair Hswap) as Hstages.
  destruct (mutationFn_aborted env sessionID cl m _ _ s Hstages) as [Heq Hposts].
  unfold aborted_with. rewrite Heq. simpl. auto.
Qed.

Lemma C6_swap_failure_surfaces_fixed_message_witness :
  SolanaSwap.swapSolToRay unreachable_api (sample_connection 200000000 1000 None) (1 # 1)
    = Throw (JsError "Network Error") /\
  aborted_with (JsError "Failed to convert SOL to RAY. Please try again.") sample_server
    (sample_run false unreachable_api 200000000 None).
Proof.
  apply (C6_swap_failure_surfaces_fixed_message sample_env "s1"
           (sample_client unreachable_api (sample_connection 200000000 1000 None))
           (sample_modal false) sample_server (JsError "Network Error")).
  - reflexivity.
  - apply fee_throws. reflexivity.
Defined.

(** C6, as stated, fails: the swap throws "Network Error", and the error
    the caller of the workflow gets is another. *)
Lemma C6_counterexample :
  SolanaSwap.swapSolToRay unreachable_api (sample_connection 200000000 1000 None) (1 # 1)
    = Throw (JsError "Network Error") /\
  snd (snd (sample_run false unreachable_api 200000000 None))
    <> Throw (JsError "Network Error").
Proof.
  split; [reflexivity|]. vm_compute. discriminate.
Qed.

(** ** The subscription gate *)

Lemma first_latest_in {A : Type} (key : A -> Z) (l : list A) (x : A) :
  Db.first_latest key l = Some x -> In x l.
Proof.
  revert x. induction l as [|a l IH]; simpl; [discriminate|].
  intros x. destruct (Db.first_latest key l) as [y|].
  - destruct (key a <? key y); intros [= <-]; auto.
  - intros [= <-]. auto.
Qed.

Lemma first_latest_some {A : Type} (key : A -> Z) (l : list A) :
  l <> [] -> exists x, Db.first_latest key l = Some x.
Proof.
  destruct l as [|a l]; [congruence|]. intros _. simpl.
  destruct (Db.first_latest key l) as [y|]; [destruct (key a <? key y)|]; eauto.
Qed.

(** What [getUserSubscription] finds is an active row of the user, and it
    finds one whenever there is one. *)
Lemma findFirst_active_spec db userId :
  (forall sub, Db.solanaSubscription_findFirst_active db userId = Some sub ->
     In sub (Db.subscriptions db) /\ Db.s_userId sub = userId /\ Db.s_isActive sub = true) /\
  (has_active_subscription db userId ->
     exists sub, Db.solanaSubscription_findFirst_active db userId = Some sub).
Proof.
  unfold Db.solanaSubscription_findFirst_active. split.
  - intros sub H. apply first_latest_in in H. apply filter_In in H.
    destruct H as [Hin Hb]. apply andb_true_iff in Hb. destruct Hb as [Hu Ha].
    apply Z.eqb_eq in Hu. auto.
  - intros [row [Hin [Hu Ha]]]. apply first_latest_some.
    intros Hnil.
    assert (Hrow : In row (List.filter (fun s => (Db.s_userId s =? userId) && Db.s_isActive s)
                             (Db.subscriptions db))).
    { apply filter_In. split; [exact Hin|]. rewrite Hu, Z.eqb_refl, Ha. reflexivity. }
    rewrite Hnil in Hrow. exact Hrow.
Qed.

(** [checkUserIsSubscribed] answers, without changing the store, whether the
    user has an active subscription row. *)
Lemma checkUserIsSubscribed_spec db userId :
  exists b, Storage.checkUserIsSubscribed userId db = (db, Ok b) /\
            (b = true <-> has_active_subscription db userId).
Proof.
  unfold Storage.checkUserIsSubscribed, Storage.getUserSubscription, sx_bind, sx_ret.
  destruct (findFirst_active_spec db userId) as [Hsound Hcomplete].
  destruct (Db.solanaSubscription_findFirst_active db userId) as [sub|] eqn:Hfind.
  - destruct (Hsound sub eq_refl) as [Hin [Hu Ha]].
    exists (Db.s_isActive sub). split; [reflexivity|]. rewrite Ha.
    split; [intros _; exists sub; auto | reflexivity].
  - exists false. split; [reflexivity|]. split; [discriminate|].
    intros H. destruct (Hcomplete H) as [sub Hsub]. discriminate.
Qed.

(** The three answers of [POST /api/chat]. *)
Lemma chat_handler_cases env sessionID message s :
  let ws := SolanaService.getWalletStatus (Routes.getBalance env)
              (Routes.connectedWallets s) sessionID in
  match Routes.message_of message with
  | None =>
      Routes.chat_handler env sessionID message s
        = (s, Routes.error_response 400 (Some "Message is required"))
  | Some text =>
      if SolanaService.connected ws
      then
        snd (Routes.chat_handler env sessionID message s)
          = Routes.json (Routes.PChat
              (snd (OpenAIService.processMessage (Routes.chat env)
                      (Storage.getYieldOpportunities (Routes.db s)) sessionID text
                      (Routes.userChats s))))
        /\ Routes.db (fst (Routes.chat_handler env sessionID message s)) = Routes.db s
      else
        Routes.chat_handler env sessionID message s
          = (s, Routes.error_response 401 (Some "Wallet not connected"))
  end.
Proof.
  unfold Routes.chat_handler, Routes.handle, sx_bind, Routes.walletStatus, sx_ret.
  destruct (Routes.message_of message) as [text|]; [|reflexivity].
  cbv beta iota. destruct (SolanaService.connected _); [|reflexivity].
  split; reflexivity.
Qed.

(** [GET /api/wallet/subscription] reports, for the user of a wallet
    address, whether they have an active subscription row, and [false] for
    an address that has no user. *)
Lemma subscription_route_reports address s :
  address <> "" ->
  exists b,
    Routes.subscription (Some address) s
      = (s, Routes.json (Routes.PIsSubscribed b)) /\
    (b = true <->
     exists u, Db.user_findUnique_wallet (Routes.db s) address = Some u /\
               has_active_subscription (Routes.db s) (Db.u_id u)).
Proof.
  intros Haddr. destruct s as [d wallets chats].
  unfold Routes.subscription, Routes.handle. destruct address as [|c rest]; [congruence|].
  unfold sx_bind, Routes.on_db, Storage.getUserByWalletAddress. cbn [Routes.db fst snd].
  destruct (Db.user_findUnique_wallet d (String c rest)) as [u|]; cbn [Routes.db fst snd].
  - destruct (checkUserIsSubscribed_spec d (Db.u_id u)) as [b [Heq Hiff]].
    rewrite Heq. simpl. exists b. split; [reflexivity|]. rewrite Hiff. split.
    + intros H. exists u. auto.
    + intros [u' [[= <-] H]]. exact H.
  - exists false. split; [reflexivity|]. split; [discriminate|].
    intros [u [Hu _]]. discriminate.
Qed.

(** C1, as amended: [POST /api/chat] is rejected when the message is
    missing or not a string (400) and when the session has no connected
    wallet (401); a session with a connected wallet is answered (200)
    whether or not its user has an active subscription row, the response
    being the same for every content of the subscription table.  The
    subscription is checked where the browser decides to ask: the
    [AIRecommendations] queries run, and the auto-invest request is sent,
    only when [connected && isSubscribed]; and [checkUserIsSubscribed] is
    true exactly for a user with an active subscription row. *)
Theorem C1_chat_gate_is_the_wallet env sessionID message subs s :
  snd (Routes.chat_handler env sessionID message (with_subscriptions subs s))
    = snd (Routes.chat_handler env sessionID message s) /\
  (rejected (snd (Routes.chat_handler env sessionID message s)) <->
   Routes.message_of message = None \/
   SolanaService.connected
     (SolanaService.getWalletStatus (Routes.getBalance env) (Routes.connectedWallets s)
        sessionID) = false) /\
  (forall connected isSubscribed amount,
     (AIRecommendations.enabled connected isSubscribed = true <->
      connected = true /\ isSubscribed = true) /\
     (AIRecommendations.handleAutoInvest connected isSubscribed amount
        = AIRecommendations.PostAutoInvest amount <->
      connected = true /\ isSubscribed = true)) /\
  (forall userId,
     snd (Storage.checkUserIsSubscribed userId (Routes.db s)) = Ok true <->
     has_active_subscription (Routes.db s) userId).
Proof.
  repeat split.
  - pose proof (chat_handler_cases env sessionID message s) as H1.
    pose proof (chat_handler_cases env sessionID message (with_subscriptions subs s)) as H2.
    cbv zeta in H1, H2. simpl in H2.
    destruct (Routes.message_of message); [|rewrite H1, H2; reflexivity].
    destruct (SolanaService.connected _).
    + destruct H1 as [-> _], H2 as [-> _]. reflexivity.
    + rewrite H1, H2. reflexivity.
  - unfold rejected. pose proof (chat_handler_cases env sessionID message s) as H.
    cbv zeta in H.
    destruct (Routes.message_of message); [|auto].
    destruct (SolanaService.connected _); [|auto].
    destruct H as [-> _]. simpl. lia.
  - unfold rejected. pose proof (chat_handler_cases env sessionID message s) as H.
    cbv zeta in H.
    destruct (Routes.message_of message);
      [destruct (SolanaService.connected _)|]; intros [Hc|Hc]; try discriminate;
      rewrite H; simpl; lia.
  - destruct connected; destruct isSubscribed; simpl in *; auto; discriminate.
  - destruct connected; destruct isSubscribed; simpl in *; auto; discriminate.
  - intros [-> ->]. reflexivity.
  - destruct connected; destruct isSubscribed; simpl in *; auto; discriminate.
  - destruct connected; destruct isSubscribed; simpl in *; auto; discriminate.
  - intros [-> ->]. reflexivity.
  - destruct (checkUserIsSubscribed_spec (Routes.db s) userId) as [b [Heq Hiff]].
    rewrite Heq. simpl. intros [= ->]. apply Hiff. reflexivity.
  - destruct (checkUserIsSubscribed_spec (Routes.db s) userId) as [b [Heq Hiff]].
    rewrite Heq. simpl. intros H. apply Hiff in H. rewrite H. reflexivity.
Qed.

(** C1, as stated, fails: the user of session ["s1"] has no subscription
    row, [checkUserIsSubscribed] is false for them, and their chat message
    is answered. *)
Lemma C1_counterexample :
  Db.subscriptions (Routes.db sample_server) = [] /\
  SolanaService.ws_userId
    (SolanaService.getWalletStatus (Routes.getBalance answering_env)
       (Routes.connectedWallets sample_server) "s1") = Some 1 /\
  snd (Storage.checkUserIsSubscribed 1 (Routes.db sample_server)) = Ok false /\
  snd (Routes.chat_handler answering_env "s1"
         (JStr "What are the highest yield options right now?") sample_server)
    = Routes.json (Routes.PChat
        (OpenAIService.mkChatResult "The SOL-RAY LP on Raydium pays 12.5% APY."
           OpenAIService.no_intent)) /\
  ~ rejected (snd (Routes.chat_handler answering_env "s1"
                     (JStr "What are the highest yield options right now?") sample_server)).
Proof.
  repeat split; try reflexivity.
  unfold rejected. vm_compute. intros H. apply H. reflexivity.
Qed.

(** ** One user a wallet address *)

Lemma NoDup_map_eq {A B : Type} (f : A -> B) (l : list A) (x y : A) :
  List.NoDup (map f l) -> In x l -> In y l -> f x = f y -> x = y.
Proof.
  induction l as [|a l IH]; simpl; [intros _ []|].
  intros Hnd Hx Hy Hf. apply List.NoDup_cons_iff in Hnd. destruct Hnd as [Hnotin Hnd].
  destruct Hx as [<-|Hx], Hy as [<-|Hy]; auto.
  - exfalso. apply Hnotin. rewrite Hf. apply in_map. exact Hy.
  - exfalso. apply Hnotin. rewrite <- Hf. apply in_map. exact Hx.
Qed.

(** [wallet_unique] says what the claim says: two rows with one wallet
    address are one row. *)
Lemma wallet_unique_at_most_one db u1 u2 :
  wallet_unique db -> In u1 (Db.users db) -> In u2 (Db.users db) ->
  Db.u_walletAddress u1 = Db.u_walletAddress u2 -> u1 = u2.
Proof. intros H. apply NoDup_map_eq. exact H. Qed.

Lemma find_wallet_some db w u :
  Db.user_findUnique_wallet db w = Some u ->
  In u (Db.users db) /\ Db.u_walletAddress u = w.
Proof.
  unfold Db.user_findUnique_wallet. intros H. apply find_some in H.
  destruct H as [Hin Heq]. apply String.eqb_eq in Heq. auto.
Qed.

Lemma find_wallet_none db w :
  Db.user_findUnique_wallet db w = None -> ~ In w (map Db.u_walletAddress (Db.users db)).
Proof.
  unfold Db.user_findUnique_wallet. intros H Hin. apply in_map_iff in Hin.
  destruct Hin as [u [Hw Hu]].
  pose proof (find_none _ _ H u Hu) as Hneq. simpl in Hneq.
  rewrite Hw, String.eqb_refl in Hneq. discriminate.
Qed.

Lemma in_user_keys db i w :
  In (i, w) (user_keys db) <->
  exists u, In u (Db.users db) /\ Db.u_id u = i /\ Db.u_walletAddress u = w.
Proof.
  unfold user_keys. rewrite in_map_iff. split.
  - intros [u [[= <- <-] Hin]]. eauto.
  - intros [u [Hin [<- <-]]]. eauto.
Qed.

(** With one user a wallet, the lookup by wallet finds the user of a key. *)
Lemma find_wallet_key db i w :
  wallet_unique db -> In (i, w) (user_keys db) ->
  exists u, Db.user_findUnique_wallet db w = Some u /\ Db.u_id u = i.
Proof.
  intros Huniq Hkey. apply in_user_keys in Hkey. destruct Hkey as [u0 [Hin [Hid Hw]]].
  destruct (Db.user_findUnique_wallet db w) as [u|] eqn:Hfind.
  - exists u. split; [reflexivity|].
    destruct (find_wallet_some db w u Hfind) as [Hin' Hw'].
    assert (u = u0) as ->; [|exact Hid].
    apply (wallet_unique_at_most_one db); auto. congruence.
  - exfalso. apply (find_wallet_none db w Hfind). rewrite <- Hw. apply in_map. exact Hin.
Qed.

Lemma has_user_key db i w : In (i, w) (user_keys db) -> Db.has_user db i = true.
Proof.
  intros Hkey. apply in_user_keys in Hkey. destruct Hkey as [u [Hin [Hid _]]].
  unfold Db.has_user. apply existsb_exists. exists u. split; [exact Hin|].
  apply Z.eqb_eq. exact Hid.
Qed.

Lemma set_lastLogin_key id now u :
  Db.u_id (Db.set_lastLogin id now u) = Db.u_id u /\
  Db.u_walletAddress (Db.set_lastLogin id now u) = Db.u_walletAddress u.
Proof. unfold Db.set_lastLogin. destruct (Db.u_id u =? id); split; reflexivity. Qed.

(** Stamping the last login changes no key. *)
Lemma user_update_keys db id now db' :
  Db.user_update_lastLogin db id now = Ok db' ->
  user_keys db' = user_keys db /\
  map Db.u_walletAddress (Db.users db') = map Db.u_walletAddress (Db.users db).
Proof.
  unfold Db.user_update_lastLogin. destruct (Db.has_user db id); [|discriminate].
  intros [= <-]. unfold user_keys. simpl. rewrite !map_map. split.
  - apply map_ext. intros u. destruct (set_lastLogin_key id now u) as [-> ->]. reflexivity.
  - apply map_ext. intros u. apply set_lastLogin_key.
Qed.

(** A user is created only for a wallet address that has none, at the end
    of the table. *)
Lemma user_create_keys db now w username email lastLogin db' u :
  Db.user_create db now w username email lastLogin = Ok (db', u) ->
  Db.user_findUnique_wallet db w = None /\
  Db.users db' = (Db.users db ++ [u])%list /\
  Db.u_id u = Db.next_user db /\ Db.u_walletAddress u = w.
Proof.
  unfold Db.user_create. destruct (Db.user_findUnique_wallet db w); [discriminate|].
  intros [= <- <-]. simpl. auto.
Qed.

Lemma user_create_conflict db now w username email lastLogin e :
  Db.user_create db now w username email lastLogin = Throw e ->
  e = Db.P2002 ["wallet_address"] /\ exists u, Db.user_findUnique_wallet db w = Some u.
Proof.
  unfold Db.user_create. destruct (Db.user_findUnique_wallet db w) as [u|]; [|discriminate].
  intros [= <-]. eauto.
Qed.

Lemma wallet_unique_create db now w username email lastLogin db' u :
  wallet_unique db ->
  Db.user_create db now w username email lastLogin = Ok (db', u) ->
  wallet_unique db'.
Proof.
  intros Huniq Hcreate.
  destruct (user_create_keys _ _ _ _ _ _ _ _ Hcreate) as [Hnone [Husers [_ Hw]]].
  unfold wallet_unique in *. rewrite Husers, map_app. simpl.
  apply List.NoDup_app; [exact Huniq | constructor; [intros []|constructor] |].
  intros x Hin [<-|[]]. rewrite Hw in Hin. exact (find_wallet_none db w Hnone Hin).
Qed.

(** What the others write keeps one user a wallet and every key there
    was. *)
Lemma apply_write_keeps db x :
  (wallet_unique db -> wallet_unique (Db.apply_write db x)) /\
  (forall k, In k (user_keys db) -> In k (user_keys (Db.apply_write db x))).
Proof.
  destruct x as [w now|id now]; simpl.
  - destruct (Db.user_create db now w None None (Some now)) as [[db' u]|e] eqn:Hc; [|auto].
    split; [intros H; exact (wallet_unique_create _ _ _ _ _ _ _ _ H Hc)|].
    destruct (user_create_keys _ _ _ _ _ _ _ _ Hc) as [_ [Husers _]].
    intros k Hk. unfold user_keys in *. rewrite Husers, map_app. apply in_or_app. auto.
  - destruct (Db.user_update_lastLogin db id now) as [db'|e] eqn:Hu; [|auto].
    destruct (user_update_keys _ _ _ _ Hu) as [Hkeys Hwallets].
    unfold wallet_unique. rewrite Hkeys, Hwallets. auto.
Qed.

Lemma apply_writes_keeps ws db :
  (wallet_unique db -> wallet_unique (Db.apply_writes ws db)) /\
  (forall k, In k (user_keys db) -> In k (user_keys (Db.apply_writes ws db))).
Proof.
  unfold Db.apply_writes. revert db. induction ws as [|x ws IH]; intros db; simpl; [auto|].
  destruct (apply_write_keeps db x) as [Hu Hk].
  destruct (IH (Db.apply_write db x)) as [Hu' Hk']. auto.
Qed.

Lemma createUserPreferences_users userId data db :
  Db.users (fst (Storage.createUserPreferences userId data db)) = Db.users db.
Proof.
  unfold Storage.createUserPreferences. destruct (parseInt userId); [|reflexivity].
  unfold Storage.prisma, Db.userPreference_create.
  destruct (existsb _ _); [reflexivity|]. destruct (negb _); reflexivity.
Qed.

Lemma truthy_wallet w : w <> "" -> Routes.js_truthy (JStr w) = true.
Proof.
  intros H. simpl. apply negb_true_iff. apply String.eqb_neq. exact H.
Qed.

(** The wallet address is registered at the lookup: the last login is
    stamped and the user's id returned. *)
Lemma register_found env others w s u :
  w <> "" ->
  Db.user_findUnique_wallet (Routes.db s) w = Some u ->
  exists d2,
    Db.user_update_lastLogin (Db.apply_writes (others 0%nat) (Routes.db s)) (Db.u_id u)
      (Routes.now env) = Ok d2 /\
    Routes.register env others (JStr w) s
      = (Routes.mkServer d2 (Routes.connectedWallets s) (Routes.userChats s),
         Routes.json (Routes.PRegistered (Db.u_id u))).
Proof.
  intros Hw Hfind. destruct s as [d wallets chats]. simpl in *.
  assert (Hhas : Db.has_user (Db.apply_writes (others 0%nat) d) (Db.u_id u) = true).
  { apply (has_user_key _ _ w). apply apply_writes_keeps. apply in_user_keys.
    destruct (find_wallet_some d w u Hfind) as [Hin Hwu]. eauto. }
  unfold Db.user_update_lastLogin. rewrite Hhas. eexists. split; [reflexivity|].
  unfold Routes.register, Routes.handle. rewrite (truthy_wallet w Hw). simpl.
  unfold sx_bind, Routes.on_db, Storage.getUserByWalletAddress, Routes.interfere. simpl.
  rewrite Hfind. simpl. unfold Db.user_update_lastLogin. rewrite Hhas. reflexivity.
Qed.

(** The wallet address is registered by another request after the lookup:
    the insert fails on the unique constraint, the user is fetched again,
    and nothing is written. *)
Lemma register_conflict env others w s u :
  w <> "" ->
  wallet_unique (Routes.db s) ->
  Db.user_findUnique_wallet (Routes.db s) w = None ->
  Db.user_findUnique_wallet (Db.apply_writes (others 0%nat) (Routes.db s)) w = Some u ->
  Routes.register env others (JStr w) s
    = (Routes.mkServer
         (Db.apply_writes (others 1%nat) (Db.apply_writes (others 0%nat) (Routes.db s)))
         (Routes.connectedWallets s) (Routes.userChats s),
       Routes.json (Routes.PRegistered (Db.u_id u))).
Proof.
  intros Hw Huniq Hnone Hsome. destruct s as [d wallets chats]. simpl in *.
  set (d1 := Db.apply_writes (others 0%nat) d) in *.
  assert (Huniq3 : wallet_unique (Db.apply_writes (others 1%nat) d1)).
  { apply apply_writes_keeps. apply apply_writes_keeps. exact Huniq. }
  assert (Hkey : In (Db.u_id u, w) (user_keys (Db.apply_writes (others 1%nat) d1))).
  { apply apply_writes_keeps. apply in_user_keys.
    destruct (find_wallet_some d1 w u Hsome) as [Hin Hwu]. eauto. }
  destruct (find_wallet_key _ _ _ Huniq3 Hkey) as [u3 [Hfind3 Hid3]].
  unfold Routes.register, Routes.handle. rewrite (truthy_wallet w Hw). simpl.
  unfold sx_bind, Routes.on_db, Storage.getUserByWalletAddress, Routes.interfere. simpl.
  rewrite Hnone. simpl.
  unfold Routes.find_or_create, sx_catch, sx_bind, Routes.on_db, Storage.createUser,
    Storage.prisma, Db.user_create. simpl. fold d1. rewrite Hsome. simpl.
  unfold Routes.interfere, Storage.getUserByWalletAddress. simpl. rewrite Hfind3. simpl.
  rewrite Hid3. reflexivity.
Qed.

(** Whatever the request and the others do, the store keeps one user a
    wallet address. *)
Lemma register_wallet_unique env others walletAddress s :
  wallet_unique (Routes.db s) ->
  wallet_unique (Routes.db (fst (Routes.register env others walletAddress s))).
Proof.
  intros Huniq. destruct s as [d wallets chats]. simpl in *.
  unfold Routes.register, Routes.handle.
  destruct (Routes.js_truthy walletAddress); simpl; [|exact Huniq].
  destruct walletAddress as [| |b|q|w|t|]; simpl; try exact Huniq.
  unfold sx_bind, Routes.on_db, Storage.getUserByWalletAddress, Routes.interfere. simpl.
  set (d1 := Db.apply_writes (others 0%nat) d).
  assert (Huniq1 : wallet_unique d1) by (apply apply_writes_keeps; exact Huniq).
  destruct (Db.user_findUnique_wallet d w) as [u|]; simpl.
  - destruct (Db.user_update_lastLogin d1 (Db.u_id u) (Routes.now env)) as [d2|e] eqn:Hu;
      simpl; [|exact Huniq1].
    destruct (user_update_keys _ _ _ _ Hu) as [_ Hwallets].
    unfold wallet_unique. rewrite Hwallets. exact Huniq1.
  - unfold Routes.find_or_create, sx_catch, sx_bind, Routes.on_db, Storage.createUser,
      Storage.prisma. simpl.
    destruct (Db.user_create d1 (Routes.now env) w None None (Some (Routes.now env)))
      as [[d2 u]|e] eqn:Hc; simpl.
    + assert (Huniq2 : wallet_unique d2) by exact (wallet_unique_create _ _ _ _ _ _ _ _ Huniq1 Hc).
      unfold sx_ret, Routes.interfere. simpl.
      set (d3 := Db.apply_writes (others 2%nat) d2).
      assert (Huniq3 : wallet_unique d3) by (apply apply_writes_keeps; exact Huniq2).
      pose proof (createUserPreferences_users (toString (Db.u_id u))
                    (Storage.mkInsertUserPreference (Db.u_id u) None None
                       "moderate-conservative" (Some ["solana"]) (Some ["SOL"; "USDC"]) true)
                    d3) as Husers.
      destruct (Storage.createUserPreferences _ _ d3) as [d4 [p|e]]; simpl in *;
        unfold wallet_unique; rewrite Husers; exact Huniq3.
    + destruct (Routes.is_wallet_conflict e); simpl; [|exact Huniq1].
      unfold Routes.interfere, Storage.getUserByWalletAddress. simpl.
      assert (Huniq3 : wallet_unique (Db.apply_writes (others 1%nat) d1))
        by (apply apply_writes_keeps; exact Huniq1).
      destruct (Db.user_findUnique_wallet _ w); simpl; exact Huniq3.
Qed.

(** C8: with one user a wallet address in the store, registering a wallet
    address (a string that is not empty, which the handler requires) keeps
    it so; registering an address that is registered creates no user row
    and returns the existing user's id; and when another request registers
    the address between this one's lookup and its insert, the
    unique-constraint violation is caught and the answer is the id of the
    user that exists. *)
Theorem C8_register_keeps_one_user_per_wallet env others w s :
  w <> "" ->
  wallet_unique (Routes.db s) ->
  register_keeps_one_user env others w s.
Proof.
  intros Hw Huniq. unfold register_keeps_one_user. cbv zeta. repeat split.
  - apply register_wallet_unique. exact Huniq.
  - destruct (register_found env others w s u Hw H) as [d2 [_ ->]]. reflexivity.
  - destruct (register_found env others w s u Hw H) as [d2 [Hupd ->]]. simpl.
    exact (proj1 (user_update_keys _ _ _ _ Hupd)).
  - rewrite (register_conflict env others w s u Hw Huniq H H0). reflexivity.
  - rewrite (register_conflict env others w s u Hw Huniq H H0). reflexivity.
Qed.

Lemma C8_register_keeps_one_user_per_wallet_witness :
  register_keeps_one_user sample_env (racing "7YttLkHDoNj9wyDur5pM1ejNaAvT9X4eqaYcHQqtj2G5")
    "7YttLkHDoNj9wyDur5pM1ejNaAvT9X4eqaYcHQqtj2G5" sample_server.
Proof.
  apply (C8_register_keeps_one_user_per_wallet sample_env
           (racing "7YttLkHDoNj9wyDur5pM1ejNaAvT9X4eqaYcHQqtj2G5")
           "7YttLkHDoNj9wyDur5pM1ejNaAvT9X4eqaYcHQqtj2G5" sample_server).
  - discriminate.
  - unfold wallet_unique. simpl. constructor; [intros []|constructor].
Defined.

(** Registering twice in a row: the second request returns the id the first
    one created, and there is still one row for the wallet. *)
Example register_twice :
  let w := JStr "7YttLkHDoNj9wyDur5pM1ejNaAvT9X4eqaYcHQqtj2G5" in
  let first := Routes.register sample_env alone w sample_server in
  let second := Routes.register sample_env alone w (fst first) in
  snd first = Routes.json (Routes.PRegistered 2) /\
  snd second = Routes.json (Routes.PRegistered 2) /\
  user_keys (Routes.db (fst second)) = user_keys (Routes.db (fst first)) /\
  length (Db.users (Routes.db (fst second))) = 2%nat.
Proof. vm_compute. auto. Qed.

(** The race: the wallet is registered by another request between the
    lookup and the insert; the answer is that user's id. *)
Example register_race :
  let w := "7YttLkHDoNj9wyDur5pM1ejNaAvT9X4eqaYcHQqtj2G5" in
  let run := Routes.register sample_env (racing w) (JStr w) sample_server in
  snd run = Routes.json (Routes.PRegistered 2) /\
  user_keys (Routes.db (fst run))
    = [(1, "9xQeWvG816bUx9EPjHmaT23yvVM2ZWbrrpZb9PusVFin"); (2, w)].
Proof. vm_compute. auto. Qed.

(** ** Subscribing again *)

Lemma apply_writes_subscriptions ws db :
  Db.subscriptions (Db.apply_writes ws db) = Db.subscriptions db.
Proof.
  unfold Db.apply_writes. revert db. induction ws as [|x ws IH]; intros db; simpl; [reflexivity|].
  rewrite IH. destruct x as [w now|id now]; simpl.
  - unfold Db.user_create. destruct (Db.user_findUnique_wallet db w); reflexivity.
  - unfold Db.user_update_lastLogin. destruct (Db.has_user db id); reflexivity.
Qed.

Lemma keeps_ret {A : Type} (a : A) : keeps_subscriptions (sx_ret a).
Proof. intros s. reflexivity. Qed.

Lemma keeps_throw {A : Type} (e : Exn) : keeps_subscriptions (@sx_throw _ A e).
Proof. intros s. reflexivity. Qed.

Lemma keeps_bind {A B : Type} (m : sx Routes.Server A) (k : A -> sx Routes.Server B) :
  keeps_subscriptions m -> (forall a, keeps_subscriptions (k a)) ->
  keeps_subscriptions (sx_bind m k).
Proof.
  intros Hm Hk s. unfold sx_bind. specialize (Hm s).
  destruct (m s) as [s' [a|e]]; simpl in *; [|exact Hm].
  rewrite (Hk a s'). exact Hm.
Qed.

Lemma keeps_catch {A : Type} (m : sx Routes.Server A) (h : Exn -> sx Routes.Server A) :
  keeps_subscriptions m -> (forall e, keeps_subscriptions (h e)) ->
  keeps_subscriptions (sx_catch m h).
Proof.
  intros Hm Hh s. unfold sx_catch. specialize (Hm s).
  destruct (m s) as [s' [a|e]]; simpl in *; [exact Hm|].
  rewrite (Hh e s'). exact Hm.
Qed.

Lemma keeps_walletStatus env sessionID : keeps_subscriptions (Routes.walletStatus env sessionID).
Proof. intros s. reflexivity. Qed.

Lemma keeps_interfere others k : keeps_subscriptions (Routes.interfere others k).
Proof. intros s. simpl. apply apply_writes_subscriptions. Qed.

Lemma keeps_on_wallets {A : Type} (m : sx (gmap string SolanaService.WalletData) A) :
  keeps_subscriptions (Routes.on_wallets m).
Proof. intros s. unfold Routes.on_wallets. destruct (m _). reflexivity. Qed.

Lemma keeps_getUserByWalletAddress w :
  keeps_subscriptions (Routes.on_db (Storage.getUserByWalletAddress w)).
Proof. intros s. reflexivity. Qed.

Lemma keeps_createUser now insertUser :
  keeps_subscriptions (Routes.on_db (Storage.createUser now insertUser)).
Proof.
  intros s. unfold Routes.on_db, Storage.createUser, Storage.prisma, Db.user_create.
  destruct (Db.user_findUnique_wallet _ _); reflexivity.
Qed.

Create HintDb keeps.
#[local] Hint Resolve keeps_ret keeps_throw keeps_walletStatus keeps_interfere keeps_on_wallets
  keeps_getUserByWalletAddress keeps_createUser : keeps.

Ltac keeps_steps :=
  repeat first
    [ apply keeps_bind; [|intros ?]
    | apply keeps_catch; [|intros ?]
    | match goal with
      | |- keeps_subscriptions (if ?b then _ else _) => destruct b
      | |- keeps_subscriptions (match ?x with _ => _ end) => destruct x
      end
    | solve [auto with keeps] ].

Lemma keeps_find_or_create env others w :
  keeps_subscriptions (Routes.find_or_create env others w).
Proof. unfold Routes.find_or_create. keeps_steps. Qed.

(** Finding the user of a subscribe request writes no subscription. *)
Lemma subscribe_user_subscriptions env others sessionID w s :
  Db.subscriptions (Routes.db (fst (Routes.subscribe_user env others sessionID w s)))
    = Db.subscriptions (Routes.db s).
Proof.
  revert s. change (keeps_subscriptions (Routes.subscribe_user env others sessionID w)).
  unfold Routes.subscribe_user. pose proof (keeps_find_or_create env others w).
  keeps_steps.
Qed.

Lemma find_app_none_some {A : Type} (f : A -> bool) (l : list A) (x : A) :
  find f l = None -> f x = true -> find f (l ++ [x]) = Some x.
Proof.
  induction l as [|a l IH]; simpl; intros H Hx; [rewrite Hx; reflexivity|].
  destruct (f a); [discriminate|]. auto.
Qed.

(** For a wallet address that has no user, [find_or_create] creates one,
    which the lookup by wallet address then finds. *)
Lemma find_or_create_fresh env others w d wallets chats :
  Db.user_findUnique_wallet d w = None ->
  exists d2 u,
    Routes.find_or_create env others w (Routes.mkServer d wallets chats)
      = (Routes.mkServer d2 wallets chats, Ok (u, true)) /\
    Db.user_findUnique_wallet d2 w = Some u.
Proof.
  intros Hnone.
  unfold Routes.find_or_create, sx_catch, sx_bind, Routes.on_db, Storage.createUser,
    Storage.prisma, Db.user_create. simpl. rewrite Hnone. simpl.
  eexists _, _. split; [reflexivity|].
  unfold Db.user_findUnique_wallet in *. simpl.
  apply find_app_none_some; [exact Hnone|]. simpl. apply String.eqb_refl.
Qed.

(** With no other request served, finding the user of a request a second
    time gives the same user and changes nothing more. *)
Lemma subscribe_user_again env others sessionID w s s1 userId :
  (forall k, others k = []) ->
  Routes.subscribe_user env others sessionID w s = (s1, Ok userId) ->
  Routes.subscribe_user env others sessionID w s1 = (s1, Ok userId).
Proof.
  intros Hquiet. destruct s as [d wallets chats].
  unfold Routes.subscribe_user, sx_bind, Routes.walletStatus, Routes.interfere.
  rewrite !Hquiet. simpl.
  unfold SolanaService.getWalletStatus.
  destruct (wallets !! sessionID) as [wd|] eqn:Hw.
  - destruct (Routes.getBalance env (SolanaService.wd_address wd)) as [b|e] eqn:Hb.
    + simpl. destruct (truthy_id (SolanaService.wd_userId wd)) eqn:Ht.
      * intros [= <- <-]. simpl. rewrite Hw, Hb. simpl. rewrite Ht. reflexivity.
      * unfold Routes.on_db, Storage.getUserByWalletAddress, Routes.interfere. simpl.
        destruct (Db.user_findUnique_wallet d w) as [u|] eqn:Hfind; simpl.
        -- unfold Routes.on_wallets, SolanaService.setUserIdForSession. simpl. rewrite Hw.
           simpl. intros [= <- <-]. simpl.
           rewrite lookup_insert_eq. simpl. rewrite Hb. simpl.
           destruct (negb (Db.u_id u =? 0)) eqn:Hz; [reflexivity|].
           simpl. rewrite Hfind. simpl. rewrite lookup_insert_eq. simpl.
           rewrite insert_insert_eq. reflexivity.
        -- destruct (find_or_create_fresh env others w d wallets chats Hfind)
             as [d2 [u [-> Hfind2]]].
           unfold Routes.on_wallets, SolanaService.setUserIdForSession. simpl. rewrite Hw.
           simpl. intros [= <- <-]. simpl.
           rewrite lookup_insert_eq. simpl. rewrite Hb. simpl.
           destruct (negb (Db.u_id u =? 0)) eqn:Hz; [reflexivity|].
           simpl. rewrite Hfind2. simpl. rewrite lookup_insert_eq. simpl.
           rewrite insert_insert_eq. reflexivity.
    + simpl. unfold Routes.on_db, Storage.getUserByWalletAddress, Routes.interfere. simpl.
      destruct (Db.user_findUnique_wallet d w) as [u|] eqn:Hfind; simpl.
      * intros [= <- <-]. simpl. rewrite Hw, Hb. simpl. rewrite Hfind. reflexivity.
      * destruct (find_or_create_fresh env others w d wallets chats Hfind)
          as [d2 [u [-> Hfind2]]].
        simpl. intros [= <- <-]. simpl. rewrite Hw, Hb. simpl. rewrite Hfind2. reflexivity.
  - simpl. unfold Routes.on_db, Storage.getUserByWalletAddress, Routes.interfere. simpl.
    destruct (Db.user_findUnique_wallet d w) as [u|] eqn:Hfind; simpl.
    + intros [= <- <-]. simpl. rewrite Hw. simpl. rewrite Hfind. reflexivity.
    + destruct (find_or_create_fresh env others w d wallets chats Hfind)
        as [d2 [u [-> Hfind2]]].
      simpl. intros [= <- <-]. simpl. rewrite Hw. simpl. rewrite Hfind2. reflexivity.
Qed.

(** The handler, once the user is found with an active subscription. *)
Lemma subscribe_run env others sessionID body request s s1 userId sub :
  Routes.subscriptionSchema_parse body = Ok request ->
  Routes.subscribe_user env others sessionID (Routes.sr_walletAddress request) s
    = (s1, Ok userId) ->
  Db.solanaSubscription_findFirst_active (Routes.db s1) userId = Some sub ->
  Db.s_isActive sub = true ->
  Routes.subscribe env others sessionID body s
    = (s1, Routes.json (Routes.PSubscribed sub (Some "Subscription already active"))).
Proof.
  intros Hparse Huser Hfind Ha.
  unfold Routes.subscribe, Routes.handle, sx_bind, sx_of_res. rewrite Hparse, Huser.
  unfold Routes.on_db, Storage.getUserSubscription. destruct s1 as [d1 wallets1 chats1].
  simpl in *. rewrite Hfind, Ha. reflexivity.
Qed.

(** C9: a subscribe request that is well formed and whose user already has
    an active subscription creates no subscription row, and its response is
    success with an existing active subscription of that user and the
    message "Subscription already active"; sent again with no other request
    in between, it gets the same response and changes nothing. *)
Theorem C9_subscribe_already_active env others sessionID body request s s1 userId :
  Routes.subscriptionSchema_parse body = Ok request ->
  Routes.subscribe_user env others sessionID (Routes.sr_walletAddress request) s
    = (s1, Ok userId) ->
  has_active_subscription (Routes.db s) userId ->
  answers_already_active userId s (Routes.subscribe env others sessionID body s) /\
  Routes.status (snd (Routes.subscribe env others sessionID body s)) = 200 /\
  fst (Routes.subscribe env others sessionID body s) = s1 /\
  ((forall k, others k = []) ->
   Routes.subscribe env others sessionID body s1
     = (s1, snd (Routes.subscribe env others sessionID body s))).
Proof.
  intros Hparse Huser Hactive.
  pose proof (subscribe_user_subscriptions env others sessionID
                (Routes.sr_walletAddress request) s) as Hsubs.
  rewrite Huser in Hsubs. simpl in Hsubs.
  assert (Hactive1 : has_active_subscription (Routes.db s1) userId).
  { unfold has_active_subscription in *. rewrite Hsubs. exact Hactive. }
  destruct (findFirst_active_spec (Routes.db s1) userId) as [Hsound Hcomplete].
  destruct (Hcomplete Hactive1) as [sub Hfind].
  destruct (Hsound sub Hfind) as [Hin [Hu Ha]].
  rewrite (subscribe_run env others sessionID body request s s1 userId sub
             Hparse Huser Hfind Ha).
  simpl. repeat split; try reflexivity.
  - exists sub. simpl. rewrite <- Hsubs. auto.
  - intros Hquiet.
    apply (subscribe_run env others sessionID body request s1 s1 userId sub Hparse);
      [|exact Hfind|exact Ha].
    exact (subscribe_user_again env others sessionID _ s s1 userId Hquiet Huser).
Qed.

Lemma C9_subscribe_already_active_witness :
  answers_already_active 1 subscribed_server
    (Routes.subscribe sample_env alone "s1" sample_subscribe subscribed_server) /\
  Routes.status (snd (Routes.subscribe sample_env alone "s1" sample_subscribe
                        subscribed_server)) = 200 /\
  fst (Routes.subscribe sample_env alone "s1" sample_subscribe subscribed_server)
    = subscribed_server /\
  ((forall k, alone k = []) ->
   Routes.subscribe sample_env alone "s1" sample_subscribe subscribed_server
     = (subscribed_server,
        snd (Routes.subscribe sample_env alone "s1" sample_subscribe subscribed_server))).
Proof.
  eapply (C9_subscribe_already_active sample_env alone "s1" sample_subscribe _
            subscribed_server subscribed_server 1).
  - reflexivity.
  - reflexivity.
  - exists sample_subscription. simpl. auto.
Defined.

(** A first subscription creates the row; the same request again creates
    none and is answered "Subscription already active". *)
Example subscribe_twice :
  let first := Routes.subscribe sample_env alone "s1" sample_subscribe sample_server in
  let second := Routes.subscribe sample_env alone "s1" sample_subscribe (fst first) in
  length (Db.subscriptions (Routes.db (fst first))) = 1%nat /\
  Db.subscriptions (Routes.db (fst second)) = Db.subscriptions (Routes.db (fst first)) /\
  exists sub,
    snd first = Routes.json (Routes.PSubscribed sub None) /\
    snd second = Routes.json (Routes.PSubscribed sub (Some "Subscription already active")).
Proof. vm_compute. repeat split. eexists. split; reflexivity. Qed.

(** * Further properties *)

(** ** [parseInt] and [toString] *)

Lemma read_digits_acc (d : Decimal.uint) : forall acc : positive,
  read_digits (NilEmpty.string_of_uint d) true (Z.pos acc) =
    Some (Z.pos (Pos.of_uint_acc d acc)).
Proof.
  induction d; intros acc; cbn [NilEmpty.string_of_uint read_digits Pos.of_uint_acc];
    [reflexivity|..];
    (match goal with
     | |- context [digit_value ?c] =>
         let v := eval vm_compute in (digit_value c) in
         change (digit_value c) with v
     end; cbv iota; rewrite <- IHd; f_equal; lia).
Qed.

Lemma read_digits_zero (d : Decimal.uint) :
  read_digits (NilEmpty.string_of_uint d) true 0 = Some (Z.of_N (Pos.of_uint d)).
Proof.
  induction d; cbn [NilEmpty.string_of_uint read_digits Pos.of_uint];
    [reflexivity|..];
    (match goal with
     | |- context [digit_value ?c] =>
         let v := eval vm_compute in (digit_value c) in
         change (digit_value c) with v
     end; cbv iota);
    [exact IHd|..]; (etransitivity; [apply read_digits_acc|reflexivity]).
Qed.

Lemma read_digits_first (d : Decimal.uint) :
  d <> Decimal.Nil ->
  read_digits (NilEmpty.string_of_uint d) false 0 = Some (Z.of_N (Pos.of_uint d)).
Proof.
  intros Hd. rewrite <- read_digits_zero.
  destruct d; [contradiction|..]; reflexivity.
Qed.

Lemma parseInt_digits (d : Decimal.uint) :
  d <> Decimal.Nil ->
  parseInt (NilEmpty.string_of_uint d) = Some (Z.of_N (Pos.of_uint d)).
Proof.
  intros Hd. rewrite <- (read_digits_first d Hd).
  destruct d; [contradiction|..]; reflexivity.
Qed.

(** [parseInt(n.toString(), 10)] is [n]: an id that a handler passes as a
    string is the id the storage reads. *)
Lemma parseInt_toString (n : Z) : parseInt (toString n) = Some n.
Proof.
  unfold toString. destruct n as [|p|p]; [reflexivity|..]; cbn [Z.to_int NilZero.string_of_int].
  - pose proof (Unsigned.to_uint_nonnil p) as Hd.
    assert (E : NilZero.string_of_uint (Pos.to_uint p) = NilEmpty.string_of_uint (Pos.to_uint p))
      by (destruct (Pos.to_uint p); [contradiction|..]; reflexivity).
    rewrite E, (parseInt_digits _ Hd), Unsigned.of_to. reflexivity.
  - pose proof (Unsigned.to_uint_nonnil p) as Hd.
    assert (E : NilZero.string_of_uint (Pos.to_uint p) = NilEmpty.string_of_uint (Pos.to_uint p))
      by (destruct (Pos.to_uint p); [contradiction|..]; reflexivity).
    rewrite E. change (parseInt (String "-" ?s)) with (Z.opp <$> read_digits s false 0).
    rewrite (read_digits_first _ Hd), Unsigned.of_to. reflexivity.
Qed.

(** ** Yield opportunities *)

Lemma insert_by_apy_perm o l : Permutation (o :: l) (Storage.insert_by_apy o l).
Proof.
  induction l as [|x l IH]; simpl; [reflexivity|].
  destruct (Qle_bool (Db.o_apy x) (Db.o_apy o)); [reflexivity|].
  rewrite perm_swap. now apply perm_skip.
Qed.

Lemma insert_by_apy_sorted o l :
  StronglySorted apy_desc l -> StronglySorted apy_desc (Storage.insert_by_apy o l).
Proof.
  induction l as [|x l IH]; simpl; intros Hs.
  - constructor; [constructor|constructor].
  - apply StronglySorted_inv in Hs as [Hs Hx].
    destruct (Qle_bool (Db.o_apy x) (Db.o_apy o)) eqn:E.
    + apply Qle_bool_iff in E.
      constructor; [constructor; assumption|].
      constructor; [exact E|].
      eapply List.Forall_impl; [|exact Hx]. unfold apy_desc. intros a Ha.
      eapply Qle_trans; eassumption.
    + constructor; [auto|].
      assert (Hlt : (Db.o_apy o < Db.o_apy x)%Q).
      { apply Qnot_le_lt. intros H. apply Qle_bool_iff in H. congruence. }
      rewrite <- (insert_by_apy_perm o l).
      constructor; [apply Qlt_le_weak; exact Hlt|exact Hx].
Qed.

Lemma getYieldOpportunities_sorted db :
  Permutation (Db.opportunities db) (Storage.getYieldOpportunities db) /\
  StronglySorted apy_desc (Storage.getYieldOpportunities db).
Proof.
  unfold Storage.getYieldOpportunities.
  induction (Db.opportunities db) as [|o l [IHp IHs]]; simpl.
  - split; constructor.
  - split.
    + rewrite <- insert_by_apy_perm. now apply perm_skip.
    + now apply insert_by_apy_sorted.
Qed.

(** X1: [getBestYieldOpportunity] returns an opportunity of the table whose
    APY no other opportunity exceeds, and [undefined] exactly when the table
    is empty. *)
Theorem getBestYieldOpportunity_highest db :
  match Storage.getBestYieldOpportunity db with
  | Some best =>
      In best (Db.opportunities db) /\
      forall o, In o (Db.opportunities db) -> (Db.o_apy o <= Db.o_apy best)%Q
  | None => Db.opportunities db = []
  end.
Proof.
  destruct (getYieldOpportunities_sorted db) as [Hperm Hsort].
  unfold Storage.getBestYieldOpportunity.
  destruct (Storage.getYieldOpportunities db) as [|best rest].
  - symmetry in Hperm. now apply Permutation_nil.
  - split.
    + rewrite Hperm. now left.
    + intros o Ho. rewrite Hperm in Ho. apply StronglySorted_inv in Hsort as [_ Hall].
      destruct Ho as [<-|Ho]; [apply Qle_refl|].
      rewrite List.Forall_forall in Hall. exact (Hall o Ho).
Qed.

Lemma totalApy_fold l : forall acc : Q,
  (fold_left (fun sum opp => sum + Db.o_apy opp) l acc ==
   acc + fold_right (fun o sum => Db.o_apy o + sum) 0 l)%Q.
Proof.
  induction l as [|o l IH]; intros acc; simpl; [lra|]. rewrite IH. lra.
Qed.

Lemma sum_apy_perm l l' :
  Permutation l l' ->
  (fold_right (fun o sum => Db.o_apy o + sum) 0 l ==
   fold_right (fun o sum => Db.o_apy o + sum) 0 l')%Q.
Proof.
  induction 1; simpl; try lra.
Qed.

Lemma list_includes_In x l : list_includes x l = true <-> In x l.
Proof.
  unfold list_includes. rewrite existsb_exists. split.
  - intros (y & Hy & E). apply String.eqb_eq in E. now subst.
  - intros H. exists x. split; [exact H|apply String.eqb_refl].
Qed.

Lemma Set_add_spec s x :
  List.NoDup s -> List.NoDup (Set_add s x) /\ (forall y, In y (Set_add s x) <-> In y s \/ y = x) /\
  (length (Set_add s x) <= S (length s))%nat.
Proof.
  intros Hs. unfold Set_add. destruct (list_includes x s) eqn:E.
  - apply list_includes_In in E. repeat split; auto.
    + intros [H| ->]; assumption.
  - assert (Hn : ~ In x s) by (intros H; apply list_includes_In in H; congruence).
    repeat split.
    + apply List.NoDup_app; repeat split; auto.
      * constructor; [intros []|constructor].
      * intros y Hy [<-|[]]. contradiction.
    + intros H. apply in_app_or in H. destruct H as [H|[<-|[]]]; auto.
    + intros [H| ->]; apply in_or_app; [left|right; left]; auto.
    + rewrite length_app. simpl. lia.
Qed.

Lemma Set_of_spec l :
  List.NoDup (Set_of l) /\ (forall y, In y (Set_of l) <-> In y l) /\
  (length (Set_of l) <= length l)%nat.
Proof.
  unfold Set_of.
  assert (G : forall s, List.NoDup s ->
            List.NoDup (fold_left Set_add l s) /\
            (forall y, In y (fold_left Set_add l s) <-> In y s \/ In y l) /\
            (length (fold_left Set_add l s) <= length s + length l)%nat).
  { induction l as [|x l IH]; intros s Hs; simpl.
    - repeat split; auto; [tauto|lia].
    - destruct (Set_add_spec s x Hs) as (Hn & Hi & Hl).
      destruct (IH _ Hn) as (Hn' & Hi' & Hl').
      repeat split; [exact Hn'| | |lia].
      + intros H. apply Hi' in H. destruct H as [H|H]; [apply Hi in H|]; intuition.
      + intros H. apply Hi'. rewrite Hi. intuition. }
  destruct (G [] (List.NoDup_nil _)) as (Hn & Hi & Hl).
  repeat split; auto.
  - intros H. apply Hi in H. destruct H as [[]|H]; exact H.
  - intros H. apply Hi. now right.
Qed.

(** X2: [getYieldStats] counts every opportunity of the table, reports as
    [protocolCount] the number of distinct protocol names (at most the
    number of opportunities), returns three zeros for an empty table, and
    its [avgApy] is within half a cent of the mean APY. *)
Theorem getYieldStats_summary db :
  let stats := Storage.getYieldStats db in
  Storage.opportunityCount stats = length (Db.opportunities db) /\
  (Storage.protocolCount stats <= Storage.opportunityCount stats)%nat /\
  (exists names, List.NoDup names /\ length names = Storage.protocolCount stats /\
     forall name, In name names <->
                  exists o, In o (Db.opportunities db) /\ Db.o_protocol o = name) /\
  (Db.opportunities db = [] -> stats = Storage.mkYieldStats 0 0 0) /\
  (Db.opportunities db <> [] ->
   (Qabs (Storage.avgApy stats - mean_apy (Db.opportunities db)) <= 1 # 200)%Q).
Proof.
  destruct (getYieldOpportunities_sorted db) as [Hperm _].
  unfold Storage.getYieldStats.
  destruct (Storage.getYieldOpportunities db) as [|o rest] eqn:E.
  - symmetry in Hperm. apply Permutation_nil in Hperm. rewrite Hperm. cbn.
    repeat split; auto; try lia; [|congruence].
    exists []. repeat split; [constructor| |]; [intros []|intros (o & [] & _)].
  - set (sorted := o :: rest) in *.
    cbn [Storage.opportunityCount Storage.protocolCount Storage.avgApy].
    destruct (Set_of_spec (map Db.o_protocol sorted)) as (Hn & Hi & Hl).
    rewrite length_map in Hl.
    repeat split.
    + symmetry. now apply Permutation_length.
    + exact Hl.
    + exists (Set_of (map Db.o_protocol sorted)). repeat split; [exact Hn| |].
      * intros H. apply Hi, in_map_iff in H. destruct H as (x & <- & Hx).
        exists x. split; [now rewrite Hperm|reflexivity].
      * intros (x & Hx & <-). apply Hi, in_map_iff. exists x. split; [reflexivity|].
        now rewrite <- Hperm.
    + intros H. rewrite H in Hperm. apply Permutation_nil in Hperm. discriminate.
    + intros _. unfold mean_apy, Storage.totalApy.
      rewrite (Permutation_length Hperm), (sum_apy_perm _ _ Hperm).
      assert (Et : (fold_right (fun o sum => Db.o_apy o + sum) 0 sorted ==
                    fold_left (fun sum opp => sum + Db.o_apy opp) sorted 0)%Q)
        by (rewrite totalApy_fold; lra).
      rewrite Et. apply round2_close.
Qed.

(** ** The mock chart, the mock change and the mock hash *)

Lemma Math_max_le a b : (a <= Math_max a b)%Q.
Proof.
  unfold Math_max. destruct (Qle_bool a b) eqn:E; [apply Qle_bool_iff in E; exact E|apply Qle_refl].
Qed.

Lemma clamp_within lo hi x : (lo <= hi)%Q -> within lo hi (Math_max lo (Math_min hi x)).
Proof.
  intros H. unfold within, Math_max, Math_min.
  destruct (Qle_bool hi x) eqn:E1.
  - destruct (Qle_bool lo hi) eqn:E2.
    + split; [exact H|apply Qle_refl].
    + apply Qle_bool_iff in H. congruence.
  - destruct (Qle_bool lo x) eqn:E2.
    + apply Qle_bool_iff in E2. split; [exact E2|].
      apply Qlt_le_weak, Qnot_le_lt. intros C. apply Qle_bool_iff in C. congruence.
    + split; [apply Qle_refl|exact H].
Qed.

Lemma random_walk_spec random points : forall i lastValue,
  length (Storage.random_walk random i points lastValue) = points /\
  List.Forall (within (10 # 1) (100 # 1)) (Storage.random_walk random i points lastValue).
Proof.
  induction points as [|n IH]; intros i lastValue; simpl.
  - split; [reflexivity|constructor].
  - destruct (IH (S i) (Math_max (10 # 1)
        (Math_min (100 # 1) (lastValue + (random i * (20 # 1) - (8 # 1)))%Q))) as [Hl Hf].
    split; [now rewrite Hl|].
    constructor; [|exact Hf].
    apply clamp_within. unfold Qle; simpl; lia.
Qed.

Ltac case_keys key :=
  repeat match goal with
         | |- context [String.eqb ?a key] => destruct (String.eqb_spec a key); [subst key|]
         end.

Lemma chart_points_cases timeRange :
  (Storage.chart_points timeRange <= 30)%nat /\
  (list_includes timeRange Object_prototype_members = true ->
   Storage.chart_points timeRange = 0%nat).
Proof.
  unfold Storage.chart_points, lookup_literal, Storage.dataPoints. cbn [find fst snd].
  case_keys timeRange; try solve [vm_compute; split; [lia|discriminate]].
  destruct (list_includes timeRange Object_prototype_members); split; try lia; try discriminate.
Qed.

(** X3: whatever [Math.random] returns, every point of [generateChartData]
    lies in [10, 100]; the chart has as many points as the time range asks
    for, at most 30, and none when the time range is the name of a member
    of [Object.prototype]. *)
Theorem generateChartData_bounded random timeRange :
  List.Forall (within (10 # 1) (100 # 1)) (Storage.generateChartData random timeRange) /\
  length (Storage.generateChartData random timeRange) = Storage.chart_points timeRange /\
  (Storage.chart_points timeRange <= 30)%nat /\
  (list_includes timeRange Object_prototype_members = true ->
   Storage.generateChartData random timeRange = []).
Proof.
  unfold Storage.generateChartData.
  destruct (random_walk_spec random (Storage.chart_points timeRange) 0%nat (50 # 1)) as [Hl Hf].
  destruct (chart_points_cases timeRange) as [Hle H0].
  repeat split; auto.
  intros H. rewrite (H0 H). reflexivity.
Qed.

Lemma ranges_cases timeRange min max :
  lookup_literal Storage.ranges timeRange = Own (min, max) ->
  exists lo hi : Z, min = inject_Z lo /\ max = inject_Z hi /\ lo <= hi.
Proof.
  unfold lookup_literal, Storage.ranges. cbn [find fst snd].
  case_keys timeRange; cbn [fst snd].
  6: { destruct (list_includes _ _); discriminate. }
  all: intros H; injection H as <- <-.
  - exists (-2), 3. repeat split; lia.
  - exists (-5), 8. repeat split; lia.
  - exists (-10), 15. repeat split; lia.
  - exists (-20), 40. repeat split; lia.
  - exists (-30), 100. repeat split; lia.
Qed.

(** X4: for a [Math.random] result in [0, 1), [calculateChangePercentage]
    returns a number within the bounds of its time range, within [-5, 10]
    for a time range it does not know, and throws for a time range that
    names a member of [Object.prototype], which cannot be destructured. *)
Theorem calculateChangePercentage_within (r : Q) (timeRange : string) :
  (0 <= r)%Q -> (r < 1)%Q ->
  match lookup_literal Storage.ranges timeRange with
  | Own (min, max) =>
      exists v, Storage.calculateChangePercentage r timeRange = Ok v /\ within min max v
  | Missing =>
      exists v, Storage.calculateChangePercentage r timeRange = Ok v /\
                within ((-5) # 1) (10 # 1) v
  | Inherited =>
      Storage.calculateChangePercentage r timeRange = Throw Storage.TypeError_not_iterable
  end.
Proof.
  intros H0 H1. unfold Storage.calculateChangePercentage.
  destruct (lookup_literal Storage.ranges timeRange) as [[min max]| |] eqn:E; [| reflexivity |].
  - destruct (ranges_cases _ _ _ E) as (lo & hi & -> & -> & Hle).
    eexists; split; [reflexivity|]. unfold within.
    assert (Hq : (inject_Z lo <= inject_Z hi)%Q) by (rewrite <- Zle_Qle; exact Hle).
    apply round2_between; nra.
  - eexists; split; [reflexivity|]. unfold within.
    change ((-5) # 1)%Q with (inject_Z (-5)). change (10 # 1)%Q with (inject_Z 10).
    apply round2_between; unfold inject_Z; nra.
Qed.

Lemma calculateChangePercentage_within_witness :
  exists v, Storage.calculateChangePercentage (1 # 2) "1M" = Ok v /\
            within ((-10) # 1) (15 # 1) v.
Proof.
  apply (calculateChangePercentage_within (1 # 2) "1M"); [unfold Qle|unfold Qlt]; simpl; lia.
Defined.

Lemma charAt_hex k :
  0 <= k < 16 ->
  exists c, charAt Storage.hex_chars k = String c EmptyString /\
            In c (list_ascii_of_string Storage.hex_chars).
Proof.
  intros H.
  assert (Hk : k = 0 \/ k = 1 \/ k = 2 \/ k = 3 \/ k = 4 \/ k = 5 \/ k = 6 \/ k = 7 \/
               k = 8 \/ k = 9 \/ k = 10 \/ k = 11 \/ k = 12 \/ k = 13 \/ k = 14 \/ k = 15)
    by lia.
  repeat destruct Hk as [->|Hk]; try subst k;
    (eexists; split; [reflexivity|]; simpl; tauto).
Qed.

Lemma floor_random_16 r : (0 <= r)%Q -> (r < 1)%Q ->
  0 <= Qfloor (r * inject_Z (Z.of_nat (String.length Storage.hex_chars)))%Q < 16.
Proof.
  intros H0 H1. change (inject_Z (Z.of_nat (String.length Storage.hex_chars))) with (inject_Z 16).
  split.
  - change 0 with (Qfloor (inject_Z 0)). apply Qfloor_resp_le. unfold inject_Z. nra.
  - assert (H : (inject_Z (Qfloor (r * inject_Z 16)) < inject_Z 15 + 1)%Q).
    { eapply Qle_lt_trans; [apply Qfloor_le|]. unfold inject_Z. nra. }
    apply inject_Z_lt_succ in H. lia.
Qed.

Lemma list_ascii_app a b :
  list_ascii_of_string (a ++ b) = (list_ascii_of_string a ++ list_ascii_of_string b)%list.
Proof. induction a as [|c a IH]; simpl; [reflexivity|now rewrite IH]. Qed.

Lemma length_string_app a b : String.length (a ++ b) = (String.length a + String.length b)%nat.
Proof. induction a as [|c a IH]; simpl; [reflexivity|now rewrite IH]. Qed.

Lemma random_hex_spec random : is_random random -> forall n i hash,
  is_hex hash ->
  String.length (Storage.random_hex random i n hash) = (String.length hash + n)%nat /\
  is_hex (Storage.random_hex random i n hash).
Proof.
  intros Hr. induction n as [|n IH]; intros i hash Hh.
  - simpl. split; [lia|exact Hh].
  - cbn [Storage.random_hex]. destruct (Hr i) as [H0 H1].
    destruct (charAt_hex _ (floor_random_16 _ H0 H1)) as (c & -> & Hc).
    destruct (IH (S i) (hash ++ String c EmptyString)) as [Hl Hx].
    + unfold is_hex. rewrite list_ascii_app. apply List.Forall_app. split; [exact Hh|].
      constructor; [exact Hc|constructor].
    + split; [|exact Hx]. rewrite Hl, length_string_app. simpl. lia.
Qed.

Lemma sample_random_is_random : is_random sample_random.
Proof.
  intros i. unfold sample_random.
  pose proof (Nat.mod_upper_bound i 10 ltac:(lia)) as H.
  split; [unfold Qle|unfold Qlt]; simpl; lia.
Defined.

(** X5: [generateFakeTransactionHash] returns 64 characters, each a
    lower-case hexadecimal digit, and [SolanaService.generateTransactionHash]
    returns the same string for the same draws. *)
Theorem generateFakeTransactionHash_hex random :
  is_random random ->
  String.length (Storage.generateFakeTransactionHash random) = 64%nat /\
  is_hex (Storage.generateFakeTransactionHash random) /\
  SolanaService.generateTransactionHash random = Storage.generateFakeTransactionHash random.
Proof.
  intros Hr. unfold Storage.generateFakeTransactionHash.
  destruct (random_hex_spec random Hr 64 0%nat "") as [Hl Hx]; [constructor|].
  repeat split; assumption.
Qed.

Lemma generateFakeTransactionHash_hex_witness :
  String.length (Storage.generateFakeTransactionHash sample_random) = 64%nat /\
  is_hex (Storage.generateFakeTransactionHash sample_random) /\
  SolanaService.generateTransactionHash sample_random =
    Storage.generateFakeTransactionHash sample_random.
Proof.
  apply (generateFakeTransactionHash_hex sample_random). exact sample_random_is_random.
Defined.

(** ** The portfolio *)

Lemma include_all_ok {A : Type} db (key : A -> Z) rows :
  (forall r, In r rows -> Db.has_opportunity db (key r) = true) ->
  exists joined, Db.include_all db key rows = Ok joined /\ map fst joined = rows /\
     List.Forall (fun x => Db.yieldOpportunity_findUnique db (key (fst x)) = Some (snd x)) joined.
Proof.
  induction rows as [|r rows IH]; intros H; simpl.
  - exists []. repeat split; constructor.
  - destruct (existsb_find_some _ _ (H r (or_introl eq_refl))) as [o [Ho _]].
    destruct IH as (joined & E & Hm & Hf); [intros; apply H; now right|].
    unfold Db.include_opportunity, Db.yieldOpportunity_findUnique. rewrite Ho. simpl.
    rewrite E. simpl. exists ((r, o) :: joined). repeat split; [simpl; now rewrite Hm|].
    constructor; [exact Ho|exact Hf].
Qed.

Lemma include_all_same {A : Type} db db' (key : A -> Z) rows :
  Db.opportunities db' = Db.opportunities db ->
  Db.include_all db' key rows = Db.include_all db key rows.
Proof.
  intros H. induction rows as [|r rows IH]; simpl; [reflexivity|].
  unfold Db.include_opportunity, Db.yieldOpportunity_findUnique. rewrite H, IH. reflexivity.
Qed.

Lemma include_all_snoc {A : Type} db (key : A -> Z) rows joined r o :
  Db.include_all db key rows = Ok joined ->
  Db.yieldOpportunity_findUnique db (key r) = Some o ->
  Db.include_all db key (rows ++ [r]) = Ok (joined ++ [(r, o)])%list.
Proof.
  intros H Ho. revert joined H. induction rows as [|x rows IH]; intros joined H; simpl in *.
  - injection H as <-. unfold Db.include_opportunity. rewrite Ho. reflexivity.
  - destruct (Db.include_opportunity db key x) as [y|]; [|discriminate]. simpl in *.
    destruct (Db.include_all db key rows) as [js|]; [|discriminate]. simpl in H.
    injection H as <-. rewrite (IH js eq_refl). reflexivity.
Qed.

Lemma fold_left_amounts (items : list Storage.PortfolioItem) : forall acc : Q,
  (fold_left (fun sum position => sum + Storage.pi_amount position) items acc ==
   acc + fold_right (fun i sum => Storage.pi_amount i + sum) 0 items)%Q.
Proof.
  induction items as [|i items IH]; intros acc; simpl; [lra|].
  rewrite IH. lra.
Qed.

Lemma findMany_active_ok db uid :
  opportunity_refs db ->
  exists joined, Db.userPortfolio_findMany_active db uid = Ok joined /\
                 map fst joined = active_rows db uid.
Proof.
  intros [Hp _]. unfold Db.userPortfolio_findMany_active.
  destruct (include_all_ok db Db.p_opportunityId (active_rows db uid)) as (j & E & Hm & _).
  - intros r Hr. apply Hp. apply List.filter_In in Hr. tauto.
  - exists j. split; assumption.
Qed.

Lemma format_position_shows x : shows (Storage.format_position x) (fst x).
Proof. destruct x as [p o]. repeat split. Qed.

Lemma not_member_change r timeRange :
  list_includes timeRange Object_prototype_members = false ->
  exists v, Storage.calculateChangePercentage r timeRange = Ok v.
Proof.
  intros H. unfold Storage.calculateChangePercentage, lookup_literal. rewrite H.
  destruct (find _ _) as [[k [mn mx]]|]; simpl; eauto.
Qed.

Lemma invested_db_refs : opportunity_refs invested_db.
Proof.
  split; intros x Hx; simpl in Hx; repeat destruct Hx as [<-|Hx]; try reflexivity; destruct Hx.
Defined.

Lemma sample_db_refs : opportunity_refs sample_db.
Proof. split; intros x []. Defined.

(** X6: for a user id that parses to a number of the [Int] range and a
    time range that is no member of [Object.prototype], [getUserPortfolio]
    leaves the store as it is and returns exactly the active positions of
    that user, a total that is the sum of their amounts, and a chart within
    [10, 100]. *)
Theorem getUserPortfolio_total random userId uid timeRange db :
  parseInt userId = Some uid ->
  Db.is_Int uid = true ->
  opportunity_refs db ->
  list_includes timeRange Object_prototype_members = false ->
  exists data,
    Storage.getUserPortfolio random userId timeRange db = (db, Ok data) /\
    List.Forall2 shows (Storage.positions data) (active_rows db uid) /\
    (Storage.totalValue data == sum_amounts (active_rows db uid))%Q /\
    List.Forall (within (10 # 1) (100 # 1)) (Storage.chartData data).
Proof.
  intros Hid _ Hrefs Ht.
  destruct (findMany_active_ok db uid Hrefs) as (joined & Ej & Hm).
  destruct (not_member_change (random (length (Storage.generateChartData random timeRange)))
              timeRange Ht) as [v Ev].
  unfold Storage.getUserPortfolio. rewrite Hid.
  unfold sx_bind, sx_of_res, sx_ret. rewrite Ej, Ev.
  eexists. split; [reflexivity|]. cbn [Storage.positions Storage.totalValue Storage.chartData].
  rewrite <- Hm. repeat split.
  - clear. induction joined as [|x j IH]; simpl; constructor; [apply format_position_shows|exact IH].
  - rewrite fold_left_amounts. clear.
    induction joined as [|[p o] j IH]; simpl; [lra|]. simpl in IH. lra.
  - unfold Storage.generateChartData. apply random_walk_spec.
Qed.

Lemma getUserPortfolio_total_witness :
  exists data,
    Storage.getUserPortfolio sample_random "1" "1M" invested_db = (invested_db, Ok data) /\
    List.Forall2 shows (Storage.positions data) (active_rows invested_db 1) /\
    (Storage.totalValue data == sum_amounts (active_rows invested_db 1))%Q /\
    List.Forall (within (10 # 1) (100 # 1)) (Storage.chartData data).
Proof.
  apply (getUserPortfolio_total sample_random "1" 1 "1M" invested_db);
    [reflexivity|reflexivity|exact invested_db_refs|reflexivity].
Defined.

Lemma ranges_inherited timeRange :
  list_includes timeRange Object_prototype_members = true ->
  lookup_literal Storage.ranges timeRange = Inherited.
Proof.
  unfold lookup_literal, Storage.ranges. cbn [find fst snd].
  case_keys timeRange; try solve [vm_compute; discriminate].
  intros ->. reflexivity.
Qed.

(** X7: with a time range that names a member of [Object.prototype]
    (["constructor"], ["toString"], ...), [getUserPortfolio] of a user id
    that parses to a number of the [Int] range throws a [TypeError] instead
    of falling back to the default range, the chart having come out
    empty. *)
Theorem getUserPortfolio_inherited_range random userId uid timeRange db :
  parseInt userId = Some uid ->
  Db.is_Int uid = true ->
  opportunity_refs db ->
  list_includes timeRange Object_prototype_members = true ->
  Storage.getUserPortfolio random userId timeRange db =
    (db, Throw Storage.TypeError_not_iterable) /\
  Storage.generateChartData random timeRange = [].
Proof.
  intros Hid _ Hrefs Hm.
  destruct (findMany_active_ok db uid Hrefs) as (joined & Ej & _).
  unfold Storage.getUserPortfolio. rewrite Hid.
  unfold sx_bind, sx_of_res, sx_ret, Storage.calculateChangePercentage.
  rewrite Ej, (ranges_inherited _ Hm). split; [reflexivity|].
  unfold Storage.generateChartData.
  destruct (chart_points_cases timeRange) as [_ H0]. rewrite (H0 Hm). reflexivity.
Qed.

Lemma getUserPortfolio_inherited_range_witness :
  Storage.getUserPortfolio sample_random "1" "constructor" invested_db =
    (invested_db, Throw Storage.TypeError_not_iterable) /\
  Storage.generateChartData sample_random "constructor" = [].
Proof.
  apply (getUserPortfolio_inherited_range sample_random "1" 1 "constructor" invested_db);
    [reflexivity|reflexivity|exact invested_db_refs|reflexivity].
Defined.

Lemma opportunity_refs_createInvestment hash now userId data db :
  opportunity_refs db ->
  opportunity_refs (fst (Storage.createInvestment hash now userId data db)).
Proof.
  intros [Hp Ht]. unfold Storage.createInvestment.
  destruct (parseInt userId) as [uid|]; [|split; assumption].
  unfold sx_bind, Storage.prisma, Db.userPortfolio_create, Db.transaction_create.
  destruct (Db.has_user db uid) eqn:Hu; simpl; [|split; assumption].
  destruct (Db.has_opportunity db (Storage.ipf_opportunityId data)) eqn:Ho; simpl;
    [|split; assumption].
  unfold Db.has_user, Db.has_opportunity in *. simpl. rewrite Hu, Ho. simpl.
  destruct (Db.yieldOpportunity_findUnique _ _); simpl;
    (split; intros x Hin; apply in_app_or in Hin; unfold Db.has_opportunity;
     destruct Hin as [Hin|[<-|[]]]; simpl; auto).
Qed.

(** X8: after [createInvestment] of an active position, for an existing
    user and opportunity and an amount the [Decimal(20, 2)] column takes,
    [getUserPortfolio] of the same user returns the positions it returned
    before followed by the item [createInvestment] returned, and a total
    greater by the amount of that item: the amount invested as the column
    stores it, rounded to two decimals. *)
Theorem createInvestment_then_portfolio hash now random userId uid data timeRange db :
  parseInt userId = Some uid ->
  Db.has_user db uid = true ->
  Db.has_opportunity db (Storage.ipf_opportunityId data) = true ->
  Db.decimal_fits 20 2 (Storage.ipf_amount data) = true ->
  opportunity_refs db ->
  list_includes timeRange Object_prototype_members = false ->
  Storage.ipf_active data = true ->
  exists item before after db',
    Storage.createInvestment hash now userId data db = (db', Ok item) /\
    Storage.getUserPortfolio random userId timeRange db = (db, Ok before) /\
    Storage.getUserPortfolio random userId timeRange db' = (db', Ok after) /\
    Storage.positions after = (Storage.positions before ++ [item])%list /\
    (Storage.totalValue after == Storage.totalValue before + Storage.pi_amount item)%Q /\
    Storage.pi_amount item = Db.decimal 2 (Storage.ipf_amount data).
Proof.
  intros Hid Hu Ho _ Hrefs Ht Hact.
  destruct (createInvestment_ok hash now userId uid data db Hid Hu Ho) as (opp & Hopp & Hrun).
  cbv zeta in Hrun.
  pose proof (opportunity_refs_createInvestment hash now userId data db Hrefs) as Hrefs'.
  rewrite Hrun in Hrefs'. cbn [fst] in Hrefs'.
  set (db' := Db.mk _ _ _ _ _ _ _ _ _ _ _) in *.
  destruct (findMany_active_ok db uid Hrefs) as (j0 & E0 & Hm0).
  destruct (not_member_change (random (length (Storage.generateChartData random timeRange)))
              timeRange Ht) as [v Ev].
  (* the join after the insert is the join before, with the new row *)
  assert (E1 : Db.userPortfolio_findMany_active db' uid =
               Ok (j0 ++ [(Db.mkUserPortfolio (Db.next_portfolio db) uid
                             (Storage.ipf_opportunityId data)
                             (Db.decimal 2 (Storage.ipf_amount data))
                             (Storage.ipf_depositDate data) (Storage.ipf_token data)
                             (Storage.ipf_active data), opp)])%list).
  { unfold Db.userPortfolio_findMany_active in *. subst db'. cbn [Db.portfolios].
    rewrite List.filter_app. cbn [List.filter Db.p_userId Db.p_active].
    rewrite Z.eqb_refl, Hact. cbn [andb].
    rewrite (include_all_same db) by reflexivity.
    apply include_all_snoc; assumption. }
  eexists _, _, _, db'. split; [exact Hrun|].
  unfold Storage.getUserPortfolio. rewrite Hid.
  unfold sx_bind, sx_of_res, sx_ret. rewrite E0, E1, Ev.
  split; [reflexivity|]. split; [reflexivity|].
  cbn [Storage.positions Storage.totalValue Storage.pi_amount].
  rewrite List.map_app. split; [reflexivity|]. split; [|reflexivity].
  rewrite List.fold_left_app. simpl. reflexivity.
Qed.

Lemma createInvestment_then_portfolio_witness :
  exists item before after db',
    Storage.createInvestment "ab12" 1750000001 "1" sample_investment invested_db
      = (db', Ok item) /\
    Storage.getUserPortfolio sample_random "1" "1W" invested_db = (invested_db, Ok before) /\
    Storage.getUserPortfolio sample_random "1" "1W" db' = (db', Ok after) /\
    Storage.positions after = (Storage.positions before ++ [item])%list /\
    (Storage.totalValue after == Storage.totalValue before + Storage.pi_amount item)%Q /\
    Storage.pi_amount item = Db.decimal 2 (Storage.ipf_amount sample_investment).
Proof.
  apply (createInvestment_then_portfolio "ab12" 1750000001 sample_random "1" 1
           sample_investment "1W" invested_db);
    [reflexivity|reflexivity|reflexivity|reflexivity|exact invested_db_refs|reflexivity
    |reflexivity].
Defined.

(** X9: for a user id that parses to a number of the [Int] range,
    [getPortfolioSummary] counts the active positions of the user and
    lists, without repetition, exactly the protocols of their
    opportunities; [protocolCount] is the length of that list and never
    exceeds [activePositions]. *)
Theorem getPortfolioSummary_counts userId uid db :
  parseInt userId = Some uid ->
  Db.is_Int uid = true ->
  opportunity_refs db ->
  exists summary,
    Storage.getPortfolioSummary userId db = (db, Ok summary) /\
    Storage.activePositions summary = length (active_rows db uid) /\
    Storage.summary_protocolCount summary = length (Storage.protocols summary) /\
    (Storage.summary_protocolCount summary <= Storage.activePositions summary)%nat /\
    List.NoDup (Storage.protocols summary) /\
    (forall name, In name (Storage.protocols summary) <->
       exists p o, In p (active_rows db uid) /\
                   Db.yieldOpportunity_findUnique db (Db.p_opportunityId p) = Some o /\
                   Db.o_protocol o = name).
Proof.
  intros Hid _ [Hp Ht].
  unfold Storage.getPortfolioSummary. rewrite Hid. unfold sx_bind, sx_ret.
  unfold Db.userPortfolio_findMany_active. fold (active_rows db uid).
  destruct (include_all_ok db Db.p_opportunityId (active_rows db uid)) as (j & E & Hm & Hf).
  { intros r Hr. apply Hp. apply List.filter_In in Hr. tauto. }
  rewrite E. eexists. split; [reflexivity|].
  cbn [Storage.activePositions Storage.summary_protocolCount Storage.protocols].
  destruct (Set_of_spec (map (fun x => Db.o_protocol (snd x)) j)) as (Hn & Hi & Hl).
  rewrite <- Hm. rewrite !length_map. rewrite length_map in Hl.
  repeat split; auto.
  - intros H. apply Hi in H. apply in_map_iff in H. destruct H as ([p o] & <- & Hin).
    exists p, o. repeat split.
    + apply in_map_iff. exists (p, o). auto.
    + rewrite List.Forall_forall in Hf. apply (Hf _ Hin).
  - intros (p & o & Hin & Ho & <-). apply Hi.
    apply in_map_iff in Hin. destruct Hin as ([p' o'] & <- & Hin).
    rewrite List.Forall_forall in Hf. pose proof (Hf _ Hin) as Hfo. simpl in *.
    rewrite Ho in Hfo. injection Hfo as ->.
    apply in_map_iff. exists (p', o'). auto.
Qed.

Lemma getPortfolioSummary_counts_witness :
  exists summary,
    Storage.getPortfolioSummary "1" invested_db = (invested_db, Ok summary) /\
    Storage.activePositions summary = length (active_rows invested_db 1) /\
    Storage.summary_protocolCount summary = length (Storage.protocols summary) /\
    (Storage.summary_protocolCount summary <= Storage.activePositions summary)%nat /\
    List.NoDup (Storage.protocols summary) /\
    (forall name, In name (Storage.protocols summary) <->
       exists p o, In p (active_rows invested_db 1) /\
                   Db.yieldOpportunity_findUnique invested_db (Db.p_opportunityId p) = Some o /\
                   Db.o_protocol o = name).
Proof.
  apply (getPortfolioSummary_counts "1" 1 invested_db);
    [reflexivity|reflexivity|exact invested_db_refs].
Defined.

(** ** The transaction log *)

Lemma insert_by_date_perm x l : Permutation (x :: l) (Db.insert_by_date x l).
Proof.
  induction l as [|y l IH]; simpl; [reflexivity|].
  destruct (Db.t_transactionDate y <=? Db.t_transactionDate x); [reflexivity|].
  rewrite perm_swap. now apply perm_skip.
Qed.

Lemma insert_by_date_sorted x l :
  StronglySorted date_desc l -> StronglySorted date_desc (Db.insert_by_date x l).
Proof.
  induction l as [|y l IH]; simpl; intros Hs.
  - constructor; [constructor|constructor].
  - apply StronglySorted_inv in Hs as [Hs Hy].
    destruct (Db.t_transactionDate y <=? Db.t_transactionDate x) eqn:E.
    + apply Z.leb_le in E. constructor; [constructor; assumption|].
      constructor; [exact E|].
      eapply List.Forall_impl; [|exact Hy]. unfold date_desc. intros a Ha. lia.
    + apply Z.leb_gt in E. constructor; [auto|].
      rewrite <- (insert_by_date_perm x l).
      constructor; [unfold date_desc; lia|exact Hy].
Qed.

Lemma sort_by_date l :
  Permutation l (fold_right Db.insert_by_date [] l) /\
  StronglySorted date_desc (fold_right Db.insert_by_date [] l).
Proof.
  induction l as [|x l [IHp IHs]]; simpl.
  - split; constructor.
  - split; [rewrite <- insert_by_date_perm; now apply perm_skip|now apply insert_by_date_sorted].
Qed.

Lemma selected_filter db uid filter :
  List.filter (fun x => (Db.t_userId x =? uid)
                        && match (if String.eqb filter "all" then None else Some filter) with
                           | Some ty => String.eqb (Db.t_transactionType x) ty
                           | None => true
                           end) (Db.transactions db) = selected_rows db uid filter.
Proof.
  unfold selected_rows. apply List.filter_ext. intros x.
  destruct (String.eqb filter "all"); reflexivity.
Qed.

Lemma transaction_findMany_ok db uid filter :
  opportunity_refs db ->
  exists joined,
    Db.transaction_findMany db uid (if String.eqb filter "all" then None else Some filter)
      = Ok joined /\
    Permutation (selected_rows db uid filter) (map fst joined) /\
    StronglySorted date_desc (map fst joined) /\
    List.Forall (fun x => Db.yieldOpportunity_findUnique db (Db.t_opportunityId (fst x))
                          = Some (snd x)) joined.
Proof.
  intros [Hp Ht]. unfold Db.transaction_findMany. rewrite selected_filter.
  destruct (sort_by_date (selected_rows db uid filter)) as [Hperm Hsort].
  destruct (include_all_ok db Db.t_opportunityId
              (fold_right Db.insert_by_date [] (selected_rows db uid filter)))
    as (j & E & Hm & Hf).
  { intros r Hr. apply Ht. rewrite <- Hperm in Hr. apply List.filter_In in Hr. tauto. }
  exists j. rewrite Hm. auto.
Qed.

(** X10: for a user id that parses to a number of the [Int] range,
    [getUserTransactions] returns each transaction of the user that the
    filter selects exactly once (all of them for ["all"], else those of
    that type), latest first, and no other. *)
Theorem getUserTransactions_selected userId uid filter db :
  parseInt userId = Some uid ->
  Db.is_Int uid = true ->
  opportunity_refs db ->
  exists items,
    Storage.getUserTransactions userId filter db = (db, Ok items) /\
    Permutation (selected_rows db uid filter) (map Storage.tx_row items) /\
    StronglySorted date_desc (map Storage.tx_row items).
Proof.
  intros Hid _ Hrefs. unfold Storage.getUserTransactions. rewrite Hid.
  destruct (transaction_findMany_ok db uid filter Hrefs) as (j & E & Hperm & Hsort & _).
  unfold sx_bind, sx_ret. rewrite E. eexists. split; [reflexivity|].
  rewrite List.map_map. cbn [Storage.format_transaction Storage.tx_row].
  split; assumption.
Qed.

Lemma getUserTransactions_selected_witness :
  exists items,
    Storage.getUserTransactions "1" "invest" invested_db = (invested_db, Ok items) /\
    Permutation (selected_rows invested_db 1 "invest") (map Storage.tx_row items) /\
    StronglySorted date_desc (map Storage.tx_row items).
Proof.
  apply (getUserTransactions_selected "1" 1 "invest" invested_db);
    [reflexivity|reflexivity|exact invested_db_refs].
Defined.



(** ** Preferences and the risk profile *)

Lemma set_preference_userId uid a b c d e f p :
  Db.pr_userId (Db.set_preference uid a b c d e f p) = Db.pr_userId p.
Proof. unfold Db.set_preference. destruct (Db.pr_userId p =? uid); reflexivity. Qed.

Lemma find_set_preference uid a b c d e f l :
  find (fun p => Db.pr_userId p =? uid) (map (Db.set_preference uid a b c d e f) l) =
  Db.set_preference uid a b c d e f <$> find (fun p => Db.pr_userId p =? uid) l.
Proof.
  induction l as [|p l IH]; simpl; [reflexivity|].
  rewrite set_preference_userId. destruct (Db.pr_userId p =? uid); [reflexivity|exact IH].
Qed.

(** X12: for an existing user [updateUserPreferences] succeeds, and
    [getUserPreferences] then returns the row it returned.  The row is
    appended when the user had none (with risk tolerance ["medium"] unless
    one is given) and replaces the user's row otherwise; [user_id] stays
    unique; a risk tolerance that is given and not empty is the one
    stored. *)
Theorem updateUserPreferences_round_trip userId uid data db :
  parseInt userId = Some uid ->
  Db.has_user db uid = true ->
  exists p db',
    Storage.updateUserPreferences userId data db = (db', Ok p) /\
    Storage.getUserPreferences userId db' = (db', Ok (Some p)) /\
    Db.pr_userId p = uid /\
    (one_preference_a_user db -> one_preference_a_user db') /\
    match Db.userPreference_findUnique db uid with
    | None =>
        Db.preferences db' = (Db.preferences db ++ [p])%list /\
        (Storage.pp_riskTolerance data = None -> Db.pr_riskTolerance p = "medium")
    | Some existing =>
        map Db.pr_userId (Db.preferences db') = map Db.pr_userId (Db.preferences db) /\
        Db.pr_id p = Db.pr_id existing /\
        (Storage.pp_riskTolerance data = None ->
         Db.pr_riskTolerance p = Db.pr_riskTolerance existing)
    end /\
    (forall r, Storage.pp_riskTolerance data = Some r -> r <> "" -> Db.pr_riskTolerance p = r).
Proof.
  intros Hid Hu. unfold Storage.updateUserPreferences, Storage.getUserPreferences.
  rewrite Hid. unfold sx_bind.
  destruct (Db.userPreference_findUnique db uid) as [existing|] eqn:Hfind.
  - (* update *)
    unfold Storage.prisma, Db.userPreference_update. rewrite Hfind.
    eexists _, _. split; [reflexivity|].
    pose proof Hfind as Hfind'. unfold Db.userPreference_findUnique in Hfind'.
    pose proof (find_some _ _ Hfind') as [_ Hex]. apply Z.eqb_eq in Hex.
    split.
    { unfold Db.userPreference_findUnique. cbn [Db.preferences].
      rewrite find_set_preference, Hfind'. reflexivity. }
    split; [rewrite set_preference_userId; exact Hex|].
    assert (Hmap : forall f, map Db.pr_userId (map (Db.set_preference uid
                     (default (Db.pr_telegramChatId existing) (Storage.pp_telegramChatId data))
                     (default (Db.pr_telegramUsername existing) (Storage.pp_telegramUsername data))
                     (Storage.or_string (Storage.pp_riskTolerance data) (Db.pr_riskTolerance existing))
                     (default (Db.pr_preferredChains existing) (Storage.pp_preferredChains data))
                     (default (Db.pr_preferredTokens existing) (Storage.pp_preferredTokens data))
                     f) (Db.preferences db)) = map Db.pr_userId (Db.preferences db)).
    { intros f. rewrite List.map_map. apply List.map_ext. intros p. apply set_preference_userId. }
    split; [unfold one_preference_a_user; cbn [Db.preferences]; now rewrite Hmap|].
    split; [cbn [Db.preferences]; split; [apply Hmap|]|].
    + unfold Db.set_preference. rewrite Hex, Z.eqb_refl. cbn.
      split; [reflexivity|]. intros ->. reflexivity.
    + intros r Hr Hne. unfold Db.set_preference. rewrite Hex, Z.eqb_refl, Hr. cbn.
      destruct (String.eqb_spec r ""); [contradiction|reflexivity].
  - (* create *)
    unfold Storage.createUserPreferences. rewrite Hid.
    unfold Storage.prisma, Db.userPreference_create.
    pose proof Hfind as Hfind'. unfold Db.userPreference_findUnique in Hfind'.
    rewrite (find_none_existsb _ _ Hfind'), Hu. cbn [negb].
    eexists _, _. split; [reflexivity|].
    split.
    { unfold Db.userPreference_findUnique. cbn [Db.preferences].
      erewrite find_app_none_some; [reflexivity|exact Hfind'|apply Z.eqb_refl]. }
    split; [reflexivity|].
    split.
    { unfold one_preference_a_user. cbn [Db.preferences]. rewrite List.map_app. intros Hn.
      apply List.NoDup_app; [exact Hn|constructor; [intros []|constructor]|].
      intros y Hy [<-|[]]. apply in_map_iff in Hy. destruct Hy as (q & Eq & Hq).
      apply (find_none _ _ Hfind') in Hq. simpl in Eq. rewrite Eq, Z.eqb_refl in Hq. discriminate. }
    split; [split; [reflexivity|intros ->; reflexivity]|].
    intros r Hr Hne. cbn. rewrite Hr. cbn.
    destruct (String.eqb_spec r ""); [contradiction|reflexivity].
Qed.

Lemma updateUserPreferences_round_trip_witness :
  exists p db',
    Storage.updateUserPreferences "1" no_change sample_db = (db', Ok p) /\
    Storage.getUserPreferences "1" db' = (db', Ok (Some p)) /\
    Db.pr_userId p = 1 /\
    (one_preference_a_user sample_db -> one_preference_a_user db') /\
    (Db.preferences db' = (Db.preferences sample_db ++ [p])%list /\
     (Storage.pp_riskTolerance no_change = None -> Db.pr_riskTolerance p = "medium")) /\
    (forall r, Storage.pp_riskTolerance no_change = Some r -> r <> "" ->
               Db.pr_riskTolerance p = r).
Proof.
  exact (updateUserPreferences_round_trip "1" 1 no_change sample_db eq_refl eq_refl).
Defined.

(** X13: for a user id that is not a number, or that parses to a number of
    the [Int] range, [getUserRiskProfile] leaves the store as it is and
    returns a profile.  Without preferences the profile is the default
    one; else the level is the stored risk tolerance and the percentage is
    the table's for a level of the table, 35 for any other level, and not a
    number when the level names a member of [Object.prototype]. *)
Theorem getUserRiskProfile_percentage userId db :
  (forall uid, parseInt userId = Some uid -> Db.is_Int uid = true) ->
  exists profile,
    Storage.getUserRiskProfile userId db = (db, Ok profile) /\
    match Storage.percentage profile with
    | Storage.Percent n =>
        In (Storage.level profile, n) Storage.riskPercentages \/
        (n = 35 /\ forall m, ~ In (Storage.level profile, m) Storage.riskPercentages)
    | Storage.Member name =>
        name = Storage.level profile /\ list_includes name Object_prototype_members = true
    end /\
    match Storage.getUserPreferences userId db with
    | (_, Ok (Some p)) => Storage.level profile = Db.pr_riskTolerance p
    | _ => profile = Storage.default_risk_profile
    end.
Proof.
  intros _. unfold Storage.getUserRiskProfile, sx_bind.
  destruct (Storage.getUserPreferences userId db) as [db0 r] eqn:E.
  assert (Hdb : db0 = db /\ exists o, r = Ok o).
  { unfold Storage.getUserPreferences in E. destruct (parseInt userId); injection E as <- <-; eauto. }
  destruct Hdb as [-> [o ->]]. destruct o as [p|]; unfold sx_ret.
  - eexists. split; [reflexivity|]. cbn [Storage.level Storage.percentage].
    split; [|reflexivity].
    generalize (Db.pr_riskTolerance p). intros lvl.
    unfold lookup_literal, Storage.riskPercentages. cbn [find fst snd].
    case_keys lvl; try solve [cbn; auto 10].
    destruct (list_includes lvl Object_prototype_members) eqn:Hm; cbn; [now split|].
    right. split; [reflexivity|]. intros m Hin. cbn in Hin.
    repeat destruct Hin as [Hin|Hin]; try (injection Hin as Hin _; congruence). exact Hin.
  - eexists. split; [reflexivity|]. split; [|reflexivity]. cbn. auto.
Qed.

Lemma getUserRiskProfile_percentage_witness :
  exists profile,
    Storage.getUserRiskProfile "1" sample_db = (sample_db, Ok profile) /\
    match Storage.percentage profile with
    | Storage.Percent n =>
        In (Storage.level profile, n) Storage.riskPercentages \/
        (n = 35 /\ forall m, ~ In (Storage.level profile, m) Storage.riskPercentages)
    | Storage.Member name =>
        name = Storage.level profile /\ list_includes name Object_prototype_members = true
    end /\
    match Storage.getUserPreferences "1" sample_db with
    | (_, Ok (Some p)) => Storage.level profile = Db.pr_riskTolerance p
    | _ => profile = Storage.default_risk_profile
    end.
Proof.
  apply (getUserRiskProfile_percentage "1" sample_db).
  intros uid [= <-]. reflexivity.
Defined.

(** X14: the preferences [updateUserPreferences] creates when no risk
    tolerance is given have the level ["medium"], which the table of
    [getUserRiskProfile] does not list: the profile reported is
    ["medium"] at 35 per cent. *)
Theorem new_preferences_default_profile userId uid data db :
  parseInt userId = Some uid ->
  Db.has_user db uid = true ->
  Db.userPreference_findUnique db uid = None ->
  Storage.pp_riskTolerance data = None ->
  exists p db',
    Storage.updateUserPreferences userId data db = (db', Ok p) /\
    Storage.getUserRiskProfile userId db' =
      (db', Ok (Storage.mkRiskProfile "medium" (Storage.Percent 35))).
Proof.
  intros Hid Hu Hfind Hr. unfold Storage.updateUserPreferences. rewrite Hid. unfold sx_bind.
  rewrite Hfind. unfold Storage.createUserPreferences. rewrite Hid.
  unfold Storage.prisma, Db.userPreference_create.
  pose proof Hfind as Hfind'. unfold Db.userPreference_findUnique in Hfind'.
  rewrite (find_none_existsb _ _ Hfind'), Hu. cbn [negb].
  eexists _, _. split; [reflexivity|].
  unfold Storage.getUserRiskProfile, Storage.getUserPreferences, sx_bind. rewrite Hid.
  unfold Db.userPreference_findUnique. cbn [Db.preferences].
  erewrite find_app_none_some; [|exact Hfind'|apply Z.eqb_refl]. rewrite Hr. reflexivity.
Qed.

Lemma new_preferences_default_profile_witness :
  exists p db',
    Storage.updateUserPreferences "1" no_change sample_db = (db', Ok p) /\
    Storage.getUserRiskProfile "1" db' =
      (db', Ok (Storage.mkRiskProfile "medium" (Storage.Percent 35))).
Proof.
  apply (new_preferences_default_profile "1" 1 no_change sample_db); reflexivity.
Defined.

(** ** The sessions *)

(** X15: for a session that holds a wallet, [setUserIdForSession] keeps the
    address and leaves the other sessions alone, and [getUserId] then
    returns the id that was set, except for the id 0, which it takes for
    no id and throws; for a session without a wallet the first throws and
    changes nothing. *)
Theorem setUserIdForSession_getUserId sessionId userId wallets :
  match wallets !! sessionId with
  | Some walletData =>
      exists wallets',
        SolanaService.setUserIdForSession sessionId userId wallets = (wallets', Ok tt) /\
        wallets' !! sessionId =
          Some (SolanaService.mkWalletData (SolanaService.wd_address walletData) (Some userId)) /\
        (forall other, other <> sessionId -> wallets' !! other = wallets !! other) /\
        SolanaService.getUserId wallets' sessionId =
          (if userId =? 0 then Throw (JsError "No user ID associated with this session")
           else Ok userId)
  | None =>
      SolanaService.setUserIdForSession sessionId userId wallets =
        (wallets, Throw (JsError "No wallet connected for this session")) /\
      SolanaService.getUserId wallets sessionId =
        Throw (JsError "No user ID associated with this session")
  end.
Proof.
  unfold SolanaService.setUserIdForSession, SolanaService.getUserId.
  destruct (wallets !! sessionId) as [wd|] eqn:E.
  - eexists. split; [reflexivity|]. rewrite lookup_insert_eq. repeat split.
    intros other Hne. apply lookup_insert_ne. congruence.
  - split; reflexivity.
Qed.

(** X16: [POST /api/wallet/disconnect] always answers success; afterwards
    the session is not connected, [getWalletInfo] and [getUserId] throw for
    it, every other session is as it was, and neither the store nor the
    chat histories (that of the session included) changed. *)
Theorem wallet_disconnect_forgets env sessionID s :
  let run := Routes.wallet_disconnect sessionID s in
  snd run = Routes.Replied tt /\
  SolanaService.getWalletStatus (Routes.getBalance env) (Routes.connectedWallets (fst run))
    sessionID = SolanaService.not_connected /\
  SolanaService.getWalletInfo (Routes.connectedWallets (fst run)) sessionID =
    Throw (JsError "Wallet not connected") /\
  SolanaService.getUserId (Routes.connectedWallets (fst run)) sessionID =
    Throw (JsError "No user ID associated with this session") /\
  (forall other, other <> sessionID ->
     Routes.connectedWallets (fst run) !! other = Routes.connectedWallets s !! other) /\
  Routes.db (fst run) = Routes.db s /\
  Routes.userChats (fst run) = Routes.userChats s.
Proof.
  destruct s as [d wallets chats]. cbn.
  unfold SolanaService.getWalletStatus, SolanaService.getWalletInfo, SolanaService.getUserId.
  rewrite lookup_delete_eq. repeat split.
  intros other Hne. apply lookup_delete_ne. congruence.
Qed.

Lemma find_wallet_in_keys db w u :
  Db.user_findUnique_wallet db w = Some u -> In (Db.u_id u, w) (user_keys db).
Proof.
  intros H. destruct (find_wallet_some db w u H) as [Hin Hw].
  apply in_user_keys. eauto.
Qed.

Lemma createUserPreferences_keeps userId data db :
  user_keys (fst (Storage.createUserPreferences userId data db)) = user_keys db /\
  (wallet_unique db -> wallet_unique (fst (Storage.createUserPreferences userId data db))).
Proof.
  unfold user_keys, wallet_unique. rewrite createUserPreferences_users. auto.
Qed.

Lemma connectWallet_run env others address sessionId s :
  wallet_unique (Routes.db s) ->
  connected_as_registered address sessionId s
    (Routes.connectWallet env others address sessionId s).
Proof.
  intros Huniq. destruct s as [d wallets chats]. cbn [Routes.db] in Huniq.
  unfold connected_as_registered, Routes.connectWallet.
  unfold sx_catch, sx_bind, Routes.on_db, Storage.getUserByWalletAddress, Routes.interfere,
    Routes.on_wallets, sx_ret, sx_throw.
  cbn [Routes.db Routes.connectedWallets Routes.userChats fst snd].
  set (d1 := Db.apply_writes (others 0%nat) d).
  assert (Huniq1 : wallet_unique d1) by (apply apply_writes_keeps; exact Huniq).
  destruct (Db.user_findUnique_wallet d address) as [u|] eqn:Hfind.
  - (* the user exists *)
    assert (Hkey1 : In (Db.u_id u, address) (user_keys d1)).
    { apply apply_writes_keeps. now apply find_wallet_in_keys. }
    cbn [Routes.db Routes.connectedWallets Routes.userChats fst snd].
    destruct (Db.user_update_lastLogin d1 (Db.u_id u) (Routes.now env)) as [d2|e] eqn:Hup;
      cbn [Routes.db Routes.connectedWallets Routes.userChats fst snd].
    + destruct (user_update_keys _ _ _ _ Hup) as [Hkeys Hwallets].
      split; [unfold wallet_unique; rewrite Hwallets; exact Huniq1|].
      split; [reflexivity|]. eexists. repeat split. rewrite Hkeys. exact Hkey1.
    + split; [exact Huniq1|]. split; [reflexivity|]. eexists. repeat split. exact Hkey1.
  - (* no user yet *)
    unfold Storage.createUser, Storage.prisma.
    cbn [Storage.iu_walletAddress Storage.iu_username Storage.iu_email Storage.iu_lastLogin
         Routes.db Routes.connectedWallets Routes.userChats fst snd].
    destruct (Db.user_create d1 (Routes.now env) address None None (Some (Routes.now env)))
      as [[d2 newUser]|e] eqn:Hc;
      cbn [Routes.db Routes.connectedWallets Routes.userChats fst snd].
    + pose proof (wallet_unique_create _ _ _ _ _ _ _ _ Huniq1 Hc) as Huniq2.
      destruct (user_create_keys _ _ _ _ _ _ _ _ Hc) as (_ & Husers & _ & Hw).
      assert (Hkey2 : In (Db.u_id newUser, address) (user_keys d2)).
      { apply in_user_keys. exists newUser. rewrite Husers. split; [|auto].
        apply in_or_app. right. now left. }
      set (d3 := Db.apply_writes (others 2%nat) d2).
      assert (Huniq3 : wallet_unique d3) by (apply apply_writes_keeps; exact Huniq2).
      assert (Hkey3 : In (Db.u_id newUser, address) (user_keys d3))
        by (apply apply_writes_keeps; exact Hkey2).
      match goal with
      | |- context [Storage.createUserPreferences ?a ?b d3] =>
          destruct (createUserPreferences_keeps a b d3) as [Hk Hu];
          destruct (Storage.createUserPreferences a b d3) as [d4 [p|e]]
      end; cbn [fst] in Hk, Hu;
        cbn [Routes.db Routes.connectedWallets Routes.userChats fst snd];
        (split; [auto|]; split; [reflexivity|]; eexists; repeat split; rewrite Hk; exact Hkey3).
    + destruct (user_create_conflict _ _ _ _ _ _ _ Hc) as [-> [u Hu]].
      change (Routes.is_wallet_conflict (Db.P2002 ["wallet_address"])) with true.
      cbv beta iota. cbn [Routes.db Routes.connectedWallets Routes.userChats fst snd].
      set (d2 := Db.apply_writes (others 1%nat) d1).
      assert (Huniq2 : wallet_unique d2) by (apply apply_writes_keeps; exact Huniq1).
      assert (Hkey2 : In (Db.u_id u, address) (user_keys d2)).
      { apply apply_writes_keeps. now apply find_wallet_in_keys. }
      destruct (find_wallet_key d2 (Db.u_id u) address Huniq2 Hkey2) as (u' & Hf & Hid).
      rewrite Hf. cbn [Routes.db Routes.connectedWallets Routes.userChats fst snd].
      split; [exact Huniq2|]. split; [reflexivity|]. eexists. repeat split.
      now apply find_wallet_in_keys.
Qed.

Lemma sample_server_unique : wallet_unique (Routes.db sample_server).
Proof. repeat constructor. intros []. Defined.

(** X17: on a store with one user a wallet, [POST /api/wallet/connect]
    succeeds whatever is written concurrently: the session then holds the
    generated address with the id of the one user registered for it, the
    store still has one user a wallet, and [GET /api/wallet/status] reports
    that address and id when the balance request answers and
    [connected: false] when it fails. *)
Theorem wallet_connect_binds env others address sessionID s :
  wallet_unique (Routes.db s) ->
  let run := Routes.wallet_connect env others address sessionID s in
  exists userId,
    snd run = Routes.Replied (Routes.mkConnectResult true address (4255 # 100) userId) /\
    wallet_unique (Routes.db (fst run)) /\
    In (userId, address) (user_keys (Routes.db (fst run))) /\
    Routes.connectedWallets (fst run) =
      <[sessionID := SolanaService.mkWalletData address (Some userId)]>
        (Routes.connectedWallets s) /\
    Routes.wallet_status env sessionID (fst run) =
      (fst run, Routes.Replied (status_of env address (Some userId))).
Proof.
  intros Huniq.
  destruct (connectWallet_run env others address sessionID s Huniq)
    as (Hu & _ & userId & Hr & Hw & Hk).
  unfold Routes.wallet_connect, Routes.answer, sx_bind, sx_ret. cbv zeta.
  destruct (Routes.connectWallet env others address sessionID s) as [s' r].
  cbn [fst snd] in *. subst r. cbn [fst snd].
  exists userId. repeat split; auto.
  unfold Routes.wallet_status, Routes.answer, sx_bind, sx_ret, Routes.walletStatus,
    SolanaService.getWalletStatus, status_of.
  rewrite Hw, lookup_insert_eq. cbn [SolanaService.wd_address SolanaService.wd_userId].
  destruct (Routes.getBalance env address); reflexivity.
Qed.

Lemma wallet_connect_binds_witness :
  let run := Routes.wallet_connect sample_env alone
               "7EcDhSYGxXyscszYEp35KHN8vvw3svAuLKTzXwCFLtV" "s2" sample_server in
  exists userId,
    snd run = Routes.Replied
                (Routes.mkConnectResult true "7EcDhSYGxXyscszYEp35KHN8vvw3svAuLKTzXwCFLtV"
                   (4255 # 100) userId) /\
    wallet_unique (Routes.db (fst run)) /\
    In (userId, "7EcDhSYGxXyscszYEp35KHN8vvw3svAuLKTzXwCFLtV") (user_keys (Routes.db (fst run))) /\
    Routes.connectedWallets (fst run) =
      <["s2" := SolanaService.mkWalletData "7EcDhSYGxXyscszYEp35KHN8vvw3svAuLKTzXwCFLtV"
                  (Some userId)]> (Routes.connectedWallets sample_server) /\
    Routes.wallet_status sample_env "s2" (fst run) =
      (fst run, Routes.Replied
                  (status_of sample_env "7EcDhSYGxXyscszYEp35KHN8vvw3svAuLKTzXwCFLtV"
                     (Some userId))).
Proof.
  apply (wallet_connect_binds sample_env alone "7EcDhSYGxXyscszYEp35KHN8vvw3svAuLKTzXwCFLtV"
           "s2" sample_server).
  exact sample_server_unique.
Defined.

Lemma walletStatus_cases env sessionID s :
  SolanaService.getWalletStatus (Routes.getBalance env) (Routes.connectedWallets s) sessionID =
  match Routes.connectedWallets s !! sessionID with
  | Some walletData =>
      status_of env (SolanaService.wd_address walletData) (SolanaService.wd_userId walletData)
  | None => SolanaService.not_connected
  end.
Proof.
  unfold SolanaService.getWalletStatus, status_of.
  destruct (Routes.connectedWallets s !! sessionID) as [wd|]; [|reflexivity].
  destruct (Routes.getBalance env _); reflexivity.
Qed.

(** X18: [GET /api/wallet/info] changes no row and answers either 401
    "Not connected" or the information of the wallet the session holds,
    with [isSubscribed] true exactly when the user of the session (by the
    id it holds, else by its wallet address) has an active subscription. *)
Theorem wallet_info_reports env sessionID s :
  let run := Routes.wallet_info env sessionID s in
  Routes.db (fst run) = Routes.db s /\
  match snd run with
  | Routes.Replied (info, isSubscribed) =>
      exists walletData,
        Routes.connectedWallets s !! sessionID = Some walletData /\
        SolanaService.wi_address info = SolanaService.wd_address walletData /\
        (isSubscribed = true <->
         exists userId, session_user (Routes.db s) walletData = Some userId /\
                        has_active_subscription (Routes.db s) userId)
  | Routes.Refused status error => status = 401 /\ error = Some "Not connected"
  end.
Proof.
  destruct s as [d wallets chats].
  unfold Routes.wallet_info, sx_bind, sx_ret, Routes.walletStatus. cbv zeta.
  rewrite walletStatus_cases. cbn [Routes.connectedWallets Routes.db].
  destruct (wallets !! sessionID) as [[addr ouid]|] eqn:Hwd; [|cbn; auto].
  unfold status_of. cbn [SolanaService.wd_address SolanaService.wd_userId].
  destruct (Routes.getBalance env addr) as [lamports|e]; [|cbn; auto].
  cbn [SolanaService.connected SolanaService.ws_address SolanaService.ws_userId negb orb
       Routes.truthy_string].
  destruct (String.eqb_spec addr "") as [Hempty|Hne]; [cbn; auto|].
  cbn [negb]. unfold SolanaService.getWalletInfo. cbn [Routes.connectedWallets]. rewrite Hwd.
  unfold session_user. cbn [SolanaService.wd_address SolanaService.wd_userId].
  destruct (truthy_id ouid) eqn:Ht.
  - (* the session holds a user id *)
    destruct ouid as [uid|]; [|discriminate]. cbn [default id].
    unfold Routes.on_db. cbn [Routes.db Routes.connectedWallets Routes.userChats].
    destruct (checkUserIsSubscribed_spec d uid) as (b & Hb & Hiff). rewrite Hb.
    cbn [Routes.db Routes.connectedWallets Routes.userChats fst snd].
    split; [reflexivity|]. eexists. split; [reflexivity|].
    cbn [SolanaService.wd_address SolanaService.wd_userId SolanaService.wi_address].
    rewrite Ht. split; [reflexivity|]. split.
    + intros ->. exists uid. split; [reflexivity|now apply Hiff].
    + intros (u & [= <-] & Hs). now apply Hiff.
  - (* it holds none: the user is looked up by address *)
    unfold Routes.on_db, Storage.getUserByWalletAddress.
    cbn [Routes.db Routes.connectedWallets Routes.userChats SolanaService.wi_address fst snd].
    destruct (Db.user_findUnique_wallet d addr) as [u|] eqn:Hu.
    + cbn [Routes.db Routes.connectedWallets Routes.userChats fst snd].
      destruct (checkUserIsSubscribed_spec d (Db.u_id u)) as (b & Hb & Hiff). rewrite Hb.
      cbn [Routes.db Routes.connectedWallets Routes.userChats fst snd].
      unfold Routes.on_wallets, SolanaService.setUserIdForSession.
      cbn [Routes.db Routes.connectedWallets Routes.userChats fst snd]. rewrite Hwd.
      cbn [Routes.db Routes.connectedWallets Routes.userChats fst snd].
      split; [reflexivity|]. eexists. split; [reflexivity|].
      cbn [SolanaService.wd_address SolanaService.wd_userId SolanaService.wi_address].
      rewrite Ht, Hu. split; [reflexivity|]. split.
      * intros ->. exists (Db.u_id u). split; [reflexivity|now apply Hiff].
      * intros (x & [= <-] & Hs). now apply Hiff.
    + cbn [Routes.db Routes.connectedWallets Routes.userChats fst snd].
      split; [reflexivity|]. eexists. split; [reflexivity|].
      cbn [SolanaService.wd_address SolanaService.wd_userId SolanaService.wi_address].
      rewrite Ht, Hu. split; [reflexivity|]. split; [discriminate|].
      intros (x & Hx & _). discriminate.
Qed.

(** ** The other handlers *)

Lemma parse_numeric_body other opportunityId amount depositDate token active :
  active = JUndefined \/ (exists b, active = JBool b) ->
  exists data,
    Routes.insertUserPortfolioSchema_parse
      (Routes.mkInvestBody (JNum other) (JNum (inject_Z opportunityId)) (JNum amount)
         (JDate depositDate) (JStr token) active) = Ok data /\
    Storage.ipf_opportunityId data = opportunityId /\
    Storage.ipf_amount data = amount /\
    Storage.ipf_token data = token.
Proof.
  intros Hactive. unfold Routes.insertUserPortfolioSchema_parse.
  cbn [Routes.ib_userId Routes.ib_opportunityId Routes.ib_amount Routes.ib_depositDate
       Routes.ib_token Routes.ib_active].
  assert (Hint : Routes.is_integral (inject_Z opportunityId) = true).
  { unfold Routes.is_integral. rewrite Qfloor_Z. apply Qeq_bool_iff. reflexivity. }
  rewrite Hint.
  destruct Hactive as [-> | [b ->]]; eexists; (split; [reflexivity|]);
    cbn [Storage.ipf_opportunityId Storage.ipf_amount Storage.ipf_token];
    rewrite Qfloor_Z; repeat split.
Qed.

(** X19: for a session whose wallet is connected with a user that exists,
    [POST /api/portfolio/invest] with a body whose [userId] is any number,
    whose [opportunityId] names an opportunity that exists, whose [amount]
    is a number the [Decimal(20, 2)] column takes, whose [depositDate] is
    a date and whose [token] is a string, records the position and its
    transaction for the user of the session, whatever [userId] the body
    names: the id the route passes as a string parses back to the number it
    was. *)
Theorem invest_owner env sessionID s walletData uid lamports
    other opportunityId amount depositDate token active :
  Routes.connectedWallets s !! sessionID = Some walletData ->
  Routes.getBalance env (SolanaService.wd_address walletData) = Ok lamports ->
  SolanaService.wd_userId walletData = Some uid ->
  uid <> 0 ->
  Db.has_user (Routes.db s) uid = true ->
  Db.has_opportunity (Routes.db s) opportunityId = true ->
  Db.decimal_fits 20 2 amount = true ->
  active = JUndefined \/ (exists b, active = JBool b) ->
  let body := Routes.mkInvestBody (JNum other) (JNum (inject_Z opportunityId)) (JNum amount)
                (JDate depositDate) (JStr token) active in
  let run := Routes.invest env sessionID body s in
  exists item p t,
    snd run = Routes.json (Routes.PInvestment item) /\
    Storage.pi_userId item = uid /\
    Db.portfolios (Routes.db (fst run)) = (Db.portfolios (Routes.db s) ++ [p])%list /\
    Db.p_userId p = uid /\
    Db.transactions (Routes.db (fst run)) = (Db.transactions (Routes.db s) ++ [t])%list /\
    Db.t_userId t = uid.
Proof.
  intros Hwd Hbal Huid Hne Hu Ho _ Hactive. destruct s as [d wallets chats].
  cbn [Routes.db Routes.connectedWallets] in *.
  destruct (parse_numeric_body other opportunityId amount depositDate token active Hactive)
    as (data & Hparse & Hopp & _).
  rewrite <- Hopp in Ho.
  destruct (createInvestment_ok (Routes.fakeTransactionHash env) (Routes.now env)
              (toString uid) uid data d (parseInt_toString uid) Hu Ho) as (opp & _ & Hrun).
  cbv zeta in Hrun. cbv zeta.
  unfold Routes.invest, Routes.handle, sx_bind, sx_ret, sx_of_res, Routes.walletStatus.
  rewrite walletStatus_cases. cbn [Routes.connectedWallets Routes.db]. rewrite Hwd.
  unfold status_of. rewrite Hbal, Huid.
  cbn [SolanaService.connected SolanaService.ws_userId truthy_id negb orb].
  destruct (Z.eqb_spec uid 0) as [|_]; [contradiction|]. cbn [negb]. rewrite Hparse.
  unfold Routes.on_db. cbn [Routes.db Routes.connectedWallets Routes.userChats default id].
  rewrite Hrun. cbn [fst snd Routes.db Db.portfolios Db.transactions].
  eexists _, _, _. repeat split.
Qed.

Lemma invest_owner_witness :
  let run := Routes.invest sample_env "s1" sample_invest_body sample_server in
  exists item p t,
    snd run = Routes.json (Routes.PInvestment item) /\
    Storage.pi_userId item = 1 /\
    Db.portfolios (Routes.db (fst run)) = (Db.portfolios (Routes.db sample_server) ++ [p])%list /\
    Db.p_userId p = 1 /\
    Db.transactions (Routes.db (fst run))
      = (Db.transactions (Routes.db sample_server) ++ [t])%list /\
    Db.t_userId t = 1.
Proof.
  apply (invest_owner sample_env "s1" sample_server
           (SolanaService.mkWalletData "9xQeWvG816bUx9EPjHmaT23yvVM2ZWbrrpZb9PusVFin" (Some 1))
           1 5000000000 (15 # 2) 1 (5 # 2) 1750000000 "RAY" JUndefined);
    try reflexivity; [lia|now left].
Defined.

Lemma reads_ret {A : Type} (a : A) : reads_only (sx_ret (S := Routes.Server) a).
Proof. intros s. split; reflexivity. Qed.

Lemma reads_throw {A : Type} (e : Exn) : reads_only (@sx_throw Routes.Server A e).
Proof. intros s. split; reflexivity. Qed.

Lemma reads_bind {A B : Type} (m : sx Routes.Server A) (k : A -> sx Routes.Server B) :
  reads_only m -> (forall a, reads_only (k a)) -> reads_only (sx_bind m k).
Proof.
  intros Hm Hk s. unfold sx_bind. specialize (Hm s).
  destruct (m s) as [s' [a|e]]; cbn [fst] in *; [|exact Hm].
  destruct (Hk a s') as [H1 H2]. destruct Hm as [H3 H4]. split; congruence.
Qed.

Lemma reads_walletStatus env sessionID : reads_only (Routes.walletStatus env sessionID).
Proof. intros s. split; reflexivity. Qed.

Lemma reads_on_wallets {A : Type} (m : sx (gmap string SolanaService.WalletData) A) :
  reads_only (Routes.on_wallets m).
Proof.
  intros s. unfold Routes.on_wallets. destruct (m _). split; reflexivity.
Qed.

Lemma reads_on_db {A : Type} (m : sx Db.t A) : pure_read m -> reads_only (Routes.on_db m).
Proof.
  intros Hm s. unfold Routes.on_db. specialize (Hm (Routes.db s)).
  destruct (m _) as [d r]. cbn [fst] in *. subst d. split; reflexivity.
Qed.

Lemma reads_answer {A : Type} n (body : sx Routes.Server (Routes.Reply A)) s :
  reads_only body -> store_unchanged s (fst (Routes.answer n body s)).
Proof.
  intros Hb. unfold Routes.answer. specialize (Hb s). destruct (body s) as [s' [r|e]]; exact Hb.
Qed.

Lemma pure_getUserByWalletAddress w : pure_read (Storage.getUserByWalletAddress w).
Proof. intros db. reflexivity. Qed.

Lemma pure_checkUserIsSubscribed uid : pure_read (Storage.checkUserIsSubscribed uid).
Proof. intros db. reflexivity. Qed.

Lemma pure_getUserPreferences userId : pure_read (Storage.getUserPreferences userId).
Proof. intros db. unfold Storage.getUserPreferences. destruct (parseInt userId); reflexivity. Qed.

Lemma pure_getUserRiskProfile userId : pure_read (Storage.getUserRiskProfile userId).
Proof.
  intros db. unfold Storage.getUserRiskProfile, sx_bind. pose proof (pure_getUserPreferences userId db) as H.
  destruct (Storage.getUserPreferences userId db) as [d [[p|]|e]]; cbn [fst] in *; exact H.
Qed.

Lemma pure_getUserPortfolio random userId timeRange :
  pure_read (Storage.getUserPortfolio random userId timeRange).
Proof.
  intros db. unfold Storage.getUserPortfolio. destruct (parseInt userId); [|reflexivity].
  unfold sx_bind, sx_of_res, sx_ret.
  destruct (Db.userPortfolio_findMany_active db z); [|reflexivity].
  destruct (Storage.calculateChangePercentage _ _); reflexivity.
Qed.

Lemma pure_getPortfolioSummary userId : pure_read (Storage.getPortfolioSummary userId).
Proof.
  intros db. unfold Storage.getPortfolioSummary. destruct (parseInt userId); [|reflexivity].
  unfold sx_bind, sx_ret. destruct (Db.userPortfolio_findMany_active db z); reflexivity.
Qed.

Lemma pure_getUserTransactions userId filter :
  pure_read (Storage.getUserTransactions userId filter).
Proof.
  intros db. unfold Storage.getUserTransactions. destruct (parseInt userId); [|reflexivity].
  unfold sx_bind, sx_ret. destruct (Db.transaction_findMany db z _); reflexivity.
Qed.

Lemma reads_resolve_userId sessionID ws : reads_only (Routes.resolve_userId sessionID ws).
Proof.
  unfold Routes.resolve_userId. destruct (_ && _); [|apply reads_ret].
  apply reads_bind; [apply reads_on_db, pure_getUserByWalletAddress|].
  intros [u|]; [|apply reads_ret].
  apply reads_bind; [apply reads_on_wallets|intros; apply reads_ret].
Qed.

Lemma reads_for_user {A : Type} env sessionID (serve : string -> sx Db.t A) s :
  (forall userId, pure_read (serve userId)) ->
  store_unchanged s (fst (Routes.for_user env sessionID serve s)).
Proof.
  intros Hs. unfold Routes.for_user. apply reads_answer.
  apply reads_bind; [apply reads_walletStatus|]. intros ws.
  destruct (negb _); [apply reads_ret|].
  apply reads_bind; [apply reads_resolve_userId|]. intros userId.
  destruct (negb _); [apply reads_ret|].
  apply reads_bind; [apply reads_on_db, Hs|intros; apply reads_ret].
Qed.

Lemma reads_risk_profile_body env sessionID :
  reads_only
    (ws <- Routes.walletStatus env sessionID ;;
     userId <- Routes.resolve_userId sessionID ws ;;
     if truthy_id userId
     then
       riskProfile <- Routes.on_db (Storage.getUserRiskProfile (toString (default 0 userId))) ;;
       sx_ret (Routes.Replied riskProfile)
     else sx_ret (Routes.Replied Storage.default_risk_profile)).
Proof.
  apply reads_bind; [apply reads_walletStatus|]. intros ws.
  apply reads_bind; [apply reads_resolve_userId|]. intros userId.
  destruct (truthy_id userId); [|apply reads_ret].
  apply reads_bind; [apply reads_on_db, pure_getUserRiskProfile|intros; apply reads_ret].
Qed.

Lemma reads_wallet_info env sessionID s :
  store_unchanged s (fst (Routes.wallet_info env sessionID s)).
Proof.
  unfold Routes.wallet_info.
  match goal with
  | |- context [match ?m s with _ => _ end] =>
      assert (Hr : reads_only m); [|specialize (Hr s); destruct (m s) as [s' [r|e]]; apply Hr]
  end.
  apply reads_bind; [apply reads_walletStatus|]. intros ws.
  destruct (_ || _); [apply reads_ret|].
  apply reads_bind; [intros x; split; reflexivity|]. intros info.
  apply reads_bind; [|intros; apply reads_ret].
  destruct (truthy_id _); [apply reads_on_db, pure_checkUserIsSubscribed|].
  apply reads_bind; [apply reads_on_db, pure_getUserByWalletAddress|].
  intros [u|]; [|apply reads_ret].
  apply reads_bind; [apply reads_on_db, pure_checkUserIsSubscribed|]. intros b.
  apply reads_bind; [apply reads_on_wallets|intros; apply reads_ret].
Qed.

Lemma reads_subscription address s :
  store_unchanged s (fst (Routes.subscription address s)).
Proof.
  unfold Routes.subscription, Routes.handle.
  match goal with
  | |- context [match ?m s with _ => _ end] =>
      assert (Hr : reads_only m); [|specialize (Hr s); destruct (m s) as [s' [r|e]]; apply Hr]
  end.
  destruct address as [[|c a]|]; try apply reads_ret.
  apply reads_bind; [apply reads_on_db, pure_getUserByWalletAddress|].
  intros [u|]; [|apply reads_ret].
  apply reads_bind; [apply reads_on_db, pure_checkUserIsSubscribed|intros; apply reads_ret].
Qed.

(** X20: the [GET] handlers write neither to the store nor to the chat
    histories, whatever they answer. *)
Theorem get_handlers_leave_store env random sessionID timeRange filter address s :
  store_unchanged s (fst (Routes.wallet_status env sessionID s)) /\
  store_unchanged s (fst (Routes.wallet_info env sessionID s)) /\
  store_unchanged s (fst (Routes.subscription address s)) /\
  store_unchanged s (fst (Routes.portfolio env random sessionID timeRange s)) /\
  store_unchanged s (fst (Routes.portfolio_summary env sessionID s)) /\
  store_unchanged s (fst (Routes.preferences_get env sessionID s)) /\
  store_unchanged s (fst (Routes.transactions_get env sessionID filter s)) /\
  store_unchanged s (fst (Routes.risk_profile env sessionID s)).
Proof.
  split; [|split; [|split; [|split; [|split; [|split; [|split]]]]]].
  - apply (reads_answer 500). apply reads_bind; [apply reads_walletStatus|intros; apply reads_ret].
  - apply reads_wallet_info.
  - apply reads_subscription.
  - apply reads_for_user. intros. apply pure_getUserPortfolio.
  - apply reads_for_user. intros. apply pure_getPortfolioSummary.
  - apply reads_for_user. intros. apply pure_getUserPreferences.
  - apply (reads_answer 500). apply reads_bind; [apply reads_walletStatus|]. intros ws.
    destruct (_ || _); [apply reads_ret|].
    apply reads_bind; [apply reads_on_db, pure_getUserTransactions|intros; apply reads_ret].
  - unfold Routes.risk_profile.
    pose proof (reads_risk_profile_body env sessionID s) as Hr.
    match goal with
    | |- context [match ?m s with _ => _ end] => destruct (m s) as [s' [r|e]]; apply Hr
    end.
Qed.

Lemma unconnected_iff env sessionID s :
  unconnected env sessionID s <->
  match Routes.connectedWallets s !! sessionID with
  | Some walletData =>
      exists e, Routes.getBalance env (SolanaService.wd_address walletData) = Throw e
  | None => True
  end.
Proof.
  unfold unconnected, SolanaService.getWalletStatus.
  destruct (Routes.connectedWallets s !! sessionID) as [wd|]; [|tauto].
  destruct (Routes.getBalance env _) as [b|e]; split; eauto; try discriminate.
  intros [e' He]. discriminate.
Qed.

(** X21: for a session that is not reported as connected the handlers that
    need a wallet answer 401 and change nothing at all, the risk profile is
    the default one, and the status says so. *)
Theorem unconnected_refused env random sessionID timeRange filter body message s :
  unconnected env sessionID s ->
  Routes.wallet_info env sessionID s = (s, Routes.Refused 401 (Some "Not connected")) /\
  Routes.portfolio env random sessionID timeRange s
    = (s, Routes.Refused 401 (Some "Not connected")) /\
  Routes.portfolio_summary env sessionID s = (s, Routes.Refused 401 (Some "Not connected")) /\
  Routes.preferences_get env sessionID s = (s, Routes.Refused 401 (Some "Not connected")) /\
  Routes.transactions_get env sessionID filter s
    = (s, Routes.Refused 401 (Some "Not connected or user not found")) /\
  Routes.invest env sessionID body s
    = (s, Routes.error_response 401 (Some "Not connected or user not found")) /\
  Routes.risk_profile env sessionID s = (s, Routes.Replied Storage.default_risk_profile) /\
  Routes.wallet_status env sessionID s = (s, Routes.Replied SolanaService.not_connected) /\
  (Routes.message_of message <> None ->
   Routes.chat_handler env sessionID message s
     = (s, Routes.error_response 401 (Some "Wallet not connected"))).
Proof.
  intros H. unfold unconnected in H.
  unfold Routes.wallet_info, Routes.portfolio, Routes.portfolio_summary, Routes.preferences_get,
    Routes.transactions_get, Routes.invest, Routes.risk_profile, Routes.wallet_status,
    Routes.chat_handler, Routes.for_user, Routes.answer, Routes.handle, sx_bind, sx_ret,
    Routes.walletStatus, Routes.resolve_userId.
  rewrite H. cbn. repeat split.
  intros Hm. destruct (Routes.message_of message); [|congruence].
  cbv beta. rewrite H. reflexivity.
Qed.

Lemma unconnected_refused_witness :
  Routes.wallet_info sample_env "s9" sample_server
    = (sample_server, Routes.Refused 401 (Some "Not connected")) /\
  Routes.portfolio sample_env sample_random "s9" (Some "1W") sample_server
    = (sample_server, Routes.Refused 401 (Some "Not connected")) /\
  Routes.portfolio_summary sample_env "s9" sample_server
    = (sample_server, Routes.Refused 401 (Some "Not connected")) /\
  Routes.preferences_get sample_env "s9" sample_server
    = (sample_server, Routes.Refused 401 (Some "Not connected")) /\
  Routes.transactions_get sample_env "s9" None sample_server
    = (sample_server, Routes.Refused 401 (Some "Not connected or user not found")) /\
  Routes.invest sample_env "s9" sample_invest_body sample_server
    = (sample_server, Routes.error_response 401 (Some "Not connected or user not found")) /\
  Routes.risk_profile sample_env "s9" sample_server
    = (sample_server, Routes.Replied Storage.default_risk_profile) /\
  Routes.wallet_status sample_env "s9" sample_server
    = (sample_server, Routes.Replied SolanaService.not_connected) /\
  (Routes.message_of (JStr "hello") <> None ->
   Routes.chat_handler sample_env "s9" (JStr "hello") sample_server
     = (sample_server, Routes.error_response 401 (Some "Wallet not connected"))).
Proof.
  apply (unconnected_refused sample_env sample_random "s9" (Some "1W") None sample_invest_body
           (JStr "hello") sample_server).
  reflexivity.
Defined.

(** X22: [GET /api/user/risk-profile] never answers an error: the profile
    is the default one, or its level is the risk tolerance stored for the
    user of the session. *)
Theorem risk_profile_always_answers env sessionID s :
  exists profile,
    snd (Routes.risk_profile env sessionID s) = Routes.Replied profile /\
    (profile = Storage.default_risk_profile \/
     exists walletData userId p,
       Routes.connectedWallets s !! sessionID = Some walletData /\
       session_user (Routes.db s) walletData = Some userId /\
       Db.userPreference_findUnique (Routes.db s) userId = Some p /\
       Storage.level profile = Db.pr_riskTolerance p).
Proof.
  destruct s as [d wallets chats].
  unfold Routes.risk_profile, Routes.walletStatus, Routes.resolve_userId, sx_bind, sx_ret.
  rewrite walletStatus_cases. cbn [Routes.connectedWallets Routes.db].
  destruct (wallets !! sessionID) as [[addr ouid]|] eqn:Hwd; [|cbn; eauto].
  unfold status_of, session_user. cbn [SolanaService.wd_address SolanaService.wd_userId].
  destruct (Routes.getBalance env addr) as [lamports|e]; [|cbn; eauto].
  cbn [SolanaService.ws_userId SolanaService.ws_address Routes.truthy_string].
  assert (Hprofile : forall uid d',
            d' = d ->
            exists profile,
              Storage.getUserRiskProfile (toString uid) d' = (d', Ok profile) /\
              (profile = Storage.default_risk_profile \/
               exists p, Db.userPreference_findUnique d uid = Some p /\
                         Storage.level profile = Db.pr_riskTolerance p)).
  { intros uid d' ->. unfold Storage.getUserRiskProfile, Storage.getUserPreferences, sx_bind.
    rewrite parseInt_toString.
    destruct (Db.userPreference_findUnique d uid) as [p|]; eexists; (split; [reflexivity|]);
      [right; eauto|now left]. }
  destruct (truthy_id ouid) eqn:Ht; cbn [negb andb].
  - destruct ouid as [uid|]; [|discriminate]. rewrite Ht.
    cbn [default id]. unfold Routes.on_db. cbn [Routes.db Routes.connectedWallets Routes.userChats].
    destruct (Hprofile uid d eq_refl) as (profile & -> & Hp).
    cbn [fst snd]. exists profile. split; [reflexivity|].
    destruct Hp as [Hp|(p & Hp & Hl)]; [now left|right].
    eexists _, uid, p. repeat split; eauto.
    cbn [SolanaService.wd_userId SolanaService.wd_address]. rewrite Ht. reflexivity.
  - destruct (negb (addr =? "")%string); cbn [andb].
    2: { rewrite Ht. cbn. eauto. }
    unfold Routes.on_db, Storage.getUserByWalletAddress.
    cbn [Routes.db Routes.connectedWallets Routes.userChats default id].
    destruct (Db.user_findUnique_wallet d addr) as [u|] eqn:Hu.
    2: { cbn [fst snd]. rewrite Ht. cbn. eauto. }
    unfold Routes.on_wallets, SolanaService.setUserIdForSession.
    cbn [Routes.db Routes.connectedWallets Routes.userChats fst snd]. rewrite Hwd.
    cbn [Routes.db Routes.connectedWallets Routes.userChats fst snd truthy_id].
    destruct (Db.u_id u =? 0) eqn:Hz; cbn [negb]; [cbn; eauto|].
    cbn [default id Routes.db]. 
    destruct (Hprofile (Db.u_id u) d eq_refl) as (profile & -> & Hp).
    cbn [fst snd]. exists profile. split; [reflexivity|].
    destruct Hp as [Hp|(p & Hp & Hl)]; [now left|right].
    eexists _, (Db.u_id u), p. repeat split; eauto.
    cbn [SolanaService.wd_userId SolanaService.wd_address]. rewrite Ht, Hu. reflexivity.
Qed.

(** ** The chat histories *)

Lemma limit_history_spec (base : list OpenAIService.ChatMessage) first rest u a :
  base = first :: rest ->
  let history := OpenAIService.limit_history (base ++ [u; a]) in
  (3 <= length history <= 10)%nat /\
  head history = Some first /\
  exists before, history = (before ++ [u; a])%list.
Proof.
  intros -> history. subst history. unfold OpenAIService.limit_history.
  rewrite length_app. cbn [length].
  destruct (10 <? S (length rest) + 2)%nat eqn:E.
  - apply Nat.ltb_lt in E. cbn [app firstn]. rewrite take_0. cbn [app].
    assert (Hk : (S (length rest) + 2 - 9 = S (length rest - 7))%nat) by lia.
    rewrite Hk. cbn [skipn].
    rewrite skipn_app.
    replace (length rest - 7 - length rest)%nat with 0%nat by lia. cbn [skipn].
    assert (Hl : length (drop (length rest - 7) rest) = 7%nat) by (rewrite length_drop; lia).
    repeat split.
    + cbn [length]. rewrite length_app, Hl. cbn [length]. lia.
    + cbn [length]. rewrite length_app, Hl. cbn [length]. lia.
    + exists (first :: skipn (length rest - 7) rest). reflexivity.
  - apply Nat.ltb_ge in E. repeat split.
    + rewrite length_app. cbn [length]. lia.
    + rewrite length_app. cbn [length]. lia.
    + exists (first :: rest). reflexivity.
Qed.

(** X23: after [processMessage] the history kept for the session has
    between 3 and 10 messages; it still opens with the message the
    conversation opened with (the system prompt for a new session) and ends
    with the user's message as typed, without the yield context, followed
    by the answer returned; no other session's history changed. *)
Theorem processMessage_history env opportunities sessionId message userChats :
  let run := OpenAIService.processMessage env opportunities sessionId message userChats in
  exists history before,
    fst run !! sessionId = Some history /\
    (3 <= length history <= 10)%nat /\
    head history = Some (opening env sessionId userChats) /\
    history =
      (before ++ [OpenAIService.mkChatMessage OpenAIService.user message;
                  OpenAIService.mkChatMessage OpenAIService.assistant
                    (OpenAIService.response (snd run))])%list /\
    (forall other, other <> sessionId -> fst run !! other = userChats !! other).
Proof.
  unfold OpenAIService.processMessage. cbv zeta. cbn [fst snd OpenAIService.response].
  set (base := match default [] (userChats !! sessionId) with
               | [] => [OpenAIService.mkChatMessage OpenAIService.system
                          (OpenAIService.getSystemPrompt env)]
               | _ :: _ => default [] (userChats !! sessionId)
               end).
  assert (Hbase : exists rest, base = opening env sessionId userChats :: rest).
  { unfold base, opening. destruct (userChats !! sessionId) as [[|first rest]|]; cbn; eauto. }
  destruct Hbase as [rest Hbase].
  match goal with
  | |- context [OpenAIService.limit_history ((base ++ [?u]) ++ [?a])] =>
      destruct (limit_history_spec base _ rest u a Hbase) as (Hlen & Hhead & before & Hbefore);
      rewrite <- app_assoc; cbn [app]
  end.
  eexists _, before. rewrite lookup_insert_eq. split; [reflexivity|].
  split; [exact Hlen|]. split; [exact Hhead|]. split; [exact Hbefore|].
  intros other Hne. apply lookup_insert_ne. congruence.
Qed.

(** X24: [clearChatHistory] forgets the session and no other one: the next
    [processMessage] answers as in a server that never saw the session,
    and keeps exactly the system prompt, the message and the answer. *)
Theorem clearChatHistory_fresh env opportunities sessionId message userChats :
  let cleared := OpenAIService.clearChatHistory sessionId userChats in
  let run := OpenAIService.processMessage env opportunities sessionId message cleared in
  cleared !! sessionId = None /\
  (forall other, other <> sessionId -> cleared !! other = userChats !! other) /\
  snd run = snd (OpenAIService.processMessage env opportunities sessionId message ∅) /\
  fst run !! sessionId =
    Some [OpenAIService.mkChatMessage OpenAIService.system (OpenAIService.getSystemPrompt env);
          OpenAIService.mkChatMessage OpenAIService.user message;
          OpenAIService.mkChatMessage OpenAIService.assistant
            (OpenAIService.response (snd run))].
Proof.
  cbv zeta. unfold OpenAIService.clearChatHistory.
  split; [apply lookup_delete_eq|]. split; [intros other Hne; apply lookup_delete_ne; congruence|].
  unfold OpenAIService.processMessage. cbv zeta.
  rewrite lookup_delete_eq, lookup_empty. cbn [default fst snd OpenAIService.response].
  split; [reflexivity|]. rewrite lookup_insert_eq. reflexivity.
Qed.

(** ** Balances, liquidity and the farm *)

(** X25: [getRayBalance] and [getUsdcBalance] never throw.  [found] is
    true only when the wallet has at least one account of the mint and
    each of them was read, the balance then being the sum read; in every
    other case the balance is 0. *)
Theorem getTokenBalance_total mint c :
  exists b,
    RayStaking.getTokenBalance mint c = Ok b /\
    (RayStaking.found b = true ->
     exists accounts,
       Chain.getTokenAccountsByOwner c mint = Ok accounts /\ accounts <> [] /\
       RayStaking.sum_parsed c accounts 0 = Ok (RayStaking.balance b)) /\
    (RayStaking.found b = false -> RayStaking.balance b = 0%Q) /\
    RayStaking.getRayBalance c = RayStaking.getTokenBalance RayStaking.rayMint c /\
    RayStaking.getUsdcBalance c = RayStaking.getTokenBalance RayStaking.usdcMint c.
Proof.
  unfold RayStaking.getTokenBalance, try_catch, res_bind.
  destruct (Chain.getTokenAccountsByOwner c mint) as [[|account accounts]|e] eqn:Ha.
  - eexists. split; [reflexivity|]. cbn. repeat split; auto. discriminate.
  - destruct (RayStaking.sum_parsed c (account :: accounts) 0) as [total|e] eqn:Hs.
    + eexists. split; [reflexivity|]. cbn. repeat split; auto; [|discriminate].
      intros _. exists (account :: accounts). repeat split; [discriminate|exact Hs].
    + eexists. split; [reflexivity|]. cbn. repeat split; auto. discriminate.
  - eexists. split; [reflexivity|]. cbn. repeat split; auto. discriminate.
Qed.

(** X26: [getRayLpBalance] never throws: it returns 0, or, when the SDK
    starts, the farm is fetched and an account of its share token is
    listed, the raw amount of that account scaled by nine decimals. *)
Theorem getRayLpBalance_total c :
  exists lp,
    RayStaking.getRayLpBalance c = Ok lp /\
    (lp = 0%Q \/
     exists raydium farmInfo rest lpTokenAccount,
       Chain.initSdk c = Ok raydium /\
       Chain.fetchFarmInfoById raydium RayStaking.targetFarm = Ok (farmInfo :: rest) /\
       RayStaking.find_account (Chain.address (Chain.lpMint farmInfo)) raydium
         = Some lpTokenAccount /\
       lp = (inject_Z (Chain.ta_amount lpTokenAccount) / inject_Z (10 ^ 9))%Q).
Proof.
  unfold RayStaking.getRayLpBalance, try_catch, res_bind.
  destruct (Chain.initSdk c) as [raydium|e] eqn:Hi; [|eauto].
  destruct (Chain.fetchFarmInfoById raydium RayStaking.targetFarm) as [[|farmInfo rest]|e] eqn:Hf;
    [eauto| |eauto].
  destruct (RayStaking.find_account _ raydium) as [account|] eqn:Ha; [|eauto].
  eexists. split; [reflexivity|]. right. eexists _, _, _, _. repeat split; eauto.
Qed.

Lemma sign_send_confirm_ok c transaction txId :
  RayStaking.sign_send_confirm c transaction = Ok txId ->
  Chain.confirmTransaction c txId = Ok None.
Proof.
  unfold RayStaking.sign_send_confirm, res_bind.
  destruct (Chain.signTransaction c transaction) as [signedTx|]; [|discriminate].
  destruct (if Chain.is_versioned transaction then _ else _) as [sent|]; [|discriminate].
  destruct (Chain.confirmTransaction c sent) as [[err|]|] eqn:Hc; try discriminate.
  intros [= <-]. exact Hc.
Qed.

Lemma Qle_bool_false_lt (a b : Q) : Qle_bool a b = false -> (b < a)%Q.
Proof.
  intros H. apply Qnot_le_lt. intros C. apply Qle_bool_iff in C. congruence.
Qed.

Lemma Math_min_le_l a b : (Math_min a b <= a)%Q.
Proof.
  unfold Math_min. destruct (Qle_bool a b) eqn:E; [apply Qle_refl|].
  apply Qlt_le_weak, Qle_bool_false_lt. exact E.
Qed.

(** X27: [addRayUsdcLiquidity] returns a signature only when the pool is a
    valid AMM pool, the SDK in use lists a RAY and a USDC account, the
    amount put in (the amount asked, capped by the RAY balance) is
    positive, the USDC balance covers the pair amount at one percent of
    slippage, and the confirmation of the transaction reports no error.
    The SDK in use is the one started first, or, when that one lists no RAY
    account while the wallet has one, the one started again. *)
Theorem addRayUsdcLiquidity_success c rayAmount txId :
  RayStaking.addRayUsdcLiquidity c rayAmount = Ok txId ->
  exists first raydium poolInfo rest rayTokenAccount usdcTokenAccount pairAmount,
    Chain.initSdk c = Ok first /\
    Chain.fetchPoolById first RayStaking.poolId = Ok (poolInfo :: rest) /\
    Chain.isValidAmm c (Chain.programId poolInfo) = true /\
    (raydium = first \/
     (RayStaking.find_account (Chain.address (Chain.mintA poolInfo)) first = None /\
      (exists account accounts,
         Chain.getTokenAccountsByOwner c (Chain.address (Chain.mintA poolInfo))
           = Ok (account :: accounts)) /\
      Chain.reloadSdk c = Ok raydium)) /\
    RayStaking.find_account (Chain.address (Chain.mintA poolInfo)) raydium
      = Some rayTokenAccount /\
    RayStaking.find_account (Chain.address (Chain.mintB poolInfo)) raydium
      = Some usdcTokenAccount /\
    let finalRayAmount :=
      Math_min rayAmount
        (RayStaking.ui_amount rayTokenAccount (Chain.decimals (Chain.mintA poolInfo))) in
    (0 < finalRayAmount)%Q /\ (finalRayAmount <= rayAmount)%Q /\
    Chain.computePairAmount raydium poolInfo finalRayAmount true (1 # 100) = Ok pairAmount /\
    (Chain.maxAnotherAmount pairAmount <=
     RayStaking.ui_amount usdcTokenAccount (Chain.decimals (Chain.mintB poolInfo)))%Q /\
    Chain.confirmTransaction c txId = Ok None.
Proof.
  unfold RayStaking.addRayUsdcLiquidity, try_catch, RayStaking.addRayUsdcLiquidity_try.
  destruct (Qle_bool rayAmount 0) eqn:Hpos; [discriminate|].
  unfold res_bind at 1. destruct (Chain.initSdk c) as [first|] eqn:Hi; [|discriminate].
  unfold res_bind at 1.
  destruct (Chain.fetchPoolById first RayStaking.poolId) as [[|poolInfo rest]|] eqn:Hp;
    try discriminate.
  cbn [RayStaking.first_or_TypeError res_bind].
  destruct (Chain.isValidAmm c (Chain.programId poolInfo)) eqn:Hv; [|discriminate].
  cbn [negb].
  (* the SDK in use: the first one, or the one started again *)
  match goal with
  | |- match res_bind ?m _ with _ => _ end = _ -> _ =>
      destruct m as [raydium|] eqn:Hr; [|discriminate]
  end.
  cbn [res_bind].
  destruct (RayStaking.find_account (Chain.address (Chain.mintA poolInfo)) raydium)
    as [rayTokenAccount|] eqn:Hray.
  2: { destruct (Chain.getTokenAccountsByOwner c _); discriminate. }
  assert (Huse : raydium = first \/
     (RayStaking.find_account (Chain.address (Chain.mintA poolInfo)) first = None /\
      (exists account accounts,
         Chain.getTokenAccountsByOwner c (Chain.address (Chain.mintA poolInfo))
           = Ok (account :: accounts)) /\
      Chain.reloadSdk c = Ok raydium)).
  { clear - Hr. destruct (RayStaking.find_account _ first) eqn:Hfirst; [left; congruence|].
    destruct (Chain.getTokenAccountsByOwner c _) as [[|a l]|] eqn:Ha; cbn in Hr;
      [left; congruence| |discriminate].
    right. split; [reflexivity|]. split; [eauto|exact Hr]. }
  clear Hr. cbv zeta.
  destruct (Qle_bool (Math_min rayAmount _) 0) eqn:Hfinal; [discriminate|].
  destruct (Chain.computePairAmount raydium poolInfo _ true (1 # 100)) as [pairAmount|] eqn:Hpair;
    [|discriminate].
  cbn [res_bind].
  destruct (RayStaking.find_account (Chain.address (Chain.mintB poolInfo)) raydium)
    as [usdcTokenAccount|] eqn:Husdc; [|discriminate].
  destruct (Qle_bool (Chain.maxAnotherAmount pairAmount) _) eqn:Henough; [|discriminate].
  cbn [negb].
  destruct (_ || _); [discriminate|].
  destruct (Chain.addLiquidity raydium poolInfo _ _ _) as [transaction|]; [|discriminate].
  cbn [res_bind].
  destruct (RayStaking.sign_send_confirm c transaction) as [sent|] eqn:Hs; [|discriminate].
  intros [= <-]. exists first, raydium, poolInfo, rest, rayTokenAccount, usdcTokenAccount, pairAmount.
  repeat split; eauto.
  - apply Qle_bool_false_lt. exact Hfinal.
  - apply Math_min_le_l.
  - apply Qle_bool_iff. exact Henough.
  - exact (sign_send_confirm_ok _ _ _ Hs).
Qed.

Lemma addRayUsdcLiquidity_success_witness :
  RayStaking.find_account RayStaking.rayMint (without_accounts (sample_raydium 200000000 1000))
    = None /\
  exists first raydium poolInfo rest rayTokenAccount usdcTokenAccount pairAmount,
    Chain.initSdk late_connection = Ok first /\
    Chain.fetchPoolById first RayStaking.poolId = Ok (poolInfo :: rest) /\
    Chain.isValidAmm late_connection (Chain.programId poolInfo) = true /\
    (raydium = first \/
     (RayStaking.find_account (Chain.address (Chain.mintA poolInfo)) first = None /\
      (exists account accounts,
         Chain.getTokenAccountsByOwner late_connection (Chain.address (Chain.mintA poolInfo))
           = Ok (account :: accounts)) /\
      Chain.reloadSdk late_connection = Ok raydium)) /\
    RayStaking.find_account (Chain.address (Chain.mintA poolInfo)) raydium
      = Some rayTokenAccount /\
    RayStaking.find_account (Chain.address (Chain.mintB poolInfo)) raydium
      = Some usdcTokenAccount /\
    let finalRayAmount :=
      Math_min (50 # 1)
        (RayStaking.ui_amount rayTokenAccount (Chain.decimals (Chain.mintA poolInfo))) in
    (0 < finalRayAmount)%Q /\ (finalRayAmount <= 50 # 1)%Q /\
    Chain.computePairAmount raydium poolInfo finalRayAmount true (1 # 100) = Ok pairAmount /\
    (Chain.maxAnotherAmount pairAmount <=
     RayStaking.ui_amount usdcTokenAccount (Chain.decimals (Chain.mintB poolInfo)))%Q /\
    Chain.confirmTransaction late_connection "sig-add-liquidity" = Ok None.
Proof.
  split; [reflexivity|].
  apply (addRayUsdcLiquidity_success late_connection (50 # 1) "sig-add-liquidity").
  reflexivity.
Defined.

(** X28: [stakeRayToFarm] returns a signature only when the farm was
    fetched, the SDK lists an account of its share token with an amount
    that is not zero, that whole amount was deposited, and the confirmation
    of the transaction reports no error. *)
Theorem stakeRayToFarm_success c txId :
  RayStaking.stakeRayToFarm c = Ok txId ->
  exists raydium farmInfo rest lpTokenAccount transaction signers,
    Chain.initSdk c = Ok raydium /\
    Chain.fetchFarmInfoById raydium RayStaking.targetFarm = Ok (farmInfo :: rest) /\
    RayStaking.find_account (Chain.address (Chain.lpMint farmInfo)) raydium
      = Some lpTokenAccount /\
    Chain.ta_amount lpTokenAccount <> 0 /\
    Chain.farm_deposit raydium farmInfo (Chain.ta_amount lpTokenAccount)
      = Ok (transaction, signers) /\
    Chain.confirmTransaction c txId = Ok None.
Proof.
  unfold RayStaking.stakeRayToFarm, try_catch, RayStaking.stakeRayToFarm_try, res_bind.
  destruct (Chain.initSdk c) as [raydium|] eqn:Hi; [|discriminate].
  destruct (Chain.fetchFarmInfoById raydium RayStaking.targetFarm) as [[|farmInfo rest]|] eqn:Hf;
    try discriminate.
  destruct (RayStaking.find_account _ raydium) as [account|] eqn:Ha; [|discriminate].
  destruct (Z.eqb_spec (Chain.ta_amount account) 0) as [|Hne]; [discriminate|].
  destruct (Chain.farm_deposit raydium farmInfo _) as [[transaction signers]|] eqn:Hd;
    [|discriminate].
  cbn [fst]. destruct (RayStaking.sign_send_confirm c transaction) as [sent|] eqn:Hs;
    [|discriminate].
  intros [= <-]. eexists _, _, _, _, _, _. repeat split; eauto.
  exact (sign_send_confirm_ok _ _ _ Hs).
Qed.

Lemma stakeRayToFarm_success_witness :
  exists raydium farmInfo rest lpTokenAccount transaction signers,
    Chain.initSdk (sample_connection 200000000 1000 None) = Ok raydium /\
    Chain.fetchFarmInfoById raydium RayStaking.targetFarm = Ok (farmInfo :: rest) /\
    RayStaking.find_account (Chain.address (Chain.lpMint farmInfo)) raydium
      = Some lpTokenAccount /\
    Chain.ta_amount lpTokenAccount <> 0 /\
    Chain.farm_deposit raydium farmInfo (Chain.ta_amount lpTokenAccount)
      = Ok (transaction, signers) /\
    Chain.confirmTransaction (sample_connection 200000000 1000 None) "sig-farm-deposit"
      = Ok None.
Proof.
  apply (stakeRayToFarm_success (sample_connection 200000000 1000 None) "sig-farm-deposit").
  reflexivity.
Defined.

Lemma send_all_reporting err c txs : forall lastTxId,
  SolanaSwap.send_all (reporting err c) txs lastTxId = SolanaSwap.send_all c txs lastTxId.
Proof.
  induction txs as [|tx txs IH]; intros lastTxId; [reflexivity|].
  cbn [SolanaSwap.send_all reporting Chain.signTransaction Chain.sendRawTransaction
       Chain.getLatestBlockhash Chain.confirmTransaction].
  unfold res_bind.
  destruct (Chain.signTransaction c tx) as [signedTx|]; [|reflexivity].
  destruct (Chain.sendRawTransaction c signedTx) as [txId|]; [|reflexivity].
  destruct (Chain.getLatestBlockhash c); [|reflexivity].
  destruct (Chain.confirmTransaction c txId); [apply IH|reflexivity].
Qed.

Lemma liquidity_confirmed c rayAmount txId :
  RayStaking.addRayUsdcLiquidity c rayAmount = Ok txId ->
  Chain.confirmTransaction c txId = Ok None.
Proof.
  unfold RayStaking.addRayUsdcLiquidity, try_catch, RayStaking.addRayUsdcLiquidity_try.
  destruct (Qle_bool rayAmount 0); [discriminate|].
  unfold res_bind at 1. destruct (Chain.initSdk c) as [raydium|]; [|discriminate].
  unfold res_bind at 1.
  destruct (Chain.fetchPoolById raydium RayStaking.poolId) as [[|poolInfo rest]|];
    try discriminate.
  cbn [RayStaking.first_or_TypeError res_bind].
  destruct (negb _); [discriminate|].
  match goal with
  | |- match res_bind ?m _ with _ => _ end = _ -> _ => destruct m as [r|]; [|discriminate]
  end.
  cbn [res_bind].
  destruct (RayStaking.find_account (Chain.address (Chain.mintA poolInfo)) r).
  2: { destruct (Chain.getTokenAccountsByOwner c _); discriminate. }
  cbv zeta. destruct (Qle_bool (Math_min rayAmount _) 0); [discriminate|].
  destruct (Chain.computePairAmount r poolInfo _ true (1 # 100)); [|discriminate].
  cbn [res_bind].
  destruct (RayStaking.find_account (Chain.address (Chain.mintB poolInfo)) r); [|discriminate].
  destruct (negb _); [discriminate|].
  destruct (_ || _); [discriminate|].
  destruct (Chain.addLiquidity r poolInfo _ _ _) as [transaction|]; [|discriminate].
  cbn [res_bind].
  destruct (RayStaking.sign_send_confirm c transaction) as [sent|] eqn:Hs; [|discriminate].
  intros [= <-]. exact (sign_send_confirm_ok _ _ _ Hs).
Qed.

Lemma stake_confirmed c txId :
  RayStaking.stakeRayToFarm c = Ok txId -> Chain.confirmTransaction c txId = Ok None.
Proof.
  unfold RayStaking.stakeRayToFarm, try_catch, RayStaking.stakeRayToFarm_try, res_bind.
  destruct (Chain.initSdk c) as [raydium|]; [|discriminate].
  destruct (Chain.fetchFarmInfoById raydium RayStaking.targetFarm) as [[|farmInfo rest]|];
    try discriminate.
  destruct (RayStaking.find_account _ raydium) as [account|]; [|discriminate].
  destruct (_ =? _); [discriminate|].
  destruct (Chain.farm_deposit raydium farmInfo _) as [[transaction signers]|]; [|discriminate].
  cbn [fst]. destruct (RayStaking.sign_send_confirm c transaction) as [sent|] eqn:Hs;
    [|discriminate].
  intros [= <-]. exact (sign_send_confirm_ok _ _ _ Hs).
Qed.

Lemma reporting_error_confirms err c txId :
  Chain.confirmTransaction (reporting (Some err) c) txId <> Ok None.
Proof.
  cbn [reporting Chain.confirmTransaction]. destruct (Chain.confirmTransaction c txId); discriminate.
Qed.

(** X29: a confirmation that reports an error goes unnoticed by
    [swapSolToRay], whose outcome is the one of a clean confirmation, while
    [addRayUsdcLiquidity] and [stakeRayToFarm] never return a signature
    then. *)
Theorem confirmation_error_noticed api c amountSol rayAmount err :
  SolanaSwap.swapSolToRay api (reporting (Some err) c) amountSol
    = SolanaSwap.swapSolToRay api c amountSol /\
  (forall txId, RayStaking.addRayUsdcLiquidity (reporting (Some err) c) rayAmount <> Ok txId) /\
  (forall txId, RayStaking.stakeRayToFarm (reporting (Some err) c) <> Ok txId).
Proof.
  split; [|split].
  - unfold SolanaSwap.swapSolToRay, SolanaSwap.swapSolToRay_try, try_catch, res_bind.
    destruct (SolanaSwap.priorityFee api); [|reflexivity].
    destruct (SolanaSwap.computeSwap api _ 50); [|reflexivity].
    destruct (SolanaSwap.swapTransactions api _ _); [|reflexivity].
    rewrite send_all_reporting. reflexivity.
  - intros txId H. apply liquidity_confirmed in H. exact (reporting_error_confirms _ _ _ H).
  - intros txId H. apply stake_confirmed in H. exact (reporting_error_confirms _ _ _ H).
Qed.

(** X30: when the swap API answers with no transaction, [swapSolToRay]
    signs and sends nothing and returns [null]; the workflow still shows
    "Conversion successful" and asks the server to record the position in
    RAY. *)
Theorem swap_without_transactions env sessionID cl m s fee quote :
  SolanaSwap.priorityFee (InvestmentModal.api cl) = Ok fee ->
  SolanaSwap.computeSwap (InvestmentModal.api cl)
    (SolanaSwap.lamports (InvestmentModal.amountValue m)) 50 = Ok quote ->
  SolanaSwap.swapTransactions (InvestmentModal.api cl) fee quote = Ok [] ->
  InvestmentModal.isSolRayPair (InvestmentModal.opportunity m) = true ->
  InvestmentModal.walletReady m = true ->
  InvestmentModal.autoStake m = false ->
  SolanaSwap.swapSolToRay (InvestmentModal.api cl) (InvestmentModal.connection cl)
    (InvestmentModal.amountValue m) = Ok None /\
  shown "Conversion successful" (fst (InvestmentModal.stages cl m)) = true /\
  snd (InvestmentModal.stages cl m) = Ok tt /\
  records_token "RAY" (fst (snd (InvestmentModal.mutationFn env sessionID cl m s))).
Proof.
  intros Hfee Hquote Htxs Hpair Hready Hauto.
  assert (Hswap : SolanaSwap.swapSolToRay (InvestmentModal.api cl) (InvestmentModal.connection cl)
                    (InvestmentModal.amountValue m) = Ok None).
  { unfold SolanaSwap.swapSolToRay, SolanaSwap.swapSolToRay_try, try_catch, res_bind.
    rewrite Hfee, Hquote, Htxs. reflexivity. }
  pose proof (stages_swap_only cl m None Hpair Hready Hauto Hswap) as Hstages.
  split; [exact Hswap|]. rewrite Hstages. split; [reflexivity|]. split; [reflexivity|].
  destruct (mutationFn_recorded env sessionID cl m _ s Hstages) as [Hposts _].
  unfold records_token. eexists. split; [exact Hposts|].
  unfold InvestmentModal.record_body, InvestmentModal.invest_body. rewrite Hpair. reflexivity.
Qed.

Lemma swap_without_transactions_witness :
  let cl := sample_client idle_api (sample_connection 200000000 1000 None) in
  SolanaSwap.swapSolToRay (InvestmentModal.api cl) (InvestmentModal.connection cl)
    (InvestmentModal.amountValue (sample_modal false)) = Ok None /\
  shown "Conversion successful" (fst (InvestmentModal.stages cl (sample_modal false))) = true /\
  snd (InvestmentModal.stages cl (sample_modal false)) = Ok tt /\
  records_token "RAY"
    (fst (snd (InvestmentModal.mutationFn sample_env "s1" cl (sample_modal false)
                 sample_server))).
Proof.
  apply (swap_without_transactions sample_env "s1"
           (sample_client idle_api (sample_connection 200000000 1000 None))
           (sample_modal false) sample_server 10000
           (SolanaSwap.mkSwapCompute 1000000000 50000000000 49750000000 50));
    reflexivity.
Defined.
